(** * usb_pd_parser: TOC parsing, content ranges and TOC/content reconciliation

    A shallow embedding of [parser/utils.py], [parser/core.py] and
    [parser/validation.py], and the properties of the line parser, the
    section ordering, the content range resolver and the validation engine.

    Conventions of the embedding.
    - A Python [str] is a [string] of the characters 0 to 255 (the code
      points of Latin-1; texts with other code points are outside the
      embedding); the classes [\d] and [\s], [str.isspace], [str.isdigit],
      [str.strip], [str.lower] and [int] are those of CPython on these
      characters, and [int] has CPython's limit of 4300 digits.
    - A Python [int] is a [Z]; [len] is converted with [Z.of_nat].
    - A call that may raise returns a [result]; [let*] is the sequencing of
      statements, an exception ends the call.
    - A PDF is the list of its pages, each page the value of
      [page.extract_text()]: a text or [None]. *)

From Stdlib Require Import ZArith List String Ascii Bool Lia Floats.
From Stdlib Require Import Sorting.Sorted Sorting.Permutation.
From stdpp Require Import gmap strings.
Import ListNotations.

Open Scope string_scope.
Open Scope Z_scope.

(** ** Exceptions *)

Inductive exn : Set :=
| ValueError
| IndexError
| AttributeError
| StopIteration.

Inductive result (A : Type) : Type :=
| Ok (a : A)
| Raise (e : exn).

Arguments Ok {A} a.
Arguments Raise {A} e.

Definition bind {A B : Type} (m : result A) (k : A -> result B) : result B :=
  match m with
  | Ok a => k a
  | Raise e => Raise e
  end.

Notation "'let*' x ':=' m 'in' k" := (bind m (fun x => k))
  (at level 10, x name, m at level 100, k at level 200).

(** [[f(x) for x in l]] where [f] may raise: the first exception ends the
    comprehension. *)
Fixpoint mapM {A B : Type} (f : A -> result B) (l : list A) : result (list B) :=
  match l with
  | [] => Ok []
  | x :: tl =>
      let* y := f x in
      let* ys := mapM f tl in
      Ok (y :: ys)
  end.

(** ** Python strings *)

Module PyStr.

Definition code (a : ascii) : nat := nat_of_ascii a.

(** [str.isspace]: TAB, LF, VT, FF, CR, FS, GS, RS, US, SPACE, the next
    line control (133) and the no-break space (160). The same characters
    make [\s] and are removed by [str.strip]. *)
Definition is_space (a : ascii) : bool :=
  let n := code a in
  ((9 <=? n)%nat && (n <=? 13)%nat) || ((28 <=? n)%nat && (n <=? 32)%nat)
  || (n =? 133)%nat || (n =? 160)%nat.

(** [\d], and the digits that [int] reads: 0 to 9. *)
Definition is_digit (a : ascii) : bool :=
  let n := code a in (48 <=? n)%nat && (n <=? 57)%nat.

(** The characters that [str.lower] changes: A to Z and the capital
    letters of Latin-1, 192 to 222 without the multiplication sign (215);
    each has its small letter 32 places further. *)
Definition is_upper (a : ascii) : bool :=
  let n := code a in
  ((65 <=? n)%nat && (n <=? 90)%nat)
  || ((192 <=? n)%nat && (n <=? 222)%nat && negb (n =? 215)%nat).

Definition lower_char (a : ascii) : ascii :=
  if is_upper a then ascii_of_nat (code a + 32) else a.

(** [s.lower()] *)
Fixpoint lower (s : string) : string :=
  match s with
  | EmptyString => EmptyString
  | String a s' => String (lower_char a) (lower s')
  end.

Definition is_empty (s : string) : bool :=
  match s with
  | EmptyString => true
  | String _ _ => false
  end.

(** [s.lstrip()] *)
Fixpoint lstrip (s : string) : string :=
  match s with
  | EmptyString => EmptyString
  | String a s' => if is_space a then lstrip s' else s
  end.

(** [s.rstrip()] *)
Fixpoint rstrip (s : string) : string :=
  match s with
  | EmptyString => EmptyString
  | String a s' =>
      let t := rstrip s' in
      if is_space a && is_empty t then EmptyString else String a t
  end.

(** [s.strip()] *)
Definition strip (s : string) : string := rstrip (lstrip s).

(** [s.split(sep)] for a one-character separator. *)
Fixpoint split (sep : ascii) (s : string) : list string :=
  match s with
  | EmptyString => [EmptyString]
  | String a s' =>
      if Ascii.eqb a sep then EmptyString :: split sep s'
      else match split sep s' with
           | h :: t => String a h :: t
           | [] => [String a EmptyString]
           end
  end.

(** [sep.join(l)] *)
Fixpoint join (sep : string) (l : list string) : string :=
  match l with
  | [] => EmptyString
  | [x] => x
  | x :: tl => x ++ sep ++ join sep tl
  end.

(** [s.count(c)] for a one-character [c]. *)
Fixpoint count (c : ascii) (s : string) : nat :=
  match s with
  | EmptyString => 0%nat
  | String a s' => ((if Ascii.eqb a c then 1 else 0) + count c s')%nat
  end.

Fixpoint starts_with (p s : string) : bool :=
  match p, s with
  | EmptyString, _ => true
  | String a p', String b s' => Ascii.eqb a b && starts_with p' s'
  | String _ _, EmptyString => false
  end.

(** [w in s] *)
Fixpoint contains (w s : string) : bool :=
  starts_with w s ||
  match s with
  | EmptyString => false
  | String _ s' => contains w s'
  end.

(** The digits-and-underscores body of an integer literal, as [int]
    reads it: a digit first and last, underscores only between digits. *)
Fixpoint int_digits (acc : Z) (prev_digit : bool) (s : string) : option Z :=
  match s with
  | EmptyString => if prev_digit then Some acc else None
  | String a s' =>
      if is_digit a
      then int_digits (acc * 10 + (Z.of_nat (code a) - 48)) true s'
      else if Ascii.eqb a "_" && prev_digit then int_digits acc false s'
      else None
  end.

(** The whitespace that [int] drops around a numeral: that of
    [str.isspace] without FS, GS, RS and US. *)
Definition is_int_space (a : ascii) : bool :=
  let n := code a in
  ((9 <=? n)%nat && (n <=? 13)%nat) || (n =? 32)%nat
  || (n =? 133)%nat || (n =? 160)%nat.

Fixpoint int_lstrip (s : string) : string :=
  match s with
  | EmptyString => EmptyString
  | String a s' => if is_int_space a then int_lstrip s' else s
  end.

Fixpoint int_rstrip (s : string) : string :=
  match s with
  | EmptyString => EmptyString
  | String a s' =>
      let t := int_rstrip s' in
      if is_int_space a && is_empty t then EmptyString else String a t
  end.

(** The number of digits of a text. *)
Fixpoint count_digits (s : string) : nat :=
  match s with
  | EmptyString => 0%nat
  | String a s' => ((if is_digit a then 1 else 0) + count_digits s')%nat
  end.

(** The most digits that [int] takes in a numeral: CPython's limit on the
    conversion of texts to integers ([sys.int_info.default_max_str_digits],
    which the program does not change). *)
Definition max_str_digits : Z := 4300.

(** [int(s)] in base 10: surrounding whitespace is dropped, one sign is
    allowed; a numeral of more than [max_str_digits] digits raises
    [ValueError], and so does anything that is no numeral. *)
Definition int (s : string) : result Z :=
  let t := int_rstrip (int_lstrip s) in
  let '(neg, body) :=
    match t with
    | String a b =>
        if Ascii.eqb a "+" then (false, b)
        else if Ascii.eqb a "-" then (true, b)
        else (false, t)
    | EmptyString => (false, t)
    end in
  if max_str_digits <? Z.of_nat (count_digits body) then Raise ValueError
  else
    match int_digits 0 false body with
    | Some v => Ok (if neg : bool then - v else v)
    | None => Raise ValueError
    end.

End PyStr.

(** ** Regular expressions ([re])

    The patterns of the line parser use anchors, literal characters, the
    classes [\d], [\s] and [.], greedy [+], [*] and [?], the lazy [*?], and
    groups. [re.match] is a backtracking search that tries the alternatives
    of each repetition in priority order (greedy: one more iteration first;
    lazy: the rest of the pattern first) and returns the first success. *)

Module Re.

Inductive cls : Set :=
| Digit   (* \d *)
| Space   (* \s *)
| Any.    (* .  : any character except a line feed *)

Inductive regex : Set :=
| Eps                              (* the empty pattern *)
| Lit (a : ascii)                  (* a literal character *)
| Cls (c : cls)
| Seq (r1 r2 : regex)
| Star (greedy : bool) (r : regex) (* r* and r*? *)
| Opt (r : regex)                  (* r? *)
| Group (n : nat) (r : regex)      (* the n-th capturing group *)
| Bol                              (* ^ *)
| Eol.                             (* $ *)

(** [r+] *)
Definition Plus (r : regex) : regex := Seq r (Star true r).

(** A run of literal characters. *)
Fixpoint Word (s : string) : regex :=
  match s with
  | EmptyString => Eps
  | String a s' => Seq (Lit a) (Word s')
  end.

Definition in_cls (c : cls) (a : ascii) : bool :=
  match c with
  | Digit => PyStr.is_digit a
  | Space => PyStr.is_space a
  | Any => negb (Ascii.eqb a "010")
  end.

(** Comparison of a literal under [re.IGNORECASE]. *)
Definition lit_eqb (ignorecase : bool) (a b : ascii) : bool :=
  if ignorecase then Ascii.eqb (PyStr.lower_char a) (PyStr.lower_char b)
  else Ascii.eqb a b.

(** The position in the subject and the text still to be read. *)
Record mstate : Set := MState { pos : nat; rest : string }.

(** The groups closed so far, the latest first. *)
Definition caps : Set := list (nat * string).

Fixpoint group (n : nat) (c : caps) : option string :=
  match c with
  | [] => None
  | (m, s) :: tl => if Nat.eqb m n then Some s else group n tl
  end.

Definition advance (st : mstate) (s' : string) : mstate :=
  MState (S (pos st)) s'.

Definition cont : Set := mstate -> caps -> option (mstate * caps).

(** The iterations of a repetition whose body is matched by [body]: a
    greedy one tries another iteration first and then the rest of the
    pattern [k], a lazy one the reverse. An iteration has to read some
    text, so there are no more iterations than characters left. *)
Section Loop.
Variable body : mstate -> caps -> cont -> option (mstate * caps).
Variable greedy : bool.
Variable k : cont.

Fixpoint star_loop (fuel : nat) (st : mstate) (c : caps)
  : option (mstate * caps) :=
  match fuel with
  | O => k st c
  | S fuel' =>
      let again := fun st' c' =>
        if (pos st <? pos st')%nat then star_loop fuel' st' c' else None in
      if greedy then
        match body st c again with
        | Some x => Some x
        | None => k st c
        end
      else
        match k st c with
        | Some x => Some x
        | None => body st c again
        end
  end.
End Loop.

Section Matcher.
Variable ignorecase : bool.

Fixpoint matchk (r : regex) (st : mstate) (c : caps) (k : cont)
  {struct r} : option (mstate * caps) :=
  match r with
  | Eps => k st c
  | Lit a =>
      match rest st with
      | String b s' =>
          if lit_eqb ignorecase b a then k (advance st s') c else None
      | EmptyString => None
      end
  | Cls cl =>
      match rest st with
      | String b s' => if in_cls cl b then k (advance st s') c else None
      | EmptyString => None
      end
  | Seq r1 r2 =>
      matchk r1 st c (fun st' c' => matchk r2 st' c' k)
  | Star greedy r1 =>
      star_loop (matchk r1) greedy k (String.length (rest st)) st c
  | Opt r1 =>
      match matchk r1 st c k with
      | Some x => Some x
      | None => k st c
      end
  | Group n r1 =>
      matchk r1 st c
        (fun st' c' =>
           k st' ((n, String.substring 0 (pos st' - pos st) (rest st)) :: c'))
  | Bol => if (pos st =? 0)%nat then k st c else None
  | Eol =>
      (* the end of the text, or just before a final line feed *)
      if PyStr.is_empty (rest st)
         || String.eqb (rest st) (String "010" EmptyString)
      then k st c else None
  end.

(** [re.match(pattern, s, flags)]: the groups of the first match that
    starts at the beginning of [s], or [None]. *)
Definition re_match (r : regex) (s : string) : option caps :=
  match matchk r (MState 0 s) [] (fun st c => Some (st, c)) with
  | Some (_, c) => Some c
  | None => None
  end.

(** The end of the first match of [r] that starts at [st]. *)
Definition match_end (r : regex) (st : mstate) : option mstate :=
  match matchk r st [] (fun st c => Some (st, c)) with
  | Some (st', _) => Some st'
  | None => None
  end.

(** [re.sub(pattern, repl, s)] for a pattern that matches no empty
    text: scanning left to right, each match is replaced by [repl] and
    the scan goes on after it; other characters are copied. *)
Fixpoint sub_from (fuel : nat) (r : regex) (repl : string) (st : mstate)
  : string :=
  match fuel with
  | O => rest st
  | S fuel' =>
      match match_end r st with
      | Some st' =>
          if (pos st <? pos st')%nat
          then repl ++ sub_from fuel' r repl st'
          else match rest st with
               | EmptyString => EmptyString
               | String a s' => String a (sub_from fuel' r repl (advance st s'))
               end
      | None =>
          match rest st with
          | EmptyString => EmptyString
          | String a s' => String a (sub_from fuel' r repl (advance st s'))
          end
      end
  end.

Definition sub (r : regex) (repl s : string) : string :=
  sub_from (S (String.length s)) r repl (MState 0 s).

End Matcher.

End Re.

(** ** The data model ([parser/schemas.py]) *)

(** A TOC entry: the dict that [extract_toc_entry] builds, with the keys of
    [TOC_SCHEMA]. *)
Record toc_entry : Set := TocEntry {
  doc_title : string;
  section_id : string;
  title : string;
  page : Z;
  level : Z;
  parent_id : option string;
  full_path : string;
  tags : list string
}.

(** [entry["page"] = p] *)
Definition set_page (e : toc_entry) (p : Z) : toc_entry :=
  {| doc_title := doc_title e; section_id := section_id e; title := title e;
     page := p; level := level e; parent_id := parent_id e;
     full_path := full_path e; tags := tags e |}.

(** A section entry: [toc_entry.copy()] with the key ["content"] added. *)
Record section_entry : Set := SectionEntry {
  heading : toc_entry;
  content : string
}.

(** [validate_toc_entry]: [TOC_SCHEMA] asks for the seven required keys and
    for the type of each; a [toc_entry] has every key at the schema's type,
    so the validation does not raise. *)
Definition validate_toc_entry (e : toc_entry) : result unit := Ok tt.

(** ** The TOC line parser ([parser/utils.py]) *)

Module Patterns.
Import Re.

Definition digits : regex := Plus (Cls Digit).       (* "\d+" *)
Definition spaces : regex := Plus (Cls Space).       (* "\s+" *)
Definition spaces0 : regex := Star true (Cls Space). (* "\s*" *)
Definition dots : regex := Plus (Lit ".").           (* "\.+" *)
Definition lazy_any : regex := Star false (Cls Any). (* ".*?" *)

(** The section number "\d+(?:\.\d+)*". *)
Definition dotted : regex :=
  Seq digits (Star true (Seq (Lit ".") digits)).

Fixpoint seqs (l : list regex) : regex :=
  match l with
  | [] => Eps
  | [r] => r
  | r :: tl => Seq r (seqs tl)
  end.

(** Standard format: "^" G1 "\s+" G2 "\s*\.+\s*" G3 "$", with the groups
    G1 = "\d+(?:\.\d+)*", G2 = ".*?" and G3 = "\d+". *)
Definition standard : regex :=
  seqs [Bol; Group 1 dotted; spaces; Group 2 lazy_any; spaces0; dots;
        spaces0; Group 3 digits; Eol].

(** Format without dots: "^" G1 "\s+" G2 "\s+" G3 "$", same groups. *)
Definition without_dots : regex :=
  seqs [Bol; Group 1 dotted; spaces; Group 2 lazy_any; spaces;
        Group 3 digits; Eol].

(** Format with parentheses:
    "^" G1 "\s*\(?" G2 "\)?\s*\.+\s*" G3 "$", same groups. *)
Definition with_parentheses : regex :=
  seqs [Bol; Group 1 dotted; spaces0; Opt (Lit "("); Group 2 lazy_any;
        Opt (Lit ")"); spaces0; dots; spaces0; Group 3 digits; Eol].

(** Format with chapter prefix:
    "^Chapter\s+" G1 "\s+" G2 "\s*\.+\s*" G3 "$", with G1 = "\d+". *)
Definition chapter : regex :=
  seqs [Bol; Word "Chapter"; spaces; Group 1 digits; spaces;
        Group 2 lazy_any; spaces0; dots; spaces0; Group 3 digits; Eol].

(** Format with section prefix:
    "^Section\s+" G1 "\s+" G2 "\s*\.+\s*" G3 "$", with
    G1 = "\d+(?:\.\d+)*". *)
Definition section : regex :=
  seqs [Bol; Word "Section"; spaces; Group 1 dotted; spaces;
        Group 2 lazy_any; spaces0; dots; spaces0; Group 3 digits; Eol].

(** "^\s*[-–—]\s*"; of the three dashes only the hyphen is one of the
    characters 0 to 255. *)
Definition leading_dash : regex :=
  seqs [Bol; spaces0; Lit "-"; spaces0].

End Patterns.

(** The [patterns] list of [extract_toc_entry], in its order. *)
Definition patterns : list Re.regex :=
  [Patterns.standard; Patterns.without_dots; Patterns.with_parentheses;
   Patterns.chapter; Patterns.section].

Definition any_in (words : list string) (s : string) : bool :=
  existsb (fun w => PyStr.contains w s) words.

Definition generate_tags (title : string) : list string :=
  let title_lower := PyStr.lower title in
  (if any_in ["power"; "voltage"; "current"] title_lower
   then ["power_management"] else []) ++
  (if any_in ["negotiation"; "contract"; "agreement"] title_lower
   then ["negotiation"] else []) ++
  (if any_in ["communication"; "protocol"; "message"] title_lower
   then ["communication"] else []) ++
  (if any_in ["state"; "machine"; "transition"] title_lower
   then ["state_machine"] else []) ++
  (if any_in ["cable"; "connector"; "plug"] title_lower
   then ["hardware"] else []) ++
  (if any_in ["compatibility"; "revision"; "version"] title_lower
   then ["compatibility"] else []) ++
  (if any_in ["overview"; "introduction"; "background"] title_lower
   then ["overview"] else []) ++
  (if any_in ["table"; "figure"; "diagram"] title_lower
   then ["reference"] else []).

(** [match.group(n)]; a group that took no part in the match is [None], and
    the method call on it raises. *)
Definition match_group (m : Re.caps) (n : nat) : result string :=
  match Re.group n m with
  | Some s => Ok s
  | None => Raise AttributeError
  end.

(** The body of the [if match:] branch up to the construction of [entry]. *)
Definition entry_of_match (m : Re.caps) (doc_title : string)
  : result toc_entry :=
  let* section_id := match_group m 1 in
  let* g2 := match_group m 2 in
  let title := PyStr.strip g2 in
  let* g3 := match_group m 3 in
  let* page := PyStr.int g3 in
  let title := Re.sub false Patterns.leading_dash "" title in
  let title := Re.sub false Patterns.spaces " " title in
  let level := Z.of_nat (PyStr.count "." section_id) + 1 in
  let parent_id :=
    if 1 <? level
    then Some (PyStr.join "." (removelast (PyStr.split "." section_id)))
    else None in
  let full_path := section_id ++ " " ++ title in
  let tags := generate_tags title in
  Ok {| doc_title := doc_title; section_id := section_id; title := title;
        page := page; level := level; parent_id := parent_id;
        full_path := full_path; tags := tags |}.

(** The [for pattern in patterns:] loop. *)
Fixpoint try_patterns (ps : list Re.regex) (line doc_title : string)
  : result (option toc_entry) :=
  match ps with
  | [] => Ok None
  | p :: ps' =>
      match Re.re_match true p line with
      | Some m =>
          let* entry := entry_of_match m doc_title in
          match validate_toc_entry entry with
          | Ok _ => Ok (Some entry)
          | Raise _ => try_patterns ps' line doc_title
          end
      | None => try_patterns ps' line doc_title
      end
  end.

Definition extract_toc_entry (line doc_title : string)
  : result (option toc_entry) :=
  let line := PyStr.strip line in
  if PyStr.is_empty line then Ok None
  else try_patterns patterns line doc_title.


(** ** Python lists *)

Open Scope list_scope.

(** [range(a, b)] *)
Definition py_range (a b : Z) : list Z :=
  map (fun i => a + Z.of_nat i) (seq 0 (Z.to_nat (b - a))).

Definition len {A : Type} (l : list A) : Z := Z.of_nat (length l).

(** [l[i]]: a negative index counts from the end, an index out of range
    raises [IndexError]. *)
Definition py_index {A : Type} (l : list A) (i : Z) : result A :=
  let j := if i <? 0 then i + len l else i in
  if j <? 0 then Raise IndexError
  else match nth_error l (Z.to_nat j) with
       | Some x => Ok x
       | None => Raise IndexError
       end.

(** A [for] loop whose body may raise, over the state [acc]. *)
Fixpoint foldM {A S : Type} (body : S -> A -> result S) (l : list A) (acc : S)
  : result S :=
  match l with
  | [] => Ok acc
  | x :: tl => let* acc' := body acc x in foldM body tl acc'
  end.

(** Comparison [a < b] of two lists of integers. *)
Fixpoint list_lt (a b : list Z) : bool :=
  match a, b with
  | [], [] => false
  | [], _ :: _ => true
  | _ :: _, [] => false
  | x :: a', y :: b' => if x =? y then list_lt a' b' else x <? y
  end.

(** [l.sort(key=...)]: the keys are computed first, one per element and in
    order; the sort is stable and compares keys with [<] only. *)
Section Sort.
Context {A : Type}.

Fixpoint insert_sorted (kx : list Z * A) (l : list (list Z * A))
  : list (list Z * A) :=
  match l with
  | [] => [kx]
  | ky :: tl =>
      if list_lt (fst ky) (fst kx) then ky :: insert_sorted kx tl
      else kx :: ky :: tl
  end.

Fixpoint sort_pairs (l : list (list Z * A)) : list (list Z * A) :=
  match l with
  | [] => []
  | kx :: tl => insert_sorted kx (sort_pairs tl)
  end.

Definition sort_by_key (key : A -> result (list Z)) (l : list A)
  : result (list A) :=
  let* keys := mapM key l in
  Ok (map snd (sort_pairs (combine keys l))).
End Sort.

(** [[int(n) for n in section_id.split(".")]] *)
Definition id_parts (section_id : string) : result (list Z) :=
  mapM PyStr.int (PyStr.split "." section_id).

(** The sort key [lambda x: [int(n) for n in x["section_id"].split(".")]]. *)
Definition section_key (x : toc_entry) : result (list Z) :=
  id_parts (section_id x).

(** The common-prefix loop shared by [_is_next_section] and [has_gap]. *)
Fixpoint common_prefix_len (current_parts next_parts : list Z) : Z :=
  match current_parts, next_parts with
  | x :: a, y :: b => if x =? y then 1 + common_prefix_len a b else 0
  | _, _ => 0
  end.

(** ** The parser ([parser/core.py]) *)

(** [parser/config.py]: of the class [Config] the parser reads the number of
    pages to scan for the TOC and the default document title. *)
Record Config : Set := {
  TOC_SCAN_PAGES : Z;
  DOC_TITLE : string
}.

(** [pdf.pages], each page by the value of [page.extract_text()]. *)
Definition pdf_pages : Set := list (option string).

(** [if text:] *)
Definition truthy (text : option string) : option string :=
  match text with
  | Some EmptyString => None
  | Some s => Some s
  | None => None
  end.

Record metadata_t : Set := {
  md_doc_title : string;
  total_pages : Z;
  toc_pages : list Z;
  sections_count : Z
}.

Record USBPDParser : Set := {
  self_doc_title : string;
  toc_entries : list toc_entry;
  section_entries : list section_entry;
  metadata : metadata_t
}.

(** [USBPDParser.__init__] *)
Definition init (doc_title : string) : USBPDParser :=
  {| self_doc_title := doc_title;
     toc_entries := [];
     section_entries := [];
     metadata := {| md_doc_title := doc_title; total_pages := 0;
                    toc_pages := []; sections_count := 0 |} |}.

Definition Z_in (x : Z) (l : list Z) : bool := existsb (Z.eqb x) l.

(** The body of [for line in text.split("\n")]. *)
Definition scan_line (doc_title : string) (page_num : Z)
  (acc : list toc_entry * list Z) (line : string)
  : result (list toc_entry * list Z) :=
  let* entry := extract_toc_entry line doc_title in
  match entry with
  | Some entry =>
      let entry := set_page entry (page_num + 1) in
      Ok (fst acc ++ [entry],
          if Z_in (page_num + 1) (snd acc) then snd acc
          else snd acc ++ [page_num + 1])
  | None => Ok acc
  end.

(** The body of [for page_num in range(...)]. *)
Definition scan_page (pdf : pdf_pages) (doc_title : string)
  (acc : list toc_entry * list Z) (page_num : Z)
  : result (list toc_entry * list Z) :=
  let* text := py_index pdf page_num in
  match truthy text with
  | None => Ok acc
  | Some text => foldM (scan_line doc_title page_num) (PyStr.split "010" text) acc
  end.

Definition extract_toc (cfg : Config) (pdf : pdf_pages) (self : USBPDParser)
  : result USBPDParser :=
  let* found :=
    foldM (scan_page pdf (self_doc_title self))
      (py_range 0 (Z.min (TOC_SCAN_PAGES cfg) (len pdf)))
      ([], toc_pages (metadata self)) in
  let* sorted := sort_by_key section_key (fst found) in
  Ok {| self_doc_title := self_doc_title self;
        toc_entries := sorted;
        section_entries := section_entries self;
        metadata := {| md_doc_title := md_doc_title (metadata self);
                       total_pages := len pdf;
                       toc_pages := snd found;
                       sections_count := sections_count (metadata self) |} |}.

Definition _is_next_section (current_id next_id : string) (current_level : Z)
  : result bool :=
  let* current_parts := id_parts current_id in
  let* next_parts := id_parts next_id in
  let common_len := common_prefix_len current_parts next_parts in
  if len next_parts <=? current_level then Ok true
  else if (len next_parts =? len current_parts + 1)
          && (common_len =? len current_parts) then Ok false
  else Ok true.

(** The [for toc_entry in self.toc_entries] loop of
    [_find_section_end_page]. *)
Fixpoint find_end_loop (entries : list toc_entry) (current_id : string)
  (current_level : Z) (pdf : pdf_pages) : result Z :=
  match entries with
  | [] => Ok (len pdf)
  | toc_entry :: tl =>
      if String.eqb (section_id toc_entry) current_id
      then find_end_loop tl current_id current_level pdf
      else
        let* next := _is_next_section current_id (section_id toc_entry)
                       current_level in
        if next : bool then Ok (page toc_entry)
        else find_end_loop tl current_id current_level pdf
  end.

Definition _find_section_end_page (self : USBPDParser) (pdf : pdf_pages)
  (current_section : toc_entry) : result Z :=
  let current_id := section_id current_section in
  let current_level := level current_section in
  find_end_loop (toc_entries self) current_id current_level pdf.

(** The [for page_num in range(start_page - 1, end_page)] loop, with its
    [break]. *)
Fixpoint collect_pages (pdf : pdf_pages) (page_nums : list Z)
  (content_parts : list string) : result (list string) :=
  match page_nums with
  | [] => Ok content_parts
  | page_num :: tl =>
      if len pdf <=? page_num then Ok content_parts
      else
        let* text := py_index pdf page_num in
        match truthy text with
        | Some text => collect_pages pdf tl (content_parts ++ [text])
        | None => collect_pages pdf tl content_parts
        end
  end.

Definition _extract_section_content (self : USBPDParser) (pdf : pdf_pages)
  (toc_entry : toc_entry) : result (option string) :=
  let start_page := page toc_entry in
  let* end_page := _find_section_end_page self pdf toc_entry in
  let* content_parts := collect_pages pdf (py_range (start_page - 1) end_page) [] in
  match content_parts with
  | [] => Ok None
  | _ :: _ => Ok (Some (PyStr.join (String "010" EmptyString) content_parts))
  end.

(** The body of [for toc_entry in tqdm(self.toc_entries, ...)]. *)
Definition extract_one (self : USBPDParser) (pdf : pdf_pages)
  (acc : list section_entry) (toc_entry : toc_entry)
  : result (list section_entry) :=
  let* section_content := _extract_section_content self pdf toc_entry in
  match truthy section_content with
  | Some section_content =>
      Ok (acc ++ [{| heading := toc_entry; content := section_content |}])
  | None => Ok acc
  end.

Definition extract_sections (cfg : Config) (pdf : pdf_pages)
  (self : USBPDParser) : result USBPDParser :=
  let* self :=
    match toc_entries self with
    | [] => extract_toc cfg pdf self
    | _ :: _ => Ok self
    end in
  let* sections := foldM (extract_one self pdf) (toc_entries self) [] in
  Ok {| self_doc_title := self_doc_title self;
        toc_entries := toc_entries self;
        section_entries := sections;
        metadata := {| md_doc_title := md_doc_title (metadata self);
                       total_pages := total_pages (metadata self);
                       toc_pages := toc_pages (metadata self);
                       sections_count := len sections |} |}.

(** ** The validation engine ([parser/validation.py]) *)

Record gap_t : Set := {
  gap_level : Z;
  before_section : string;
  after_section : string;
  gap_description : string
}.

Record order_issue_t : Set := {
  oi_section_id : string;
  oi_toc_page : Z;
  oi_parsed_page : Z;
  oi_difference : Z
}.

(** A Python number: the coverage is the [int] 0 or a [float]. *)
Inductive number : Set :=
| PyInt (n : Z)
| PyFloat (f : float).

(** The dict returned by [analyze_toc_vs_parsed]. The two lists made from
    sets are kept as sets: the order of [list(a_set)] is not specified. *)
Record analysis_t : Type := {
  total_toc_entries : Z;
  total_parsed_entries : Z;
  missing_from_parsed : gset string;
  extra_in_parsed : gset string;
  common_entries : Z;
  order_issues : list order_issue_t;
  gaps : list gap_t;
  coverage_percentage : number
}.

Definition has_gap (current_id next_id : string) : result bool :=
  let* current_parts := id_parts current_id in
  let* next_parts := id_parts next_id in
  let common_len := common_prefix_len current_parts next_parts in
  if len current_parts =? len next_parts then
    if common_len =? len current_parts - 1 then
      let* next_last := py_index next_parts (-1) in
      let* current_last := py_index current_parts (-1) in
      if negb (next_last =? current_last + 1) then Ok true
      else Ok false
    else Ok false
  else Ok false.

(** [levels]: a dict from level to list of entries; a dict keeps its keys
    in the order of their first insertion. *)
Fixpoint levels_add (levels : list (Z * list toc_entry)) (entry : toc_entry)
  : list (Z * list toc_entry) :=
  match levels with
  | [] => [(level entry, [entry])]
  | (l, entries) :: tl =>
      if l =? level entry then (l, entries ++ [entry]) :: tl
      else (l, entries) :: levels_add tl entry
  end.

Definition group_levels (toc_entries : list toc_entry)
  : list (Z * list toc_entry) :=
  fold_left levels_add toc_entries [].

Definition mk_gap (level : Z) (current_id next_id : string) : gap_t :=
  {| gap_level := level;
     before_section := current_id;
     after_section := next_id;
     gap_description :=
       ("Missing sections between " ++ current_id ++ " and " ++ next_id)%string |}.

(** The loop [for i in range(len(entries) - 1)] over the pairs
    [entries[i]], [entries[i + 1]]. *)
Fixpoint scan_gaps (level : Z) (entries : list toc_entry) (gaps : list gap_t)
  : result (list gap_t) :=
  match entries with
  | current :: ((next :: _) as tl) =>
      let current_id := section_id current in
      let next_id := section_id next in
      let* gap := has_gap current_id next_id in
      scan_gaps level tl
        (if gap : bool then gaps ++ [mk_gap level current_id next_id] else gaps)
  | _ => Ok gaps
  end.

(** The body of [for level, entries in levels.items()]. *)
Definition level_gaps (gaps : list gap_t) (item : Z * list toc_entry)
  : result (list gap_t) :=
  let* entries := sort_by_key section_key (snd item) in
  scan_gaps (fst item) entries gaps.

Definition find_section_gaps (toc_entries : list toc_entry)
  : result (list gap_t) :=
  foldM level_gaps (group_levels toc_entries) [].

(** [{e["section_id"] for e in entries}] *)
Definition id_set (ids : list string) : gset string := list_to_set ids.

(** [next(s for s in section_entries if s["section_id"] == section_id)] *)
Definition next_with_id (section_entries : list section_entry)
  (id : string) : result section_entry :=
  match find (fun s => String.eqb (section_id (heading s)) id) section_entries with
  | Some s => Ok s
  | None => Raise StopIteration
  end.

(** The body of [for i, toc_entry in enumerate(toc_entries)]. *)
Definition check_order (common_ids : gset string)
  (section_entries : list section_entry)
  (order_issues : list order_issue_t) (toc_entry : toc_entry)
  : result (list order_issue_t) :=
  if bool_decide (section_id toc_entry ∈ common_ids) then
    let* parsed_entry := next_with_id section_entries (section_id toc_entry) in
    if negb (page toc_entry =? page (heading parsed_entry)) then
      Ok (order_issues ++
            [{| oi_section_id := section_id toc_entry;
                oi_toc_page := page toc_entry;
                oi_parsed_page := page (heading parsed_entry);
                oi_difference :=
                  Z.abs (page toc_entry - page (heading parsed_entry)) |}])
    else Ok order_issues
  else Ok order_issues.

(** [float(n)] for the length of a collection. *)
Definition float_of_nat (n : nat) : float :=
  PrimFloat.of_uint63 (Uint63.of_Z (Z.of_nat n)).

Definition analyze_toc_vs_parsed (toc_entries : list toc_entry)
  (section_entries : list section_entry) : result analysis_t :=
  let toc_ids := id_set (map section_id toc_entries) in
  let parsed_ids := id_set (map (fun e => section_id (heading e)) section_entries) in
  let missing_from_parsed := toc_ids ∖ parsed_ids in
  let extra_in_parsed := parsed_ids ∖ toc_ids in
  let common_ids := toc_ids ∩ parsed_ids in
  let* order_issues :=
    foldM (check_order common_ids section_entries) toc_entries [] in
  let* gaps := find_section_gaps toc_entries in
  Ok {| total_toc_entries := len toc_entries;
        total_parsed_entries := len section_entries;
        missing_from_parsed := missing_from_parsed;
        extra_in_parsed := extra_in_parsed;
        common_entries := Z.of_nat (size common_ids);
        order_issues := order_issues;
        gaps := gaps;
        coverage_percentage :=
          if bool_decide (toc_ids = ∅) then PyInt 0
          else PyFloat (PrimFloat.mul
                          (PrimFloat.div (float_of_nat (size common_ids))
                                         (float_of_nat (size toc_ids)))
                          100%float) |}.

(** ** Well-formed section numbers *)

(** A non-empty run of decimal digits. *)
Fixpoint all_digits (s : string) : bool :=
  match s with
  | EmptyString => true
  | String a s' => PyStr.is_digit a && all_digits s'
  end.

Definition is_number (s : string) : bool :=
  negb (PyStr.is_empty s) && all_digits s.

(** The texts of "\d+(?:\.\d+)*": numbers separated by single dots. This
    is what the patterns of the line parser take as a section number. *)
Definition digit_id (s : string) : bool :=
  forallb is_number (PyStr.split "." s).

(** A text of at most [max_str_digits] characters: [int] takes every
    numeral in it. *)
Definition short (s : string) : bool :=
  Z.of_nat (String.length s) <=? PyStr.max_str_digits.

(** A numeral that [int] takes: a run of at most [max_str_digits]
    digits. *)
Definition int_literal (s : string) : bool := is_number s && short s.

(** A well-formed section number: numerals that [int] takes, separated by
    single dots. *)
Definition wf_id (s : string) : bool :=
  forallb int_literal (PyStr.split "." s).

(** The value of a run of digits read after [acc]. *)
Fixpoint digits_value (acc : Z) (s : string) : Z :=
  match s with
  | EmptyString => acc
  | String a s' => digits_value (acc * 10 + (Z.of_nat (PyStr.code a) - 48)) s'
  end.

(** ** Declarative meaning of the patterns

    [Matches r w c c']: the pattern [r] can read the text [w], turning the
    groups [c] into [c']. *)

Section Matches.
Import Re.
Variable ignorecase : bool.

Inductive Matches : regex -> string -> caps -> caps -> Prop :=
| M_Eps c : Matches Eps EmptyString c c
| M_Lit a b c :
    lit_eqb ignorecase b a = true ->
    Matches (Lit a) (String b EmptyString) c c
| M_Cls cl b c :
    in_cls cl b = true ->
    Matches (Cls cl) (String b EmptyString) c c
| M_Seq r1 r2 w1 w2 c c1 c2 :
    Matches r1 w1 c c1 -> Matches r2 w2 c1 c2 ->
    Matches (Seq r1 r2) (w1 ++ w2)%string c c2
| M_Star_done g r c : Matches (Star g r) EmptyString c c
| M_Star_more g r w1 w2 c c1 c2 :
    Matches r w1 c c1 -> Matches (Star g r) w2 c1 c2 ->
    Matches (Star g r) (w1 ++ w2)%string c c2
| M_Opt_none r c : Matches (Opt r) EmptyString c c
| M_Opt_some r w c c1 : Matches r w c c1 -> Matches (Opt r) w c c1
| M_Group n r w c c1 :
    Matches r w c c1 -> Matches (Group n r) w c ((n, w) :: c1)
| M_Bol c : Matches Bol EmptyString c c
| M_Eol c : Matches Eol EmptyString c c.
End Matches.

(** Soundness of the matcher at a pattern: a success of [matchk] reads a
    text [w] of the pattern and hands the groups it made to the rest. *)
Definition sound (ignorecase : bool) (r : Re.regex) : Prop :=
  forall st c k res,
    Re.matchk ignorecase r st c k = Some res ->
    exists w st' c',
      Matches ignorecase r w c c' /\
      Re.rest st = (w ++ Re.rest st')%string /\
      Re.pos st' = (Re.pos st + String.length w)%nat /\
      k st' c' = Some res.

(** A pattern without groups. *)
Fixpoint plain (r : Re.regex) : bool :=
  match r with
  | Re.Seq r1 r2 => plain r1 && plain r2
  | Re.Star _ r1 | Re.Opt r1 => plain r1
  | Re.Group _ _ => false
  | _ => true
  end.

(** The groups of a successful match of a pattern of the line parser on
    [line]: the section number, the title and the page number, each closed
    once; the section number and the page number are no longer than the
    line. *)
Definition captures (line : string) (m : Re.caps) : Prop :=
  exists g1 g2 g3,
    m = [(3%nat, g3); (2%nat, g2); (1%nat, g1)] /\
    digit_id g1 = true /\ is_number g3 = true /\
    (String.length g1 <= String.length line)%nat /\
    (String.length g3 <= String.length line)%nat.

(** ** Notions of the specification *)

(** The path components of a section number, as integers. *)
Definition components (section_id : string) : list Z :=
  map (digits_value 0) (PyStr.split "." section_id).

(** Component-wise comparison of two paths: the first differing component
    decides, and a path precedes its extensions. *)
Fixpoint lex_le (a b : list Z) : Prop :=
  match a, b with
  | [], _ => True
  | _ :: _, [] => False
  | x :: a', y :: b' => x < y \/ (x = y /\ lex_le a' b')
  end.

(** The same order on elements paired with their sort keys. *)
Definition pair_le {A : Type} (p q : list Z * A) : Prop :=
  lex_le (fst p) (fst q).

Definition id_le (a b : toc_entry) : Prop :=
  lex_le (components (section_id a)) (components (section_id b)).

(** A list of headings in ascending order of section number. *)
Definition ascending (l : list toc_entry) : Prop := StronglySorted id_le l.

(** What the line parser derives from the section number of a heading. *)
Definition derived_fields (e : toc_entry) : Prop :=
  level e = len (PyStr.split "." (section_id e)) /\
  parent_id e =
    if level e =? 1 then None
    else Some (PyStr.join "." (removelast (PyStr.split "." (section_id e)))).

(** A heading as the line parser returns it. *)
Definition parsed_entry (doc : string) (e : toc_entry) : Prop :=
  doc_title e = doc /\ digit_id (section_id e) = true /\ 0 <= page e /\
  derived_fields e.

(** A heading of the TOC of a document of [pages] pages, as [extract_toc]
    stores it. *)
Definition scanned_entry (pages : Z) (doc : string) (e : toc_entry) : Prop :=
  doc_title e = doc /\ wf_id (section_id e) = true /\ derived_fields e /\
  1 <= page e <= pages.

(** The part of a heading that the resolution of page ranges reads. *)
Definition resolvable (e : toc_entry) : Prop :=
  wf_id (section_id e) = true /\ 1 <= page e.

(** The invariant of the TOC scan: every heading found so far is well
    formed and its page is one of the TOC pages recorded so far. *)
Definition scan_inv (pages : Z) (doc : string)
  (acc : list toc_entry * list Z) : Prop :=
  Forall (scanned_entry pages doc) (fst acc) /\
  Forall (fun e => In (page e) (snd acc)) (fst acc).

(** A content set made of copies: every entry is a heading of the TOC with
    a non-empty text attached. *)
Definition copies_of (toc : list toc_entry) (sections : list section_entry)
  : Prop :=
  Forall (fun s => In (heading s) toc /\ content s <> EmptyString) sections.

(** Headings that share a section number share the page. *)
Definition consistent_pages (toc : list toc_entry) : Prop :=
  forall a b, In a toc -> In b toc ->
              section_id a = section_id b -> page a = page b.

(** *** Gaps, in the words of the specification *)

(** Two section numbers that share all but the last path component (the
    same number of components, equal up to the last, which differs) and
    whose last components are not consecutive. *)
Definition gap_pair (current_id next_id : string) : bool :=
  let a := components current_id in
  let b := components next_id in
  bool_decide (length a = length b)
  && bool_decide (removelast a = removelast b)
  && negb (List.last a 0 =? List.last b 0)
  && negb (List.last b 0 =? List.last a 0 + 1).

(** The nesting levels of a TOC, in the order of their first heading. *)
Definition level_order (toc : list toc_entry) : list Z :=
  fold_left (fun seen e => if Z_in (level e) seen then seen else seen ++ [level e])
    toc [].

(** The headings of one nesting level. *)
Definition at_level (l : Z) (toc : list toc_entry) : list toc_entry :=
  List.filter (fun e => level e =? l) toc.

(** Headings sorted by numeric section number. *)
Definition sorted_by_id (l : list toc_entry) : list toc_entry :=
  map snd (sort_pairs (map (fun e => (components (section_id e), e)) l)).

Fixpoint adjacent_pairs {A : Type} (l : list A) : list (A * A) :=
  match l with
  | a :: ((b :: _) as tl) => (a, b) :: adjacent_pairs tl
  | _ => []
  end.

(** The gaps of the sorted headings of one level: a gap has the level, the
    section numbers of the two headings and a description that names
    them. *)
Definition level_gaps_spec (l : Z) (entries : list toc_entry) : list gap_t :=
  map (fun ab =>
         {| gap_level := l;
            before_section := section_id (fst ab);
            after_section := section_id (snd ab);
            gap_description :=
              ("Missing sections between " ++ section_id (fst ab)
               ++ " and " ++ section_id (snd ab))%string |})
    (List.filter (fun ab => gap_pair (section_id (fst ab)) (section_id (snd ab)))
       (adjacent_pairs entries)).

Definition gaps_spec (toc : list toc_entry) : list gap_t :=
  flat_map (fun l => level_gaps_spec l (sorted_by_id (at_level l toc)))
    (level_order toc).

(** *** Coverage, in the words of the specification *)

(** [|headingIds ∩ contentIds| / |headingIds| × 100], and 0 for an empty
    heading set; the quotient and the product are those of [float]. *)
Definition coverage_spec (headingIds contentIds : gset string) : number :=
  if bool_decide (headingIds = ∅) then PyInt 0
  else PyFloat (PrimFloat.mul
                  (PrimFloat.div (float_of_nat (size (headingIds ∩ contentIds)))
                                 (float_of_nat (size headingIds)))
                  100%float).

Definition heading_ids (toc : list toc_entry) : gset string :=
  list_to_set (map section_id toc).

Definition content_ids (sections : list section_entry) : gset string :=
  list_to_set (map (fun s => section_id (heading s)) sections).

(** A line that bears an Annex prefix: its first word starts with "annex",
    in any case. *)
Definition annex_prefixed (line : string) : bool :=
  PyStr.starts_with "annex" (PyStr.lower (PyStr.lstrip line)).

(** ** Sample documents *)

Module Examples.

(** A heading with the fields the parser derives from its section number. *)
Definition heading_at (id : string) (page level : Z) : toc_entry :=
  {| doc_title := "Doc"; section_id := id; title := "Title";
     page := page; level := level;
     parent_id :=
       if 1 <? level
       then Some (PyStr.join "." (removelast (PyStr.split "." id)))
       else None;
     full_path := (id ++ " Title")%string; tags := [] |}.

(** A parser whose TOC has been extracted. *)
Definition parser_with (toc : list toc_entry) : USBPDParser :=
  {| self_doc_title := "Doc"; toc_entries := toc; section_entries := [];
     metadata := metadata (init "Doc") |}.

Definition section_of (h : toc_entry) (text : string) : section_entry :=
  {| heading := h; content := text |}.

(** The number of pages scanned for the TOC by default. *)
Definition cfg : Config := {| TOC_SCAN_PAGES := 12; DOC_TITLE := "Doc" |}.

Definition ten_pages : pdf_pages := repeat (Some "text") 10.

(** 1 (page 1), 1.1 (page 2), 1.2 (page 4), 2 (page 6). *)
Definition range_toc : list toc_entry :=
  [heading_at "1" 1 1; heading_at "1.1" 2 2; heading_at "1.2" 4 2;
   heading_at "2" 6 1].

(** 1 (page 1), 1.1 (page 2), 1.1.1 (page 3), 2 (page 6). *)
Definition nested_toc : list toc_entry :=
  [heading_at "1" 1 1; heading_at "1.1" 2 2; heading_at "1.1.1" 3 3;
   heading_at "2" 6 1].

(** Three pages without text, as of a scanned document. *)
Definition image_only : pdf_pages := [None; Some EmptyString; None].

(** A document of 60 pages whose first page is the TOC. *)
Definition toc_line : string := "2.1 Power Delivery Basics ..... 53".
Definition sixty_pages : pdf_pages := Some toc_line :: repeat (Some "text") 59.

Definition unsorted_toc : list toc_entry :=
  [heading_at "2.10" 7 2; heading_at "2.2" 3 2; heading_at "2.9" 5 2].

Definition gap_toc : list toc_entry :=
  [heading_at "2.1" 1 2; heading_at "2.2" 2 2; heading_at "2.4" 3 2].

(** The same headings as they may arrive from the scan. *)
Definition shuffled_gap_toc : list toc_entry :=
  [heading_at "2.4" 3 2; heading_at "2.1" 1 2; heading_at "2.2" 2 2].

Definition dense_toc : list toc_entry :=
  [heading_at "2.1" 1 2; heading_at "2.2" 2 2; heading_at "2.3" 3 2].

Definition chapter_change_toc : list toc_entry :=
  [heading_at "2.9" 1 2; heading_at "3.1" 2 2].

Definition annex_line : string := "Annex A Safety Requirements ..... 12".

(** Two pages that both carry a line numbered 1. *)
Definition repeated_id : pdf_pages := [Some "1 Intro 5"; Some "1 Scope 3"].

(** A TOC page followed by a page of text. *)
Definition two_sections : pdf_pages :=
  [Some "1 Intro 1
2 Scope 2"; Some "text"].

(** Headings 1 (twice) and 2, and a content entry for 1 only. *)
Definition half_covered_toc : list toc_entry :=
  [heading_at "1" 1 1; heading_at "1" 1 1; heading_at "2" 2 1].
Definition half_covered_sections : list section_entry :=
  [section_of (heading_at "1" 1 1) "text"].

End Examples.

(** ** More of [parser/utils.py] and [parser/validation.py] *)

(** *** Searching and slicing texts *)

Module PyText.

(** [s.find(sub)]: the lowest index at which [sub] occurs in [s]; [None]
    stands for the result -1. *)
Fixpoint find (sub s : string) : option nat :=
  if PyStr.starts_with sub s then Some 0%nat
  else match s with
       | EmptyString => None
       | String _ s' => option_map S (find sub s')
       end.

(** [s[n:]] *)
Fixpoint drop (n : nat) (s : string) : string :=
  match n, s with
  | O, _ => s
  | S n', String _ s' => drop n' s'
  | S _, EmptyString => EmptyString
  end.

(** [s[:n]] *)
Fixpoint take (n : nat) (s : string) : string :=
  match n, s with
  | S n', String a s' => String a (take n' s')
  | _, _ => EmptyString
  end.

(** The characters of [str.isdigit]: 0 to 9 and the superscripts 2, 3
    and 1 (178, 179 and 185), which [int] does not read. *)
Definition is_digit_char (a : ascii) : bool :=
  let n := PyStr.code a in
  PyStr.is_digit a || (n =? 178)%nat || (n =? 179)%nat || (n =? 185)%nat.

Fixpoint all_digit_chars (s : string) : bool :=
  match s with
  | EmptyString => true
  | String a s' => is_digit_char a && all_digit_chars s'
  end.

(** [s.isdigit()]: at least one character, all of them digits. *)
Definition isdigit (s : string) : bool :=
  negb (PyStr.is_empty s) && all_digit_chars s.

End PyText.

(** [extract_section_content(text, start_marker, end_marker=None)] of
    [utils.py]. [text.find(end_marker, start_idx)] searches [text] from
    [start_idx] on: it is [start_idx] plus the index found in
    [text[start_idx:]], and [text[start_idx:end_idx]] is the prefix of that
    length of [text[start_idx:]]. *)
Definition extract_section_content (text start_marker : string)
  (end_marker : option string) : string :=
  if PyStr.is_empty text then EmptyString
  else
    match PyText.find start_marker text with
    | None => text
    | Some start_idx =>
        match truthy end_marker with
        | Some end_marker =>
            match PyText.find end_marker (PyText.drop start_idx text) with
            | Some k =>
                PyStr.strip (PyText.take k (PyText.drop start_idx text))
            | None => PyStr.strip (PyText.drop start_idx text)
            end
        | None => PyStr.strip (PyText.drop start_idx text)
        end
    end.

(** *** Summary statistics *)

Record summary_t : Type := {
  level_distribution : gmap Z Z;
  toc_page_range : Z * Z;
  parsed_page_range : Z * Z;
  avg_content_length : number;
  total_content_length : Z;
  sections_with_content : Z
}.

(** [level_distribution[level] = level_distribution.get(level, 0) + 1] *)
Definition count_level (dist : gmap Z Z) (entry : toc_entry) : gmap Z Z :=
  <[level entry := default 0 (dist !! level entry) + 1]> dist.

(** [(min(pages), max(pages)) if pages else (0, 0)] *)
Definition page_range (pages : list Z) : Z * Z :=
  match pages with
  | [] => (0, 0)
  | p :: tl => (fold_left Z.min tl p, fold_left Z.max tl p)
  end.

Definition content_length (e : section_entry) : Z :=
  Z.of_nat (String.length (content e)).

Definition sum_Z (l : list Z) : Z := fold_left Z.add l 0.

Definition generate_summary_statistics (toc_entries : list toc_entry)
  (section_entries : list section_entry) : summary_t :=
  let level_distribution := fold_left count_level toc_entries ∅ in
  let toc_pages := map page toc_entries in
  let parsed_pages := map (fun e => page (heading e)) section_entries in
  let content_lengths := map content_length section_entries in
  {| level_distribution := level_distribution;
     toc_page_range := page_range toc_pages;
     parsed_page_range := page_range parsed_pages;
     avg_content_length :=
       match content_lengths with
       | [] => PyInt 0
       | _ :: _ =>
           PyFloat (PrimFloat.div
                      (PrimFloat.of_uint63 (Uint63.of_Z (sum_Z content_lengths)))
                      (float_of_nat (length content_lengths)))
       end;
     total_content_length := sum_Z content_lengths;
     sections_with_content :=
       len (List.filter (fun e => negb (PyStr.is_empty (content e)))
              section_entries) |}.

(** *** The validation report *)

(** A page column of the report: a page number or the text "N/A". *)
Inductive page_cell : Set :=
| PageNo (p : Z)
| NotAvailable.

(** A row of the report, with the keys of the dicts of [report_data]. *)
Record report_row : Set := {
  row_section_id : string;
  row_title : string;
  row_toc_page : page_cell;
  row_in_toc : string;
  row_in_parsed : string;
  row_parsed_page : page_cell;
  row_status : string;
  row_level : Z;
  row_parent_id : option string;
  row_content_length : Z;
  row_tags : string
}.

(** [next((s for s in section_entries if s["section_id"] == id), None)] *)
Definition parsed_entry_of (section_entries : list section_entry)
  (id : string) : option section_entry :=
  find (fun s => String.eqb (section_id (heading s)) id) section_entries.

(** The row of a heading of the TOC. *)
Definition toc_row (section_entries : list section_entry)
  (toc_entry : toc_entry) : report_row :=
  let parsed_entry := parsed_entry_of section_entries (section_id toc_entry) in
  {| row_section_id := section_id toc_entry;
     row_title := title toc_entry;
     row_toc_page := PageNo (page toc_entry);
     row_in_toc := "YES";
     row_in_parsed := match parsed_entry with Some _ => "YES" | None => "NO" end;
     row_parsed_page :=
       match parsed_entry with
       | Some s => PageNo (page (heading s))
       | None => NotAvailable
       end;
     row_status := match parsed_entry with Some _ => "OK" | None => "MISSING" end;
     row_level := level toc_entry;
     row_parent_id := parent_id toc_entry;
     row_content_length :=
       match parsed_entry with
       | Some s => content_length s
       | None => 0
       end;
     row_tags := PyStr.join ", " (tags toc_entry) |}.

(** [not any(t["section_id"] == section_entry["section_id"] for t in
    toc_entries)] *)
Definition not_in_toc (toc_entries : list toc_entry)
  (section_entry : section_entry) : bool :=
  negb (existsb
          (fun t => String.eqb (section_id t) (section_id (heading section_entry)))
          toc_entries).

(** The row of a section entry that is not in the TOC. *)
Definition extra_row (section_entry : section_entry) : report_row :=
  {| row_section_id := section_id (heading section_entry);
     row_title := title (heading section_entry);
     row_toc_page := NotAvailable;
     row_in_toc := "NO";
     row_in_parsed := "YES";
     row_parsed_page := PageNo (page (heading section_entry));
     row_status := "EXTRA";
     row_level := level (heading section_entry);
     row_parent_id := parent_id (heading section_entry);
     row_content_length := content_length section_entry;
     row_tags := PyStr.join ", " (tags (heading section_entry)) |}.

(** The sort key
    [[int(n) for n in x["section_id"].split(".") if n.isdigit()]]. *)
Definition report_key (x : report_row) : result (list Z) :=
  mapM PyStr.int (List.filter PyText.isdigit (PyStr.split "." (row_section_id x))).

(** [generate_validation_report]; the data frame is the list of its rows.
    The analysis and the summary are computed first, as in the source: an
    exception of theirs is one of the report. *)
Definition generate_validation_report (toc_entries : list toc_entry)
  (section_entries : list section_entry) : result (list report_row) :=
  let* analysis := analyze_toc_vs_parsed toc_entries section_entries in
  let summary_stats := generate_summary_statistics toc_entries section_entries in
  let report_data :=
    map (toc_row section_entries) toc_entries ++
    map extra_row (List.filter (not_in_toc toc_entries) section_entries) in
  sort_by_key report_key report_data.

(** *** Notions used by the further properties *)

(** The characters with which a line that the parser accepts can start:
    a digit, or the first letter of "Chapter" or "Section" in any case. *)
Definition may_start_heading (a : ascii) : bool :=
  PyStr.is_digit a
  || Ascii.eqb (PyStr.lower_char a) "c"
  || Ascii.eqb (PyStr.lower_char a) "s".

(** The tags of [generate_tags], in the order in which it appends them. *)
Definition all_tags : list string :=
  ["power_management"; "negotiation"; "communication"; "state_machine";
   "hardware"; "compatibility"; "overview"; "reference"].

(** [if p not in pages: pages.append(p)] *)
Definition add_page (pages : list Z) (p : Z) : list Z :=
  if Z_in p pages then pages else pages ++ [p].

(** [pages[a:b]] for [0 <= a]. *)
Definition page_slice (pdf : pdf_pages) (a b : Z) : pdf_pages :=
  firstn (Z.to_nat (b - a)) (skipn (Z.to_nat a) pdf).

(** The texts of the pages that have one. *)
Definition texts_of (pages : pdf_pages) : list string := omap truthy pages.

(** An order issue that reports a real difference: a heading of the TOC and
    a content entry with its section number, on different pages. *)
Definition genuine_issue (toc : list toc_entry) (sections : list section_entry)
  (oi : order_issue_t) : Prop :=
  exists e s,
    In e toc /\ In s sections /\
    section_id e = oi_section_id oi /\
    section_id (heading s) = oi_section_id oi /\
    oi_toc_page oi = page e /\ oi_parsed_page oi = page (heading s) /\
    oi_toc_page oi <> oi_parsed_page oi /\
    oi_difference oi = Z.abs (oi_toc_page oi - oi_parsed_page oi).

(** A gap that lies between two headings of the TOC of one level, the
    first of which precedes the second. *)
Definition gap_between (toc : list toc_entry) (g : gap_t) : Prop :=
  exists a b,
    In a toc /\ In b toc /\
    level a = gap_level g /\ level b = gap_level g /\
    before_section g = section_id a /\ after_section g = section_id b /\
    gap_pair (section_id a) (section_id b) = true /\ id_le a b.

(** A text of whitespace only. *)
Fixpoint blank (s : string) : bool :=
  match s with
  | EmptyString => true
  | String a s' => PyStr.is_space a && blank s'
  end.

(** A pair that spans a list of pages: (0, 0) for no page, otherwise the
    least and the greatest page of the list. *)
Definition spans (pages : list Z) (r : Z * Z) : Prop :=
  match pages with
  | [] => r = (0, 0)
  | _ :: _ =>
      In (fst r) pages /\ In (snd r) pages /\
      forall p, In p pages -> fst r <= p <= snd r
  end.

(** The integers of the components of a section number that are digit
    runs: the sort key of a row of the report. *)
Definition row_key (x : report_row) : list Z :=
  map (digits_value 0)
    (List.filter PyText.isdigit (PyStr.split "." (row_section_id x))).

(** Where the section number of a row occurs, as its status tells. *)
Definition status_tells (toc : list toc_entry) (sections : list section_entry)
  (row : report_row) : Prop :=
  (row_status row = "EXTRA" <-> row_section_id row ∉ heading_ids toc) /\
  (row_status row = "MISSING" <->
   row_section_id row ∈ heading_ids toc /\
   row_section_id row ∉ content_ids sections) /\
  (row_status row = "OK" <->
   row_section_id row ∈ heading_ids toc /\
   row_section_id row ∈ content_ids sections).

(** A text whose whitespace is normalised: every whitespace character is
    a space, and a space is followed by a character that is not
    whitespace, or by the end of the text. *)
Fixpoint squeezed (s : string) : bool :=
  match s with
  | EmptyString => true
  | String a s' =>
      (negb (PyStr.is_space a)
       || (Ascii.eqb a " "
           && match s' with
              | String b _ => negb (PyStr.is_space b)
              | EmptyString => true
              end))
      && squeezed s'
  end.

(** The pages that [extract_toc] scans: the first [TOC_SCAN_PAGES] pages of
    the document, none when that number is not positive. *)
Definition scanned (cfg : Config) (pdf : pdf_pages) : pdf_pages :=
  firstn (Z.to_nat (TOC_SCAN_PAGES cfg)) pdf.

(** Pages whose lines have at most [max_str_digits] characters each, so
    that no numeral on them is too long for [int]. *)
Definition short_lines (pages : pdf_pages) : bool :=
  forallb (fun text =>
             match text with
             | Some text => forallb short (PyStr.split "010" text)
             | None => true
             end) pages.

(** A section number whose sort key in the report can be computed: each
    component that [str.isdigit] lets through is a numeral that [int]
    takes. *)
Definition key_ok (id : string) : bool :=
  forallb (fun n => negb (PyText.isdigit n) || int_literal n)
    (PyStr.split "." id).

(** *** A line with a numeral that [int] refuses *)

Module Samples.

(** [n] times the character [a]. *)
Fixpoint run (n : nat) (a : ascii) : string :=
  match n with
  | O => EmptyString
  | S n' => String a (run n' a)
  end.

(** A line of the format without dots whose page number has 4301 digits. *)
Definition long_page_line : string := ("1 a " ++ run 4301 "9")%string.

(** A line of 4300 characters of the same format. *)
Definition longest_line : string := ("1 a " ++ run 4296 "9")%string.

End Samples.

(** * Properties *)

(** ** The result monad *)

Lemma bind_Ok {A B : Type} (m : result A) (k : A -> result B) (b : B) :
  bind m k = Ok b -> exists a, m = Ok a /\ k a = Ok b.
Proof. destruct m as [a|e]; simpl; [eauto | discriminate]. Qed.

Lemma mapM_Ok {A B : Type} (f : A -> result B) (l : list A) :
  Forall (fun x => exists y, f x = Ok y) l ->
  exists ys, mapM f l = Ok ys /\ Forall2 (fun x y => f x = Ok y) l ys.
Proof.
  induction 1 as [|x tl [y Hy] _ (ys & Hys & HF)]; simpl.
  - exists []. split; [reflexivity | constructor].
  - exists (y :: ys). rewrite Hy, Hys. simpl. split; [reflexivity|].
    constructor; assumption.
Qed.

Lemma mapM_length {A B : Type} (f : A -> result B) (l : list A) (ys : list B) :
  mapM f l = Ok ys -> length ys = length l.
Proof.
  revert ys. induction l as [|x tl IH]; simpl; intros ys H.
  - injection H as <-. reflexivity.
  - apply bind_Ok in H as (y & _ & H). apply bind_Ok in H as (ys' & Hys & H).
    injection H as <-. simpl. f_equal. auto.
Qed.

(** ** Strings *)

Module PyStrFacts.
Import PyStr.

Lemma digit_not_space a : is_digit a = true -> is_space a = false.
Proof.
  destruct a as [[] [] [] [] [] [] [] []]; vm_compute; intros H;
    solve [reflexivity | discriminate H].
Qed.

Lemma digit_not_int_space a : is_digit a = true -> is_int_space a = false.
Proof.
  destruct a as [[] [] [] [] [] [] [] []]; vm_compute; intros H;
    solve [reflexivity | discriminate H].
Qed.

Lemma digit_neq a b : is_digit a = true -> is_digit b = false -> Ascii.eqb a b = false.
Proof.
  intros Ha Hb. destruct (Ascii.eqb_spec a b) as [->|]; [congruence | reflexivity].
Qed.

Lemma digit_value_range a :
  is_digit a = true -> 0 <= Z.of_nat (code a) - 48 <= 9.
Proof.
  unfold is_digit. intros H. apply andb_true_iff in H as [H1 H2].
  apply Nat.leb_le in H1. apply Nat.leb_le in H2. lia.
Qed.

Lemma rstrip_digits s : all_digits s = true -> rstrip s = s.
Proof.
  induction s as [|a s IH]; simpl; [reflexivity|].
  intros H. apply andb_true_iff in H as [Ha Hs].
  rewrite (digit_not_space a Ha). simpl. f_equal. auto.
Qed.

Lemma strip_number s : is_number s = true -> strip s = s.
Proof.
  unfold is_number, strip. intros H. apply andb_true_iff in H as [_ H].
  destruct s as [|a s]; [reflexivity|].
  simpl in H. pose proof H as H'. apply andb_true_iff in H' as [Ha _].
  simpl lstrip. rewrite (digit_not_space a Ha).
  apply rstrip_digits. exact H.
Qed.

Lemma int_digits_all acc s :
  all_digits s = true -> int_digits acc true s = Some (digits_value acc s).
Proof.
  revert acc. induction s as [|a s IH]; simpl; intros acc H; [reflexivity|].
  apply andb_true_iff in H as [Ha Hs]. rewrite Ha. apply IH, Hs.
Qed.

Lemma digits_value_nonneg acc s :
  all_digits s = true -> 0 <= acc -> 0 <= digits_value acc s.
Proof.
  revert acc. induction s as [|a s IH]; simpl; intros acc H Hacc; [exact Hacc|].
  apply andb_true_iff in H as [Ha Hs]. apply IH; [exact Hs|].
  pose proof (digit_value_range a Ha). lia.
Qed.

Lemma int_rstrip_digits s : all_digits s = true -> int_rstrip s = s.
Proof.
  induction s as [|a s IH]; simpl; [reflexivity|].
  intros H. apply andb_true_iff in H as [Ha Hs].
  rewrite (digit_not_int_space a Ha). simpl. f_equal. auto.
Qed.

Lemma int_strip_number s :
  is_number s = true -> int_rstrip (int_lstrip s) = s.
Proof.
  unfold is_number. intros H. apply andb_true_iff in H as [_ H].
  destruct s as [|a s]; [reflexivity|].
  simpl in H. pose proof H as H'. apply andb_true_iff in H' as [Ha _].
  simpl int_lstrip. rewrite (digit_not_int_space a Ha).
  apply int_rstrip_digits. exact H.
Qed.

Lemma count_digits_all s :
  all_digits s = true -> count_digits s = String.length s.
Proof.
  induction s as [|a s IH]; simpl; [reflexivity|].
  intros H. apply andb_true_iff in H as [Ha Hs].
  rewrite Ha, (IH Hs). reflexivity.
Qed.

(** [int] reads a run of digits as its decimal value, unless the run is
    longer than the limit. *)
Lemma int_number s :
  is_number s = true ->
  int s = if short s then Ok (digits_value 0 s) else Raise ValueError.
Proof.
  intros H. unfold int. rewrite (int_strip_number s H).
  unfold is_number in H. apply andb_true_iff in H as [Hne H].
  destruct s as [|a s]; [discriminate|].
  pose proof H as Hall. simpl in H. apply andb_true_iff in H as [Ha Hs].
  rewrite (digit_neq a "+" Ha eq_refl), (digit_neq a "-" Ha eq_refl).
  rewrite (count_digits_all _ Hall). unfold short.
  destruct (Z.leb_spec (Z.of_nat (String.length (String a s))) max_str_digits)
    as [Hle|Hgt].
  - replace (max_str_digits <? Z.of_nat (String.length (String a s)))
      with false by (symmetry; apply Z.ltb_ge; exact Hle).
    cbn [int_digits digits_value]. rewrite Ha.
    rewrite (int_digits_all _ s Hs). reflexivity.
  - replace (max_str_digits <? Z.of_nat (String.length (String a s)))
      with true by (symmetry; apply Z.ltb_lt; exact Hgt).
    reflexivity.
Qed.

(** A numeral that [int] takes. *)
Lemma int_literal_ok s :
  int_literal s = true -> int s = Ok (digits_value 0 s).
Proof.
  unfold int_literal. intros H. apply andb_true_iff in H as [Hn Hs].
  rewrite (int_number s Hn), Hs. reflexivity.
Qed.

(** A run of digits that [int] takes is within the limit. *)
Lemma int_number_short s v :
  is_number s = true -> int s = Ok v -> int_literal s = true.
Proof.
  intros Hn H. rewrite (int_number s Hn) in H. unfold int_literal.
  rewrite Hn. destruct (short s); [reflexivity | discriminate].
Qed.

Lemma short_le (s t : string) :
  (String.length s <= String.length t)%nat -> short t = true -> short s = true.
Proof.
  unfold short. intros Hl H. apply Z.leb_le in H. apply Z.leb_le. lia.
Qed.

Lemma lstrip_length s :
  (String.length (lstrip s) <= String.length s)%nat.
Proof.
  induction s as [|a s IH]; simpl; [lia|].
  destruct (is_space a); simpl; lia.
Qed.

Lemma rstrip_length s :
  (String.length (rstrip s) <= String.length s)%nat.
Proof.
  induction s as [|a s IH]; simpl; [lia|].
  destruct (is_space a && is_empty (rstrip s)); simpl; lia.
Qed.

Lemma strip_length s :
  (String.length (strip s) <= String.length s)%nat.
Proof.
  unfold strip. pose proof (rstrip_length (lstrip s)).
  pose proof (lstrip_length s). lia.
Qed.

(** A field of a text is no longer than the text. *)
Lemma split_lengths sep s x :
  In x (split sep s) -> (String.length x <= String.length s)%nat.
Proof.
  revert x. induction s as [|a s IH]; simpl; intros x H.
  - destruct H as [<-|[]]. simpl. lia.
  - destruct (Ascii.eqb a sep).
    + destruct H as [<-|H]; [simpl; lia|]. specialize (IH x H). lia.
    + destruct (split sep s) as [|h t] eqn:E.
      * destruct H as [<-|[]]. simpl. lia.
      * destruct H as [<-|H].
        -- specialize (IH h (or_introl eq_refl)). simpl. lia.
        -- specialize (IH x (or_intror H)). lia.
Qed.

Lemma split_nonempty sep s : split sep s <> [].
Proof.
  destruct s as [|a s]; simpl; [discriminate|].
  destruct (Ascii.eqb a sep); [discriminate|].
  destruct (split sep s); discriminate.
Qed.

(** [len(s.split(c)) == s.count(c) + 1] *)
Lemma split_length sep s : length (split sep s) = S (count sep s).
Proof.
  induction s as [|a s IH]; simpl; [reflexivity|].
  destruct (Ascii.eqb a sep); simpl.
  - rewrite IH. reflexivity.
  - destruct (split sep s) eqn:E; simpl in *; [discriminate | exact IH].
Qed.

Lemma join_cons sep x y l :
  join sep (x :: y :: l) = (x ++ sep ++ join sep (y :: l))%string.
Proof. reflexivity. Qed.

Lemma append_nil (t : string) : ("" ++ t)%string = t.
Proof. reflexivity. Qed.

Lemma append_cons a (s t : string) :
  (String a s ++ t)%string = String a (s ++ t).
Proof. reflexivity. Qed.

Lemma append_empty_r (s : string) : (s ++ "")%string = s.
Proof.
  induction s as [|a s IH]; [reflexivity|].
  rewrite append_cons, IH. reflexivity.
Qed.

Lemma append_assoc (a b c : string) :
  ((a ++ b) ++ c)%string = (a ++ (b ++ c))%string.
Proof.
  induction a as [|x a IH]; [reflexivity|].
  rewrite !append_cons, IH. reflexivity.
Qed.

Lemma length_append (a b : string) :
  String.length (a ++ b) = (String.length a + String.length b)%nat.
Proof.
  induction a as [|x a IH]; [reflexivity|].
  rewrite append_cons. simpl. rewrite IH. reflexivity.
Qed.

(** [sep.join(s.split(sep)) == s] *)
Lemma join_split sep s : join (String sep EmptyString) (split sep s) = s.
Proof.
  induction s as [|a s IH]; simpl; [reflexivity|].
  destruct (Ascii.eqb_spec a sep) as [->|Hne].
  - pose proof (split_nonempty sep s) as Hs.
    destruct (split sep s) as [|h t]; [contradiction|].
    rewrite join_cons, IH. reflexivity.
  - pose proof (split_nonempty sep s) as Hs.
    destruct (split sep s) as [|h t]; [contradiction|].
    destruct t as [|h' t'].
    + simpl in *. congruence.
    + rewrite join_cons in *. rewrite append_cons. congruence.
Qed.

(** Splitting a text that starts with a field free of the separator. *)
Lemma split_field sep w s :
  count sep w = 0%nat ->
  split sep (w ++ String sep s) = w :: split sep s.
Proof.
  induction w as [|a w IH]; simpl; intros H.
  - rewrite ?append_nil. simpl. rewrite Ascii.eqb_refl. reflexivity.
  - rewrite ?append_cons. simpl.
    destruct (Ascii.eqb a sep); [discriminate|].
    rewrite (IH H). reflexivity.
Qed.

Lemma split_single sep w : count sep w = 0%nat -> split sep w = [w].
Proof.
  induction w as [|a w IH]; simpl; intros H; [reflexivity|].
  destruct (Ascii.eqb a sep); [discriminate|].
  rewrite (IH H). reflexivity.
Qed.

Lemma digits_no_dot w : all_digits w = true -> count "." w = 0%nat.
Proof.
  induction w as [|a w IH]; simpl; intros H; [reflexivity|].
  apply andb_true_iff in H as [Ha Hw].
  rewrite (digit_neq a "." Ha eq_refl). simpl. auto.
Qed.

End PyStrFacts.

(** ** The matcher is sound for the declarative meaning *)

Module ReFacts.
Import Re PyStrFacts.

Lemma substring_prefix (w s : string) :
  String.substring 0 (String.length w) (w ++ s) = w.
Proof.
  induction w as [|a w IH]; simpl.
  - destruct s; reflexivity.
  - rewrite ?append_cons. simpl. rewrite IH. reflexivity.
Qed.

Section Sound.
Variable ic : bool.

Lemma sound_Star g r : sound ic r -> sound ic (Star g r).
Proof.
  intros IH st c k res. simpl.
  generalize (String.length (rest st)) as fuel.
  intros fuel. revert st c.
  induction fuel as [|fuel IHf]; intros st c H.
  - exists EmptyString, st, c. repeat split; try assumption.
    + constructor.
    + simpl. lia.
  - simpl in H.
    assert (Hmore : forall x,
             matchk ic r st c
               (fun st' c' =>
                  if (pos st <? pos st')%nat
                  then star_loop (matchk ic r) g k fuel st' c'
                  else None) = Some x ->
             x = res ->
             exists w st' c',
               Matches ic (Star g r) w c c' /\
               rest st = (w ++ rest st')%string /\
               pos st' = (pos st + String.length w)%nat /\
               k st' c' = Some res).
    { intros x Hx ->.
      apply IH in Hx as (w1 & st1 & c1 & M1 & R1 & P1 & K1).
      destruct (pos st <? pos st1)%nat; [|discriminate].
      apply IHf in K1 as (w2 & st2 & c2 & M2 & R2 & P2 & K2).
      exists (w1 ++ w2)%string, st2, c2. repeat split.
      - econstructor; eassumption.
      - rewrite R1, R2, append_assoc. reflexivity.
      - rewrite P2, P1, length_append. lia.
      - exact K2. }
    assert (Hdone : k st c = Some res ->
             exists w st' c',
               Matches ic (Star g r) w c c' /\
               rest st = (w ++ rest st')%string /\
               pos st' = (pos st + String.length w)%nat /\
               k st' c' = Some res).
    { intros Hk. exists EmptyString, st, c. repeat split; try assumption.
      - constructor.
      - simpl. lia. }
    destruct g.
    + match type of H with
      | match ?m with _ => _ end = _ => remember m as o eqn:E in H
      end.
      destruct o as [x|].
      * injection H as ->. symmetry in E.
        eapply Hmore; [exact E | reflexivity].
      * apply Hdone, H.
    + remember (k st c) as o eqn:E in H.
      destruct o as [x|].
      * injection H as ->. apply Hdone. symmetry. exact E.
      * eapply Hmore; [exact H | reflexivity].
Qed.

Theorem matchk_sound r : sound ic r.
Proof.
  induction r as [|a|cl|r1 IH1 r2 IH2|g r IH|r IH|n r IH| |].
  - intros st c k res H. simpl in H.
    exists EmptyString, st, c. repeat split; try assumption.
    + constructor.
    + simpl. lia.
  - intros st c k res H. simpl in H.
    destruct (rest st) as [|b s'] eqn:E; [discriminate|].
    destruct (lit_eqb ic b a) eqn:L; [|discriminate].
    exists (String b EmptyString), (advance st s'), c. repeat split.
    + constructor. exact L.
    + simpl. lia.
    + exact H.
  - intros st c k res H. simpl in H.
    destruct (rest st) as [|b s'] eqn:E; [discriminate|].
    destruct (in_cls cl b) eqn:L; [|discriminate].
    exists (String b EmptyString), (advance st s'), c. repeat split.
    + constructor. exact L.
    + simpl. lia.
    + exact H.
  - intros st c k res H. simpl in H.
    apply IH1 in H as (w1 & st1 & c1 & M1 & R1 & P1 & K1).
    apply IH2 in K1 as (w2 & st2 & c2 & M2 & R2 & P2 & K2).
    exists (w1 ++ w2)%string, st2, c2. repeat split.
    + econstructor; eassumption.
    + rewrite R1, R2, append_assoc. reflexivity.
    + rewrite P2, P1, length_append. lia.
    + exact K2.
  - apply sound_Star, IH.
  - intros st c k res H. simpl in H.
    destruct (matchk ic r st c k) as [x|] eqn:E.
    + injection H as ->.
      apply IH in E as (w & st' & c' & M & R & P & K).
      exists w, st', c'. repeat split; try assumption.
      constructor. exact M.
    + exists EmptyString, st, c. repeat split; try assumption.
      * constructor.
      * simpl. lia.
  - intros st c k res H. simpl in H.
    apply IH in H as (w & st' & c' & M & R & P & K).
    exists w, st', ((n, w) :: c'). repeat split; try assumption.
    + constructor. exact M.
    + rewrite R in K. rewrite P in K.
      replace (pos st + String.length w - pos st)%nat
        with (String.length w) in K by lia.
      rewrite substring_prefix in K. exact K.
  - intros st c k res H. simpl in H.
    destruct (pos st =? 0)%nat; [|discriminate].
    exists EmptyString, st, c. repeat split; try assumption.
    + constructor.
    + simpl. lia.
  - intros st c k res H. simpl in H.
    match type of H with
    | (if ?b then _ else _) = _ => destruct b; [|discriminate]
    end.
    exists EmptyString, st, c. repeat split; try assumption.
    + constructor.
    + simpl. lia.
Qed.

(** A successful [re.match] reads a prefix of the subject. *)
Corollary re_match_sound r s m :
  re_match ic r s = Some m ->
  exists w s', Matches ic r w [] m /\ s = (w ++ s')%string.
Proof.
  unfold re_match. intros H.
  destruct (matchk ic r (MState 0 s) [] (fun st c => Some (st, c)))
    as [[st' c']|] eqn:E; [|discriminate].
  injection H as ->.
  apply matchk_sound in E as (w & st1 & c1 & M & R & P & K).
  injection K as -> ->. simpl in R.
  exists w, (rest st'). split; assumption.
Qed.
End Sound.

End ReFacts.

(** ** What the patterns of the line parser capture *)

Module PatternFacts.
Import Re PyStrFacts ReFacts Patterns.

Lemma Matches_plain ic r w c c' :
  Matches ic r w c c' -> plain r = true -> c' = c.
Proof.
  induction 1; simpl; intros Hp; try reflexivity; try discriminate.
  - apply andb_true_iff in Hp as [H1 H2].
    rewrite (IHMatches2 H2). apply IHMatches1, H1.
  - rewrite (IHMatches2 Hp). apply IHMatches1, Hp.
  - apply IHMatches, Hp.
Qed.

Lemma lit_dot ic b : lit_eqb ic b "." = true -> b = "."%char.
Proof.
  destruct ic; unfold lit_eqb; intros H.
  - destruct b as [[] [] [] [] [] [] [] []]; vm_compute in H;
      solve [discriminate | reflexivity].
  - apply Ascii.eqb_eq in H. exact H.
Qed.

Lemma Matches_digit_star ic g w c c' :
  Matches ic (Star g (Cls Digit)) w c c' -> all_digits w = true.
Proof.
  remember (Star g (Cls Digit)) as r eqn:E. intros H.
  induction H; try discriminate; injection E as -> ->.
  - reflexivity.
  - inversion H; subst. rewrite append_cons, append_nil. simpl.
    rewrite IHMatches2 by reflexivity.
    match goal with L : in_cls Digit _ = true |- _ => simpl in L; rewrite L end.
    reflexivity.
Qed.

Lemma Matches_digits ic w c c' :
  Matches ic digits w c c' -> is_number w = true.
Proof.
  unfold digits, Plus. intros H. inversion H; subst.
  match goal with M : Matches _ (Cls _) _ _ _ |- _ => inversion M; subst end.
  match goal with M : Matches _ (Star _ _) _ _ _ |- _ =>
    apply Matches_digit_star in M as Hs end.
  rewrite append_cons, append_nil. unfold is_number. simpl.
  match goal with L : in_cls Digit _ = true |- _ => simpl in L; rewrite L end.
  exact Hs.
Qed.

Lemma digit_id_single d : is_number d = true -> digit_id d = true.
Proof.
  intros H. unfold digit_id. rewrite split_single.
  - simpl. rewrite H. reflexivity.
  - apply digits_no_dot. unfold is_number in H.
    apply andb_true_iff in H as [_ H]. exact H.
Qed.

Lemma digit_id_cons d s :
  is_number d = true -> digit_id s = true -> digit_id (d ++ String "." s) = true.
Proof.
  intros H Hs. unfold digit_id. rewrite split_field.
  - simpl. rewrite H. exact Hs.
  - apply digits_no_dot. unfold is_number in H.
    apply andb_true_iff in H as [_ H]. exact H.
Qed.

Lemma Matches_dotted_tail ic g t c c' :
  Matches ic (Star g (Seq (Lit ".") digits)) t c c' ->
  forall d, is_number d = true -> digit_id (d ++ t) = true.
Proof.
  remember (Star g (Seq (Lit ".") digits)) as r eqn:E. intros H.
  induction H; try discriminate; injection E as -> ->; intros d Hd.
  - rewrite append_empty_r. apply digit_id_single, Hd.
  - inversion H; subst.
    match goal with M : Matches _ (Lit _) _ _ _ |- _ => inversion M; subst end.
    match goal with L : lit_eqb _ _ _ = true |- _ => apply lit_dot in L; subst end.
    match goal with M : Matches _ digits _ _ _ |- _ =>
      apply Matches_digits in M as Hn end.
    rewrite append_assoc, append_cons, append_nil.
    apply digit_id_cons; [exact Hd|].
    apply IHMatches2; [reflexivity | exact Hn].
Qed.

Lemma Matches_dotted ic w c c' :
  Matches ic dotted w c c' -> digit_id w = true.
Proof.
  unfold dotted. intros H. inversion H; subst.
  match goal with M : Matches _ digits _ _ _ |- _ =>
    apply Matches_digits in M as Hn end.
  match goal with M : Matches _ (Star _ _) _ _ _ |- _ =>
    apply (Matches_dotted_tail _ _ _ _ _ M _ Hn) end.
Qed.

Ltac invert_seq :=
  repeat match goal with
  | H : Matches _ (Seq _ _) _ _ _ |- _ => inversion H; subst; clear H
  | H : Matches _ (Group _ _) _ _ _ |- _ => inversion H; subst; clear H
  | H : Matches _ (Opt _) _ _ _ |- _ => inversion H; subst; clear H
  | H : Matches _ Bol _ _ _ |- _ => inversion H; subst; clear H
  | H : Matches _ Eol _ _ _ |- _ => inversion H; subst; clear H
  | H : Matches _ (Lit _) _ _ _ |- _ => inversion H; subst; clear H
  end.

Ltac same_caps :=
  repeat match goal with
  | H : Matches _ ?r _ ?c ?c' |- _ =>
      is_var c';
      let E := fresh "E" in
      assert (E : c' = c) by (apply (Matches_plain _ _ _ _ _ H); reflexivity);
      subst c'
  end.

Ltac found_captures :=
  do 3 eexists; split; [reflexivity|]; split;
  [ first [ eapply Matches_dotted; eassumption
          | apply digit_id_single; eapply Matches_digits; eassumption ]
  | split; [eapply Matches_digits; eassumption|];
    split; (repeat rewrite length_append; lia) ].

Lemma standard_captures w m :
  Matches true standard w [] m -> captures w m.
Proof.
  unfold standard. cbn [seqs]. intros H.
  invert_seq. same_caps. found_captures.
Qed.

Lemma without_dots_captures w m :
  Matches true without_dots w [] m -> captures w m.
Proof.
  unfold without_dots. cbn [seqs]. intros H.
  invert_seq. same_caps. found_captures.
Qed.

Lemma with_parentheses_captures w m :
  Matches true with_parentheses w [] m -> captures w m.
Proof.
  unfold with_parentheses. cbn [seqs]. intros H.
  invert_seq; same_caps; found_captures.
Qed.

Lemma chapter_captures w m :
  Matches true chapter w [] m -> captures w m.
Proof.
  unfold chapter. cbn [seqs Word]. intros H.
  invert_seq. same_caps. found_captures.
Qed.

Lemma section_captures w m :
  Matches true section w [] m -> captures w m.
Proof.
  unfold section. cbn [seqs Word]. intros H.
  invert_seq. same_caps. found_captures.
Qed.

Lemma captures_prefix w s' m : captures w m -> captures (w ++ s')%string m.
Proof.
  intros (g1 & g2 & g3 & E & H1 & H3 & L1 & L3).
  exists g1, g2, g3. rewrite length_append.
  split; [exact E|]. split; [exact H1|]. split; [exact H3|]. split; lia.
Qed.

Lemma patterns_capture :
  Forall (fun p => forall s m, re_match true p s = Some m -> captures s m)
    patterns.
Proof.
  unfold patterns.
  repeat constructor; intros s m H;
    apply re_match_sound in H as (w & s' & M & ->); apply captures_prefix.
  - eapply standard_captures, M.
  - eapply without_dots_captures, M.
  - eapply with_parentheses_captures, M.
  - eapply chapter_captures, M.
  - eapply section_captures, M.
Qed.

End PatternFacts.

(** ** The line parser returns, and what it returns *)

Module ParserFacts.
Import PyStrFacts ReFacts PatternFacts.

Lemma mapM_map {A B : Type} (f : A -> result B) (g : A -> B) (l : list A) :
  Forall (fun x => f x = Ok (g x)) l -> mapM f l = Ok (map g l).
Proof.
  induction 1 as [|x tl Hx _ IH]; simpl; [reflexivity|].
  rewrite Hx, IH. reflexivity.
Qed.

(** The integer path of a well-formed section number. *)
Lemma id_parts_wf s : wf_id s = true -> id_parts s = Ok (components s).
Proof.
  unfold wf_id, id_parts, components. intros H.
  apply mapM_map. apply List.Forall_forall. intros x Hx.
  apply int_literal_ok. rewrite forallb_forall in H. apply H, Hx.
Qed.

Lemma components_length s :
  length (components s) = length (PyStr.split "." s).
Proof. unfold components. apply length_map. Qed.

Lemma components_nonempty s : components s <> [].
Proof.
  unfold components. pose proof (split_nonempty "." s) as H.
  destruct (PyStr.split "." s); [contradiction | discriminate].
Qed.

Lemma wf_id_digit_id s : wf_id s = true -> digit_id s = true.
Proof.
  unfold wf_id, digit_id. rewrite !forallb_forall. intros H x Hx.
  specialize (H x Hx). unfold int_literal in H.
  apply andb_true_iff in H as [H _]. exact H.
Qed.

(** A section number of the patterns that is short enough is well
    formed. *)
Lemma digit_id_short s :
  digit_id s = true -> short s = true -> wf_id s = true.
Proof.
  unfold wf_id, digit_id. rewrite !forallb_forall. intros H Hs x Hx.
  unfold int_literal. rewrite (H x Hx). simpl.
  apply (short_le x s); [apply (split_lengths _ _ _ Hx) | exact Hs].
Qed.

Lemma mapM_Ok_inv {A B : Type} (f : A -> result B) (l : list A) (ys : list B) :
  mapM f l = Ok ys -> Forall (fun x => exists y, f x = Ok y) l.
Proof.
  revert ys. induction l as [|x l IH]; simpl; intros ys H; [constructor|].
  apply bind_Ok in H as (y & Hy & H). apply bind_Ok in H as (ys' & Hys & _).
  constructor; [exists y; exact Hy | apply (IH ys'), Hys].
Qed.

(** A section number of the patterns whose integer path can be computed is
    well formed. *)
Lemma id_parts_ok_wf s parts :
  digit_id s = true -> id_parts s = Ok parts -> wf_id s = true.
Proof.
  unfold wf_id, digit_id, id_parts. rewrite !forallb_forall.
  intros H Hparts x Hx. apply mapM_Ok_inv in Hparts.
  rewrite List.Forall_forall in Hparts. destruct (Hparts x Hx) as [v Hv].
  apply (int_number_short x v); [apply H, Hx | exact Hv].
Qed.

(** The heading built from the groups of a match: the page number is read
    by [int], outside the [try] of the loop. *)
Lemma entry_of_match_spec g1 g2 g3 doc :
  digit_id g1 = true -> is_number g3 = true ->
  if short g3
  then exists e,
         entry_of_match [(3%nat, g3); (2%nat, g2); (1%nat, g1)] doc = Ok e /\
         parsed_entry doc e /\ section_id e = g1 /\ page e = digits_value 0 g3
  else entry_of_match [(3%nat, g3); (2%nat, g2); (1%nat, g1)] doc
       = Raise ValueError.
Proof.
  intros H1 H3. unfold entry_of_match, match_group. simpl Re.group.
  cbn [bind]. rewrite (int_number g3 H3).
  destruct (short g3); [|reflexivity]. cbn [bind].
  eexists. split; [reflexivity|]. simpl.
  split; [|split; reflexivity].
  split; [reflexivity|]. split; [exact H1|]. simpl. split.
  - apply digits_value_nonneg; [|lia].
    unfold is_number in H3. apply andb_true_iff in H3 as [_ H3]. exact H3.
  - unfold derived_fields. simpl. unfold len. rewrite split_length.
    split; [lia|].
    destruct (Z.ltb_spec 1 (Z.of_nat (PyStr.count "." g1) + 1));
      destruct (Z.eqb_spec (Z.of_nat (PyStr.count "." g1) + 1) 1);
      solve [reflexivity | lia].
Qed.

Lemma try_patterns_spec ps line doc :
  Forall (fun p => forall s m, Re.re_match true p s = Some m -> captures s m) ps ->
  match try_patterns ps line doc with
  | Ok r =>
      forall e, r = Some e ->
        parsed_entry doc e /\
        (String.length (section_id e) <= String.length line)%nat
  | Raise x => x = ValueError /\ short line = false
  end.
Proof.
  induction 1 as [|p ps Hp _ IH]; simpl.
  - intros e. discriminate.
  - destruct (Re.re_match true p line) as [m|] eqn:E; [|exact IH].
    destruct (Hp _ _ E) as (g1 & g2 & g3 & -> & H1 & H3 & L1 & L3).
    pose proof (entry_of_match_spec g1 g2 g3 doc H1 H3) as Hs.
    destruct (short g3) eqn:S3.
    + destruct Hs as (e & He & Hpe & Hid & _). rewrite He. simpl.
      intros e' [= <-]. split; [exact Hpe|]. rewrite Hid. exact L1.
    + rewrite Hs. simpl. split; [reflexivity|].
      destruct (short line) eqn:SL; [|reflexivity].
      rewrite (short_le g3 line L3 SL) in S3. discriminate.
Qed.

(** The line parser: what it returns is a heading of the patterns, and it
    raises only [ValueError], on a line of more than [max_str_digits]
    characters. *)
Lemma extract_toc_entry_spec line doc :
  match extract_toc_entry line doc with
  | Ok r =>
      forall e, r = Some e ->
        parsed_entry doc e /\
        (String.length (section_id e) <= String.length line)%nat
  | Raise x => x = ValueError /\ short line = false
  end.
Proof.
  unfold extract_toc_entry.
  destruct (PyStr.is_empty (PyStr.strip line)); [intros e; discriminate|].
  pose proof (try_patterns_spec patterns (PyStr.strip line) doc
                patterns_capture) as H.
  pose proof (strip_length line) as Hl.
  destruct (try_patterns patterns (PyStr.strip line) doc) as [r|x].
  - intros e He. destruct (H e He) as [Hp Hle]. split; [exact Hp | lia].
  - destruct H as [-> Hs]. split; [reflexivity|].
    destruct (short line) eqn:SL; [|reflexivity].
    rewrite (short_le _ line Hl SL) in Hs. discriminate.
Qed.

(** On a line of at most [max_str_digits] characters the line parser
    returns, and a heading it returns has a well-formed section number and
    the fields derived from it. *)
Lemma extract_toc_entry_ok line doc :
  short line = true ->
  exists r, extract_toc_entry line doc = Ok r /\
            forall e, r = Some e ->
                      parsed_entry doc e /\ wf_id (section_id e) = true.
Proof.
  intros Hs. pose proof (extract_toc_entry_spec line doc) as H.
  destruct (extract_toc_entry line doc) as [r|x].
  - exists r. split; [reflexivity|]. intros e He.
    destruct (H e He) as [Hp Hle]. split; [exact Hp|].
    apply digit_id_short; [apply Hp|]. apply (short_le _ line Hle Hs).
  - destruct H as [_ H]. congruence.
Qed.

Lemma extract_toc_entry_shape line doc e :
  extract_toc_entry line doc = Ok (Some e) -> parsed_entry doc e.
Proof.
  intros H. pose proof (extract_toc_entry_spec line doc) as Hs.
  rewrite H in Hs. apply (Hs e eq_refl).
Qed.

End ParserFacts.

(** ** Sorting *)

Module SortFacts.
Import ParserFacts.

Lemma list_lt_false_le a b : list_lt b a = false -> lex_le a b.
Proof.
  revert b. induction a as [|x a IH]; intros [|y b]; simpl; intros H;
    try exact I; try discriminate.
  destruct (Z.eqb_spec y x) as [->|Hne].
  - right. split; [reflexivity | apply IH, H].
  - left. apply Z.ltb_ge in H. lia.
Qed.

Lemma list_lt_true_le a b : list_lt a b = true -> lex_le a b.
Proof.
  revert b. induction a as [|x a IH]; intros [|y b]; simpl; intros H;
    try exact I; try discriminate.
  destruct (Z.eqb_spec x y) as [->|Hne].
  - right. split; [reflexivity | apply IH, H].
  - left. apply Z.ltb_lt in H. exact H.
Qed.

Lemma lex_le_trans a b c : lex_le a b -> lex_le b c -> lex_le a c.
Proof.
  revert b c. induction a as [|x a IH]; intros [|y b] [|z c]; simpl;
    try tauto.
  intros [H1|[-> H1]] [H2|[-> H2]].
  - left. lia.
  - left. exact H1.
  - left. exact H2.
  - right. split; [reflexivity | eapply IH; eassumption].
Qed.

(** [lex_le] is the order that [<] on lists decides. *)
Lemma lex_le_iff a b : lex_le a b <-> list_lt b a = false.
Proof.
  split; [|apply list_lt_false_le].
  revert b. induction a as [|x a IH]; intros [|y b]; simpl; try tauto.
  intros [H|[-> H]].
  - destruct (Z.eqb_spec y x); [lia | apply Z.ltb_ge; lia].
  - rewrite Z.eqb_refl. apply IH, H.
Qed.

Section Pairs.
Context {A : Type}.

Lemma insert_sorted_perm (kx : list Z * A) l :
  Permutation (kx :: l) (insert_sorted kx l).
Proof.
  induction l as [|ky tl IH]; simpl; [reflexivity|].
  destruct (list_lt (fst ky) (fst kx)); [|reflexivity].
  rewrite perm_swap. constructor. exact IH.
Qed.

Lemma sort_pairs_perm (l : list (list Z * A)) :
  Permutation l (sort_pairs l).
Proof.
  induction l as [|kx tl IH]; simpl; [reflexivity|].
  rewrite <- insert_sorted_perm. constructor. exact IH.
Qed.

Lemma insert_sorted_sorted (kx : list Z * A) l :
  StronglySorted (@pair_le A) l -> StronglySorted (@pair_le A) (insert_sorted kx l).
Proof.
  induction 1 as [|ky tl Hs IH Hall]; simpl.
  - constructor; constructor.
  - destruct (list_lt (fst ky) (fst kx)) eqn:E.
    + constructor; [exact IH|].
      eapply Permutation_Forall; [apply insert_sorted_perm|].
      constructor; [apply list_lt_true_le, E | exact Hall].
    + apply list_lt_false_le in E.
      constructor; [constructor; assumption|].
      constructor; [exact E|].
      eapply List.Forall_impl; [|exact Hall].
      intros kz Hz. unfold pair_le in *. eapply lex_le_trans; eassumption.
Qed.

Lemma sort_pairs_sorted (l : list (list Z * A)) :
  StronglySorted (@pair_le A) (sort_pairs l).
Proof.
  induction l as [|kx tl IH]; simpl; [constructor|].
  apply insert_sorted_sorted, IH.
Qed.
End Pairs.

Lemma StronglySorted_map {A B : Type} (f : A -> B) (R : B -> B -> Prop)
  (l : list A) :
  StronglySorted (fun x y => R (f x) (f y)) l -> StronglySorted R (map f l).
Proof.
  induction 1 as [|x tl Hs IH Hall]; simpl; constructor; [exact IH|].
  apply List.Forall_forall. intros y Hy. apply in_map_iff in Hy as (z & <- & Hz).
  rewrite List.Forall_forall in Hall. apply Hall, Hz.
Qed.

Lemma combine_map_key {A : Type} (key : A -> list Z) (l : list A) :
  combine (map key l) l = map (fun x => (key x, x)) l.
Proof. induction l as [|x tl IH]; simpl; congruence. Qed.

Lemma section_keys_wf l :
  Forall (fun e => wf_id (section_id e) = true) l ->
  mapM section_key l = Ok (map (fun e => components (section_id e)) l).
Proof.
  intros H. apply mapM_map. eapply List.Forall_impl; [|exact H].
  intros e He. apply id_parts_wf, He.
Qed.

(** Sorting headings with well-formed section numbers returns; the result
    is the stable sort of the headings paired with their integer paths. *)
Lemma sort_by_key_wf l :
  Forall (fun e => wf_id (section_id e) = true) l ->
  sort_by_key section_key l =
    Ok (map snd (sort_pairs
                   (map (fun e => (components (section_id e), e)) l))).
Proof.
  intros H. unfold sort_by_key. rewrite (section_keys_wf l H). cbn [bind].
  rewrite combine_map_key. reflexivity.
Qed.

Lemma keyed_perm (l : list toc_entry) :
  Permutation l
    (map snd (sort_pairs (map (fun e => (components (section_id e), e)) l))).
Proof.
  rewrite <- sort_pairs_perm. rewrite map_map. simpl. rewrite map_id.
  reflexivity.
Qed.

Lemma keyed_ascending (l : list toc_entry) :
  ascending
    (map snd (sort_pairs (map (fun e => (components (section_id e), e)) l))).
Proof.
  unfold ascending. apply StronglySorted_map.
  set (ps := map (fun e => (components (section_id e), e)) l).
  assert (Hk : Forall (fun p => fst p = components (section_id (snd p)))
                 (sort_pairs ps)).
  { eapply Permutation_Forall; [apply sort_pairs_perm|].
    subst ps. apply List.Forall_forall. intros p Hp.
    apply in_map_iff in Hp as (e & <- & _). reflexivity. }
  pose proof (sort_pairs_sorted ps) as Hs.
  induction Hs as [|p tl Hs IH Hall]; constructor.
  - apply IH. inversion Hk; assumption.
  - inversion Hk as [|? ? Hp Htl]; subst.
    rewrite List.Forall_forall in *. intros q Hq.
    unfold id_le. rewrite <- Hp, <- (Htl q Hq). apply Hall, Hq.
Qed.

Lemma sort_by_key_ok l :
  Forall (fun e => wf_id (section_id e) = true) l ->
  exists out, sort_by_key section_key l = Ok out /\
              ascending out /\ Permutation l out.
Proof.
  intros H. eexists. split; [apply sort_by_key_wf, H|].
  split; [apply keyed_ascending | apply keyed_perm].
Qed.

End SortFacts.

(** ** Loops and indexing *)

Module PyFacts.

Lemma foldM_inv {A S : Type} (body : S -> A -> result S) (P : S -> Prop)
  (l : list A) (acc : S) :
  (forall acc x, In x l -> P acc -> exists acc', body acc x = Ok acc' /\ P acc') ->
  P acc -> exists acc', foldM body l acc = Ok acc' /\ P acc'.
Proof.
  revert acc. induction l as [|x tl IH]; simpl; intros acc Hbody Hacc.
  - exists acc. split; [reflexivity | exact Hacc].
  - destruct (Hbody acc x (or_introl eq_refl) Hacc) as (acc1 & E & H1).
    rewrite E. cbn [bind]. apply IH; [|exact H1].
    intros a y Hy. apply Hbody. right. exact Hy.
Qed.

Lemma in_py_range i a b : In i (py_range a b) -> a <= i < b.
Proof.
  unfold py_range. intros H. apply in_map_iff in H as (k & <- & Hk).
  apply in_seq in Hk. lia.
Qed.

Lemma py_index_ok {A : Type} (l : list A) (i : Z) :
  0 <= i < len l ->
  exists x, py_index l i = Ok x /\ nth_error l (Z.to_nat i) = Some x.
Proof.
  unfold py_index, len. intros H.
  destruct (Z.ltb_spec i 0) as [?|_]; [lia|].
  destruct (Z.ltb_spec i 0) as [?|_]; [lia|].
  destruct (nth_error l (Z.to_nat i)) as [x|] eqn:E.
  - exists x. split; reflexivity.
  - apply nth_error_None in E. lia.
Qed.

Lemma py_index_last {A : Type} (l : list A) (d : A) :
  l <> [] -> py_index l (-1) = Ok (List.last l d).
Proof.
  intros Hne. destruct (@exists_last _ l Hne) as (l' & x & ->).
  unfold py_index, len. rewrite length_app, last_last. simpl length.
  change (-1 <? 0) with true. cbv iota.
  replace (-1 + Z.of_nat (length l' + 1)) with (Z.of_nat (length l')) by lia.
  destruct (Z.ltb_spec (Z.of_nat (length l')) 0) as [?|_]; [lia|].
  rewrite Nat2Z.id, nth_error_app2 by lia.
  rewrite Nat.sub_diag. reflexivity.
Qed.

End PyFacts.

(** ** The TOC scan *)

Module TocFacts.
Import PyStrFacts ParserFacts SortFacts PyFacts.

Lemma Z_in_In x l : Z_in x l = true <-> In x l.
Proof.
  unfold Z_in. rewrite existsb_exists. split.
  - intros (y & Hy & E). apply Z.eqb_eq in E. subst. exact Hy.
  - intros H. exists x. split; [exact H | apply Z.eqb_refl].
Qed.

Lemma scan_line_ok pages doc page_num acc line :
  short line = true ->
  0 <= page_num < pages ->
  scan_inv pages doc acc ->
  exists acc', scan_line doc page_num acc line = Ok acc' /\
               scan_inv pages doc acc'.
Proof.
  intros Hs Hp [Hall Hin]. unfold scan_line.
  destruct (extract_toc_entry_ok line doc Hs) as (r & -> & Hr). cbn [bind].
  destruct r as [e|].
  - destruct (Hr e eq_refl) as ((Hd & _ & _ & Hdf) & Hwf).
    eexists. split; [reflexivity|]. split; simpl.
    + apply Forall_app. split; [exact Hall|]. constructor; [|constructor].
      unfold scanned_entry. simpl.
      split; [exact Hd|]. split; [exact Hwf|]. split; [exact Hdf | lia].
    + apply Forall_app. split.
      * eapply List.Forall_impl; [|exact Hin]. intros x Hx.
        destruct (Z_in (page_num + 1) (snd acc)); [exact Hx|].
        apply in_or_app. left. exact Hx.
      * constructor; [|constructor]. simpl.
        destruct (Z_in (page_num + 1) (snd acc)) eqn:E.
        -- apply Z_in_In, E.
        -- apply in_or_app. right. left. reflexivity.
  - exists acc. split; [reflexivity | split; assumption].
Qed.

Lemma scan_page_ok pdf doc page_num acc :
  0 <= page_num < len pdf ->
  (forall text, nth_error pdf (Z.to_nat page_num) = Some (Some text) ->
                forallb short (PyStr.split "010" text) = true) ->
  scan_inv (len pdf) doc acc ->
  exists acc', scan_page pdf doc acc page_num = Ok acc' /\
               scan_inv (len pdf) doc acc'.
Proof.
  intros Hp Hshort Hinv. unfold scan_page.
  destruct (py_index_ok pdf page_num Hp) as (text & -> & Hnth). cbn [bind].
  destruct text as [[|a t]|]; simpl truthy;
    try (exists acc; split; [reflexivity | exact Hinv]).
  specialize (Hshort _ Hnth). rewrite forallb_forall in Hshort.
  apply foldM_inv; [|exact Hinv].
  intros acc0 line Hline Hacc. apply scan_line_ok; auto.
Qed.

Lemma firstn_nth {A : Type} (l : list A) (n i : nat) (x : A) :
  (i < n)%nat -> nth_error l i = Some x -> In x (firstn n l).
Proof.
  revert n i. induction l as [|y l IH]; intros [|n] [|i] Hi H;
    simpl in *; try discriminate; try lia.
  - left. congruence.
  - right. apply (IH n i); [lia | exact H].
Qed.

(** A page that is scanned is one of [scanned cfg pdf]. *)
Lemma scanned_page cfg pdf i text :
  0 <= i < Z.min (TOC_SCAN_PAGES cfg) (len pdf) ->
  nth_error pdf (Z.to_nat i) = Some text -> In text (scanned cfg pdf).
Proof.
  intros Hi H. unfold scanned. apply (firstn_nth pdf _ (Z.to_nat i)); [lia | exact H].
Qed.

Lemma sort_by_key_returns_wf l :
  Forall (fun e => wf_id (section_id e) = true) l ->
  exists out, sort_by_key section_key l = Ok out.
Proof.
  intros H. destruct (sort_by_key_ok l H) as (out & E & _). exists out. exact E.
Qed.

(** [extract_toc] returns when every line of the pages it scans has at
    most [max_str_digits] characters. *)
Lemma extract_toc_returns cfg pdf self :
  short_lines (scanned cfg pdf) = true ->
  exists self', extract_toc cfg pdf self = Ok self'.
Proof.
  intros Hshort. unfold short_lines in Hshort. rewrite forallb_forall in Hshort.
  unfold extract_toc.
  destruct (foldM_inv (scan_page pdf (self_doc_title self))
              (scan_inv (len pdf) (self_doc_title self))
              (py_range 0 (Z.min (TOC_SCAN_PAGES cfg) (len pdf)))
              ([], toc_pages (metadata self)))
    as (found & -> & Hall & Hin).
  - intros acc i Hi Hacc. apply in_py_range in Hi.
    apply scan_page_ok; [lia | | exact Hacc].
    intros text Hnth. apply (Hshort (Some text)).
    apply (scanned_page cfg pdf i); assumption.
  - split; constructor.
  - cbn [bind].
    assert (Hwf : Forall (fun e => wf_id (section_id e) = true) (fst found)).
    { eapply List.Forall_impl; [|exact Hall]. intros e He. apply He. }
    destruct (sort_by_key_returns_wf (fst found) Hwf) as (out & ->).
    cbn [bind]. eexists. reflexivity.
Qed.

End TocFacts.

(** ** The TOC scan, as a function of what it finds *)

Module ScanFacts.
Import PyStrFacts ParserFacts SortFacts PyFacts TocFacts.

Lemma add_page_known ps p : In p ps -> add_page ps p = ps.
Proof.
  intros H. unfold add_page. apply Z_in_In in H. rewrite H. reflexivity.
Qed.

Lemma add_page_keeps ps p q : In q ps -> In q (add_page ps p).
Proof.
  intros H. unfold add_page. destruct (Z_in p ps); [exact H|].
  apply in_or_app. left. exact H.
Qed.

Lemma add_page_adds ps p : In p (add_page ps p).
Proof.
  unfold add_page. destruct (Z_in p ps) eqn:E.
  - apply Z_in_In, E.
  - apply in_or_app. right. left. reflexivity.
Qed.

Lemma add_pages_keep l ps q : In q ps -> In q (fold_left add_page l ps).
Proof.
  revert ps. induction l as [|p l IH]; simpl; intros ps H; [exact H|].
  apply IH, add_page_keeps, H.
Qed.

Lemma add_pages_add l ps q : In q l -> In q (fold_left add_page l ps).
Proof.
  revert ps. induction l as [|p l IH]; simpl; intros ps H; [destruct H|].
  destruct H as [<-|H].
  - apply add_pages_keep, add_page_adds.
  - apply IH, H.
Qed.

Lemma add_pages_known l ps :
  (forall p, In p l -> In p ps) -> fold_left add_page l ps = ps.
Proof.
  revert ps. induction l as [|p l IH]; simpl; intros ps H; [reflexivity|].
  rewrite add_page_known by (apply H; left; reflexivity).
  apply IH. intros q Hq. apply H. right. exact Hq.
Qed.

(** Recording the same pages a second time changes nothing. *)
Lemma add_pages_absorb l ps :
  fold_left add_page l (fold_left add_page l ps) = fold_left add_page l ps.
Proof. apply add_pages_known. intros p Hp. apply add_pages_add, Hp. Qed.

Lemma add_pages_in l ps q :
  In q (fold_left add_page l ps) -> In q ps \/ In q l.
Proof.
  revert ps. induction l as [|p l IH]; simpl; intros ps H; [left; exact H|].
  apply IH in H as [H|H]; [|right; right; exact H].
  unfold add_page in H. destruct (Z_in p ps); [left; exact H|].
  apply in_app_or in H as [H|[<-|[]]]; [left; exact H | right; left; reflexivity].
Qed.

(** A line that is read without exception adds at most one heading, with
    the page being scanned, and its page to the TOC pages; what it adds
    does not depend on what was found before. *)
Lemma scan_line_adds doc page_num line acc acc' :
  scan_line doc page_num acc line = Ok acc' ->
  exists new,
    Forall (fun e => page e = page_num + 1 /\ doc_title e = doc
                     /\ digit_id (section_id e) = true
                     /\ derived_fields e) new /\
    forall acc0,
      scan_line doc page_num acc0 line =
        Ok (fst acc0 ++ new, fold_left add_page (map page new) (snd acc0)).
Proof.
  unfold scan_line.
  destruct (extract_toc_entry line doc) as [r|x] eqn:E; [|discriminate].
  cbn [bind]. intros _. destruct r as [e|].
  - destruct (extract_toc_entry_shape _ _ _ E) as (Hd & Hid & _ & Hdf).
    exists [set_page e (page_num + 1)]. split.
    + constructor; [|constructor]. simpl.
      split; [reflexivity|]. split; [exact Hd|]. split; [exact Hid | exact Hdf].
    + intros acc0. reflexivity.
  - exists []. split; [constructor|]. intros [es ps]. simpl.
    rewrite app_nil_r. reflexivity.
Qed.

Lemma foldM_adds {A : Type} (Q : toc_entry -> Prop)
  (body : list toc_entry * list Z -> A -> result (list toc_entry * list Z))
  (l : list A) (acc acc' : list toc_entry * list Z) :
  (forall x a a', In x l -> body a x = Ok a' ->
     exists new, Forall Q new /\
       forall acc0, body acc0 x =
         Ok (fst acc0 ++ new, fold_left add_page (map page new) (snd acc0))) ->
  foldM body l acc = Ok acc' ->
  exists new, Forall Q new /\
    forall acc0, foldM body l acc0 =
      Ok (fst acc0 ++ new, fold_left add_page (map page new) (snd acc0)).
Proof.
  revert acc. induction l as [|x l IH]; intros acc H Hok.
  - exists []. split; [constructor|]. intros [es ps]. simpl.
    rewrite app_nil_r. reflexivity.
  - cbn [foldM] in Hok. apply bind_Ok in Hok as (acc1 & H1 & Hok).
    destruct (H x acc acc1 (or_introl eq_refl) H1) as (new1 & Q1 & E1).
    destruct (IH acc1) as (new2 & Q2 & E2); [|exact Hok|].
    { intros y a a' Hy. apply H. right. exact Hy. }
    exists (new1 ++ new2). split; [apply Forall_app; split; assumption|].
    intros acc0. cbn [foldM]. rewrite E1. cbn [bind]. rewrite E2.
    cbn [fst snd]. rewrite map_app, fold_left_app, app_assoc. reflexivity.
Qed.

Lemma scan_page_adds pdf doc page_num acc acc' :
  scan_page pdf doc acc page_num = Ok acc' ->
  exists new,
    Forall (fun e => page e = page_num + 1 /\ doc_title e = doc
                     /\ digit_id (section_id e) = true
                     /\ derived_fields e) new /\
    forall acc0,
      scan_page pdf doc acc0 page_num =
        Ok (fst acc0 ++ new, fold_left add_page (map page new) (snd acc0)).
Proof.
  unfold scan_page.
  destruct (py_index pdf page_num) as [text|x]; [|discriminate]. cbn [bind].
  destruct (truthy text) as [t|].
  - apply foldM_adds. intros line a a' _. apply scan_line_adds.
  - intros _. exists []. split; [constructor|]. intros [es ps]. simpl.
    rewrite app_nil_r. reflexivity.
Qed.

(** The whole scan: the headings found are those of the scanned pages, and
    they do not depend on the TOC pages recorded before. *)
Lemma scan_adds (cfg : Config) pdf doc acc acc' :
  foldM (scan_page pdf doc)
    (py_range 0 (Z.min (TOC_SCAN_PAGES cfg) (len pdf))) acc = Ok acc' ->
  exists new,
    Forall (fun e => 1 <= page e <= Z.min (TOC_SCAN_PAGES cfg) (len pdf)
                     /\ doc_title e = doc
                     /\ digit_id (section_id e) = true
                     /\ derived_fields e) new /\
    forall acc0,
      foldM (scan_page pdf doc)
        (py_range 0 (Z.min (TOC_SCAN_PAGES cfg) (len pdf))) acc0 =
        Ok (fst acc0 ++ new, fold_left add_page (map page new) (snd acc0)).
Proof.
  apply foldM_adds. intros i a a' Hi Ha. apply in_py_range in Hi.
  destruct (scan_page_adds pdf doc i a a' Ha) as (new & Hnew & H).
  exists new. split; [|exact H].
  eapply List.Forall_impl; [|exact Hnew]. intros e [He Hd].
  split; [lia | exact Hd].
Qed.

(** A sort that returns has computed the integer path of every section
    number. *)
Lemma sort_ok_wf l out :
  Forall (fun e => digit_id (section_id e) = true) l ->
  sort_by_key section_key l = Ok out ->
  Forall (fun e => wf_id (section_id e) = true) l.
Proof.
  intros Hd H. unfold sort_by_key in H. apply bind_Ok in H as (keys & Hk & _).
  apply mapM_Ok_inv in Hk. rewrite List.Forall_forall in *.
  intros e He. destruct (Hk e He) as [parts Hparts].
  apply (id_parts_ok_wf _ parts); [apply Hd, He | exact Hparts].
Qed.

(** [extract_toc], when it returns, in closed form: the sorted headings of
    the scan, and the TOC pages recorded before followed by the new ones. *)
Lemma extract_toc_found cfg pdf self self1 :
  extract_toc cfg pdf self = Ok self1 ->
  exists new,
    Forall (fun e => 1 <= page e <= Z.min (TOC_SCAN_PAGES cfg) (len pdf)
                     /\ doc_title e = self_doc_title self
                     /\ wf_id (section_id e) = true
                     /\ derived_fields e) new /\
    foldM (scan_page pdf (self_doc_title self))
      (py_range 0 (Z.min (TOC_SCAN_PAGES cfg) (len pdf)))
      ([], toc_pages (metadata self))
    = Ok (new, fold_left add_page (map page new) (toc_pages (metadata self))) /\
    forall self0,
      self_doc_title self0 = self_doc_title self ->
      extract_toc cfg pdf self0 =
        Ok {| self_doc_title := self_doc_title self0;
              toc_entries := sorted_by_id new;
              section_entries := section_entries self0;
              metadata :=
                {| md_doc_title := md_doc_title (metadata self0);
                   total_pages := len pdf;
                   toc_pages :=
                     fold_left add_page (map page new) (toc_pages (metadata self0));
                   sections_count := sections_count (metadata self0) |} |}.
Proof.
  unfold extract_toc at 1. intros H.
  apply bind_Ok in H as (found & Hscan & H).
  apply bind_Ok in H as (sorted & Hsort & _).
  destruct (scan_adds cfg pdf (self_doc_title self) _ _ Hscan)
    as (new & Hnew & Hall).
  rewrite Hall in Hscan. injection Hscan as <-. cbn [fst snd app] in *.
  assert (Hwf : Forall (fun e => wf_id (section_id e) = true) new).
  { apply (sort_ok_wf new sorted); [|exact Hsort].
    eapply List.Forall_impl; [|exact Hnew]. intros e (_ & _ & Hd & _). exact Hd. }
  exists new. split; [|split].
  - rewrite List.Forall_forall in *. intros e He.
    destruct (Hnew e He) as (Hp & Hdoc & _ & Hdf).
    split; [exact Hp|]. split; [exact Hdoc|]. split; [apply Hwf, He | exact Hdf].
  - apply Hall.
  - intros self0 Hdoc. unfold extract_toc. rewrite Hdoc, Hall.
    cbn [bind fst snd app]. rewrite (sort_by_key_wf new Hwf).
    cbn [bind]. reflexivity.
Qed.

(** What [extract_toc] leaves when it returns: headings of the scanned
    pages, well formed, in ascending order, a permutation of what the scan
    found, each with the number of the page of the TOC on which its line
    was read. *)
Lemma extract_toc_ok cfg pdf self self' :
  extract_toc cfg pdf self = Ok self' ->
  Forall (scanned_entry (len pdf) (self_doc_title self)) (toc_entries self') /\
  ascending (toc_entries self') /\
  Forall (fun e => In (page e) (toc_pages (metadata self'))) (toc_entries self') /\
  exists found,
    foldM (scan_page pdf (self_doc_title self))
      (py_range 0 (Z.min (TOC_SCAN_PAGES cfg) (len pdf)))
      ([], toc_pages (metadata self)) = Ok found /\
    Permutation (fst found) (toc_entries self').
Proof.
  intros H. destruct (extract_toc_found cfg pdf self self' H)
    as (new & Hnew & Hscan & Hall).
  rewrite (Hall self eq_refl) in H. injection H as <-.
  cbn [toc_entries metadata toc_pages].
  split; [|split; [|split]].
  - eapply Permutation_Forall; [apply keyed_perm|].
    eapply List.Forall_impl; [|exact Hnew].
    intros e (Hp & Hdoc & Hwf & Hdf). unfold scanned_entry.
    split; [exact Hdoc|]. split; [exact Hwf|]. split; [exact Hdf | lia].
  - apply keyed_ascending.
  - eapply Permutation_Forall; [apply keyed_perm|].
    apply List.Forall_forall. intros e He.
    apply add_pages_add, in_map, He.
  - eexists. split; [exact Hscan|]. apply keyed_perm.
Qed.

(** A second scan of the same document finds the same headings and records
    no new page. *)
Lemma extract_toc_again cfg pdf self self1 :
  extract_toc cfg pdf self = Ok self1 -> extract_toc cfg pdf self1 = Ok self1.
Proof.
  intros E. destruct (extract_toc_found cfg pdf self self1 E)
    as (new & _ & _ & H).
  rewrite (H self eq_refl) in E. injection E as <-.
  rewrite H by reflexivity. cbn [self_doc_title section_entries metadata
    md_doc_title toc_pages sections_count].
  rewrite add_pages_absorb. reflexivity.
Qed.

End ScanFacts.

(** ** Page ranges and section contents *)

Module RangeFacts.
Import PyStrFacts ParserFacts PyFacts TocFacts ScanFacts.

(** On well-formed section numbers [_is_next_section] returns, and its
    answer is a function of the two integer paths. *)
Lemma is_next_section_wf current_id next_id current_level :
  wf_id current_id = true -> wf_id next_id = true ->
  _is_next_section current_id next_id current_level =
    Ok (if len (components next_id) <=? current_level then true
        else if (len (components next_id) =? len (components current_id) + 1)
                && (common_prefix_len (components current_id)
                      (components next_id) =? len (components current_id))
        then false else true).
Proof.
  intros Hc Hn. unfold _is_next_section.
  rewrite (id_parts_wf _ Hc), (id_parts_wf _ Hn). cbn [bind].
  destruct (len (components next_id) <=? current_level); [reflexivity|].
  destruct ((len (components next_id) =? len (components current_id) + 1)
            && (common_prefix_len (components current_id) (components next_id)
                =? len (components current_id))); reflexivity.
Qed.

Lemma find_end_loop_ok entries current_id current_level pdf :
  wf_id current_id = true ->
  Forall (fun e => wf_id (section_id e) = true) entries ->
  exists end_page,
    find_end_loop entries current_id current_level pdf = Ok end_page /\
    (end_page = len pdf \/ exists e, In e entries /\ end_page = page e).
Proof.
  intros Hc. induction 1 as [|e tl He _ IH]; simpl.
  - exists (len pdf). split; [reflexivity | left; reflexivity].
  - destruct IH as (v & Hv & Hcases).
    assert (Hrest : exists end_page,
               find_end_loop tl current_id current_level pdf = Ok end_page /\
               (end_page = len pdf \/
                exists e0, (e = e0 \/ In e0 tl) /\ end_page = page e0)).
    { exists v. split; [exact Hv|]. destruct Hcases as [->|(e0 & H0 & ->)].
      - left. reflexivity.
      - right. exists e0. split; [right; exact H0 | reflexivity]. }
    destruct (String.eqb (section_id e) current_id); [exact Hrest|].
    rewrite (is_next_section_wf _ _ current_level Hc He). cbn [bind].
    match goal with |- context [if ?b then Ok (page e) else _] => destruct b end.
    + exists (page e). split; [reflexivity|]. right. exists e.
      split; [left; reflexivity | reflexivity].
    + exact Hrest.
Qed.

Lemma truthy_nonempty text t : truthy text = Some t -> t <> EmptyString.
Proof.
  destruct text as [[|a s]|]; simpl; intros [= <-]. discriminate.
Qed.

(** The parts collected from the pages are non-empty texts. *)
Lemma collect_pages_nonempty pdf page_nums parts0 parts :
  collect_pages pdf page_nums parts0 = Ok parts ->
  Forall (fun t => t <> EmptyString) parts0 ->
  Forall (fun t => t <> EmptyString) parts /\ (parts0 <> [] -> parts <> []).
Proof.
  revert parts0. induction page_nums as [|i tl IH]; simpl; intros parts0 H H0.
  - injection H as <-. split; [exact H0 | tauto].
  - destruct (len pdf <=? i).
    + injection H as <-. split; [exact H0 | tauto].
    + apply bind_Ok in H as (text & _ & H).
      destruct (truthy text) as [t|] eqn:E.
      * apply IH in H as [Hall Hne].
        -- split; [exact Hall|]. intros _. apply Hne.
           destruct parts0; discriminate.
        -- apply Forall_app. split; [exact H0|].
           constructor; [|constructor]. eapply truthy_nonempty, E.
      * apply IH in H; assumption.
Qed.

(** Reading page numbers that are not negative does not raise; when none
    of the pages read has text, nothing is collected. *)
Lemma collect_pages_ok pdf page_nums parts0 :
  Forall (fun i => 0 <= i) page_nums ->
  exists parts,
    collect_pages pdf page_nums parts0 = Ok parts /\
    ((forall i text, In i page_nums -> nth_error pdf (Z.to_nat i) = Some text ->
                     truthy text = None) -> parts = parts0).
Proof.
  intros H. revert parts0. induction H as [|i tl Hi _ IH]; simpl; intros parts0.
  - exists parts0. split; [reflexivity | tauto].
  - destruct (Z.leb_spec (len pdf) i) as [Hge|Hlt].
    + exists parts0. split; [reflexivity | tauto].
    + destruct (py_index_ok pdf i (conj Hi Hlt)) as (text & -> & Hnth).
      cbn [bind]. destruct (truthy text) as [t|] eqn:E.
      * destruct (IH (parts0 ++ [t])) as (parts & Hp & _).
        exists parts. split; [exact Hp|]. intros Hno.
        rewrite (Hno i text (or_introl eq_refl) Hnth) in E. discriminate.
      * destruct (IH parts0) as (parts & Hp & Hsame).
        exists parts. split; [exact Hp|]. intros Hno. apply Hsame.
        intros j tj Hj. apply Hno. right. exact Hj.
Qed.

Lemma py_range_nonneg a b : 0 <= a -> Forall (fun i => 0 <= i) (py_range a b).
Proof.
  intros H. apply List.Forall_forall. intros i Hi.
  apply in_py_range in Hi. lia.
Qed.

Lemma join_nonempty sep x tl :
  x <> EmptyString -> PyStr.join sep (x :: tl) <> EmptyString.
Proof.
  intros Hx. destruct tl as [|y tl]; simpl; [exact Hx|].
  destruct x; [contradiction|]. rewrite append_cons. discriminate.
Qed.

(** The extractor never returns the empty text. *)
Lemma extract_section_content_not_empty self pdf toc_entry :
  _extract_section_content self pdf toc_entry <> Ok (Some EmptyString).
Proof.
  unfold _extract_section_content. intros H.
  apply bind_Ok in H as (end_page & _ & H).
  apply bind_Ok in H as (parts & Hparts & H).
  apply collect_pages_nonempty in Hparts as [Hall _]; [|constructor].
  destruct parts as [|x tl]; [discriminate|].
  injection H as H. inversion Hall; subst.
  eapply join_nonempty; eassumption.
Qed.

(** For a resolvable heading of a well-formed TOC the extractor returns. *)
Lemma extract_section_content_ok self pdf toc_entry :
  Forall (fun e => wf_id (section_id e) = true) (toc_entries self) ->
  resolvable toc_entry ->
  exists r, _extract_section_content self pdf toc_entry = Ok r.
Proof.
  intros Htoc [Hwf Hpage]. unfold _extract_section_content, _find_section_end_page.
  destruct (find_end_loop_ok (toc_entries self) (section_id toc_entry)
              (level toc_entry) pdf Hwf Htoc) as (end_page & -> & _).
  cbn [bind].
  destruct (collect_pages_ok pdf (py_range (page toc_entry - 1) end_page) [])
    as (parts & -> & _).
  - apply py_range_nonneg. lia.
  - cbn [bind]. destruct parts; eexists; reflexivity.
Qed.

Lemma extract_one_ok self pdf toc acc toc_entry :
  Forall (fun e => wf_id (section_id e) = true) (toc_entries self) ->
  resolvable toc_entry -> In toc_entry toc ->
  copies_of toc acc ->
  exists acc', extract_one self pdf acc toc_entry = Ok acc' /\ copies_of toc acc'.
Proof.
  intros Htoc Hres Hin Hacc. unfold extract_one.
  destruct (extract_section_content_ok self pdf toc_entry Htoc Hres) as (r & ->).
  cbn [bind]. destruct (truthy r) as [t|] eqn:E.
  - eexists. split; [reflexivity|]. apply Forall_app. split; [exact Hacc|].
    constructor; [|constructor]. simpl.
    split; [exact Hin | eapply truthy_nonempty, E].
  - exists acc. split; [reflexivity | exact Hacc].
Qed.

Lemma resolvable_wf l :
  Forall resolvable l -> Forall (fun e => wf_id (section_id e) = true) l.
Proof. apply List.Forall_impl. intros e [H _]. exact H. Qed.

Lemma scanned_resolvable pages doc l :
  Forall (scanned_entry pages doc) l -> Forall resolvable l.
Proof.
  apply List.Forall_impl. intros e (_ & Hwf & _ & Hp).
  split; [exact Hwf | lia].
Qed.

Lemma extract_sections_loop_ok self pdf :
  Forall resolvable (toc_entries self) ->
  exists sections,
    foldM (extract_one self pdf) (toc_entries self) [] = Ok sections /\
    copies_of (toc_entries self) sections.
Proof.
  intros Hres. apply foldM_inv; [|constructor].
  intros acc e He Hacc. apply extract_one_ok; try assumption.
  - apply resolvable_wf, Hres.
  - rewrite List.Forall_forall in Hres. apply Hres, He.
Qed.

(** [extract_sections] returns whenever the headings already stored are
    resolvable and, if there is none, the lines of the pages to scan are
    short; the TOC it leaves is resolvable and every section entry is a
    copy of one of its headings with a non-empty content. *)
Lemma extract_sections_ok cfg pdf self :
  Forall resolvable (toc_entries self) ->
  (toc_entries self = [] -> short_lines (scanned cfg pdf) = true) ->
  exists self',
    extract_sections cfg pdf self = Ok self' /\
    Forall resolvable (toc_entries self') /\
    copies_of (toc_entries self') (section_entries self').
Proof.
  intros Hres Hshort. unfold extract_sections.
  destruct (toc_entries self) as [|e0 tl] eqn:Etoc.
  - destruct (extract_toc_returns cfg pdf self (Hshort eq_refl)) as (self1 & E1).
    destruct (extract_toc_ok cfg pdf self self1 E1) as (Hsc & _).
    rewrite E1.
    cbn [bind]. apply scanned_resolvable in Hsc.
    destruct (extract_sections_loop_ok self1 pdf Hsc) as (sections & -> & Hc).
    cbn [bind]. eexists. split; [reflexivity|]. simpl. split; assumption.
  - cbn [bind]. rewrite <- Etoc in *.
    destruct (extract_sections_loop_ok self pdf Hres) as (sections & -> & Hc).
    cbn [bind]. eexists. split; [reflexivity|]. simpl. split; assumption.
Qed.

End RangeFacts.

(** ** Gap detection *)

Module GapFacts.
Import ParserFacts SortFacts PyFacts TocFacts.

Lemma common_prefix_len_bound a b :
  0 <= common_prefix_len a b <= len a.
Proof.
  revert b. induction a as [|x a IH]; intros [|y b]; unfold len in *; simpl;
    try lia.
  destruct (x =? y); [|lia]. specialize (IH b). lia.
Qed.

(** The common prefix of two paths of one length stops one short of the
    end exactly when the paths agree up to the last component and differ
    there. *)
Lemma common_prefix_all_but_last a b :
  length a = length b -> a <> [] ->
  (common_prefix_len a b = len a - 1 <->
   removelast a = removelast b /\ List.last a 0 <> List.last b 0).
Proof.
  revert b. induction a as [|x a IH]; intros [|y b] Hlen Hne;
    try contradiction; try discriminate.
  injection Hlen as Hlen.
  destruct a as [|x' a'].
  - destruct b; [|discriminate]. unfold len. simpl.
    destruct (Z.eqb_spec x y) as [->|Hxy]; split.
    + intros H. lia.
    + intros [_ H]. contradiction.
    + intros _. split; [reflexivity | exact Hxy].
    + intros _. reflexivity.
  - destruct b as [|y' b']; [discriminate|].
    specialize (IH (y' :: b') Hlen ltac:(discriminate)).
    change (common_prefix_len (x :: x' :: a') (y :: y' :: b'))
      with (if x =? y then 1 + common_prefix_len (x' :: a') (y' :: b') else 0).
    change (removelast (x :: x' :: a')) with (x :: removelast (x' :: a')).
    change (removelast (y :: y' :: b')) with (y :: removelast (y' :: b')).
    change (List.last (x :: x' :: a') 0) with (List.last (x' :: a') 0).
    change (List.last (y :: y' :: b') 0) with (List.last (y' :: b') 0).
    replace (len (x :: x' :: a') - 1) with (len (x' :: a'))
      by (unfold len; simpl length; lia).
    destruct (Z.eqb_spec x y) as [->|Hxy].
    + split.
      * intros H.
        assert (H' : common_prefix_len (x' :: a') (y' :: b')
                     = len (x' :: a') - 1) by lia.
        apply IH in H' as [H1 H2].
        split; [congruence | exact H2].
      * intros [H1 H2]. injection H1 as H1.
        assert (common_prefix_len (x' :: a') (y' :: b') = len (x' :: a') - 1)
          by (apply IH; split; assumption).
        lia.
    + split.
      * intros H. unfold len in H. simpl in H. lia.
      * intros [H1 _]. congruence.
Qed.

(** On well-formed section numbers [has_gap] returns, and decides
    [gap_pair]. *)
Lemma has_gap_wf current_id next_id :
  wf_id current_id = true -> wf_id next_id = true ->
  has_gap current_id next_id = Ok (gap_pair current_id next_id).
Proof.
  intros Hc Hn. unfold has_gap, gap_pair.
  rewrite (id_parts_wf _ Hc), (id_parts_wf _ Hn). cbn [bind].
  set (a := components current_id). set (b := components next_id).
  assert (Ha : a <> []) by apply components_nonempty.
  assert (Hb : b <> []) by apply components_nonempty.
  unfold len at 1 2.
  destruct (Z.eqb_spec (Z.of_nat (length a)) (Z.of_nat (length b))) as [E|E].
  - apply Nat2Z.inj in E. rewrite (bool_decide_eq_true_2 _ E).
    pose proof (common_prefix_all_but_last a b E Ha) as Hiff.
    destruct (Z.eqb_spec (common_prefix_len a b) (len a - 1)) as [Hc1|Hc1].
    + apply Hiff in Hc1 as [H1 H2].
      rewrite (py_index_last b 0 Hb), (py_index_last a 0 Ha). cbn [bind].
      rewrite (bool_decide_eq_true_2 _ H1).
      apply Z.eqb_neq in H2. rewrite H2. simpl.
      destruct (List.last b 0 =? List.last a 0 + 1); reflexivity.
    + destruct (decide (removelast a = removelast b)) as [H1|H1].
      * rewrite (bool_decide_eq_true_2 _ H1).
        destruct (Z.eqb_spec (List.last a 0) (List.last b 0)) as [H2|H2];
          [reflexivity|].
        exfalso. apply Hc1, Hiff. split; assumption.
      * rewrite (bool_decide_eq_false_2 _ H1). reflexivity.
  - assert (E' : length a <> length b) by congruence.
    rewrite (bool_decide_eq_false_2 _ E'). reflexivity.
Qed.

Lemma scan_gaps_cons l a b tl gaps :
  scan_gaps l (a :: b :: tl) gaps =
    let* gap := has_gap (section_id a) (section_id b) in
    scan_gaps l (b :: tl)
      (if gap : bool
       then gaps ++ [mk_gap l (section_id a) (section_id b)] else gaps).
Proof. reflexivity. Qed.

Lemma level_gaps_spec_cons l a b tl :
  level_gaps_spec l (a :: b :: tl) =
    (if gap_pair (section_id a) (section_id b)
     then [mk_gap l (section_id a) (section_id b)] else [])
    ++ level_gaps_spec l (b :: tl).
Proof.
  unfold level_gaps_spec.
  change (adjacent_pairs (a :: b :: tl)) with ((a, b) :: adjacent_pairs (b :: tl)).
  cbn [List.filter fst snd].
  destruct (gap_pair (section_id a) (section_id b)); reflexivity.
Qed.

Lemma scan_gaps_wf l entries gaps :
  Forall (fun e => wf_id (section_id e) = true) entries ->
  scan_gaps l entries gaps = Ok (gaps ++ level_gaps_spec l entries).
Proof.
  intros H. revert gaps. induction H as [|a tl Ha Htl IH]; intros gaps.
  - simpl. rewrite app_nil_r. reflexivity.
  - destruct tl as [|b tl'].
    + simpl. rewrite app_nil_r. reflexivity.
    + inversion Htl as [|? ? Hb _]; subst.
      rewrite scan_gaps_cons, (has_gap_wf _ _ Ha Hb). cbn [bind].
      rewrite IH, level_gaps_spec_cons.
      destruct (gap_pair (section_id a) (section_id b)).
      * rewrite <- app_assoc. reflexivity.
      * reflexivity.
Qed.

Lemma at_level_wf l toc :
  Forall (fun e => wf_id (section_id e) = true) toc ->
  Forall (fun e => wf_id (section_id e) = true) (at_level l toc).
Proof.
  intros H. apply List.Forall_forall. intros e He.
  apply filter_In in He as [He _].
  rewrite List.Forall_forall in H. apply H, He.
Qed.

Lemma sorted_by_id_wf l :
  Forall (fun e => wf_id (section_id e) = true) l ->
  Forall (fun e => wf_id (section_id e) = true) (sorted_by_id l).
Proof. apply Permutation_Forall, keyed_perm. Qed.

Lemma level_gaps_wf gaps l entries :
  Forall (fun e => wf_id (section_id e) = true) entries ->
  level_gaps gaps (l, entries) =
    Ok (gaps ++ level_gaps_spec l (sorted_by_id entries)).
Proof.
  intros H. unfold level_gaps. cbn [fst snd].
  rewrite (sort_by_key_wf entries H). cbn [bind].
  apply scan_gaps_wf. apply sorted_by_id_wf, H.
Qed.

(** *** The grouping by level *)

Lemma level_order_snoc toc e :
  level_order (toc ++ [e]) =
    if Z_in (level e) (level_order toc) then level_order toc
    else level_order toc ++ [level e].
Proof. unfold level_order. rewrite fold_left_app. reflexivity. Qed.

Lemma at_level_snoc l toc e :
  at_level l (toc ++ [e]) =
    at_level l toc ++ (if level e =? l then [e] else []).
Proof. unfold at_level. rewrite List.filter_app. reflexivity. Qed.

Lemma level_order_NoDup toc : List.NoDup (level_order toc).
Proof.
  induction toc as [|e toc IH] using rev_ind; [constructor|].
  rewrite level_order_snoc.
  destruct (Z_in (level e) (level_order toc)) eqn:E; [exact IH|].
  apply List.NoDup_app.
  - exact IH.
  - constructor; [intros [] | constructor].
  - intros x Hx Hx'. destruct Hx' as [<-|[]].
    apply Z_in_In in Hx. congruence.
Qed.

Lemma level_order_complete toc e :
  In e toc -> In (level e) (level_order toc).
Proof.
  induction toc as [|x toc IH] using rev_ind; [intros []|].
  intros H. rewrite level_order_snoc. apply in_app_or in H.
  destruct (Z_in (level x) (level_order toc)) eqn:E.
  - destruct H as [H|[<-|[]]]; [apply IH, H | apply Z_in_In, E].
  - apply in_or_app. destruct H as [H|[<-|[]]].
    + left. apply IH, H.
    + right. left. reflexivity.
Qed.

Lemma at_level_unseen toc l :
  ~ In l (level_order toc) -> at_level l toc = [].
Proof.
  intros H. unfold at_level.
  destruct (List.filter (fun e => level e =? l) toc) as [|e tl] eqn:E;
    [reflexivity|].
  assert (He : In e (List.filter (fun e => level e =? l) toc))
    by (rewrite E; left; reflexivity).
  apply filter_In in He as [He Hl]. apply Z.eqb_eq in Hl. subst l.
  exfalso. apply H, level_order_complete, He.
Qed.

Lemma levels_add_groups done e ls :
  List.NoDup ls ->
  levels_add (map (fun l => (l, at_level l done)) ls) e =
    if Z_in (level e) ls
    then map (fun l => (l, at_level l (done ++ [e]))) ls
    else map (fun l => (l, at_level l (done ++ [e]))) ls ++ [(level e, [e])].
Proof.
  induction 1 as [|l ls Hl Hnd IH]; [reflexivity|].
  cbn [map levels_add]. rewrite at_level_snoc.
  unfold Z_in in *. cbn [existsb].
  destruct (Z.eqb_spec l (level e)) as [->|Hne].
  - rewrite Z.eqb_refl. cbn [orb]. f_equal.
    apply map_ext_in. intros l' Hl'. rewrite at_level_snoc.
    destruct (Z.eqb_spec (level e) l') as [<-|_]; [contradiction|].
    rewrite app_nil_r. reflexivity.
  - destruct (Z.eqb_spec (level e) l) as [?|_]; [congruence|].
    cbn [orb]. rewrite app_nil_r. rewrite IH.
    destruct (existsb (Z.eqb (level e)) ls); reflexivity.
Qed.

Lemma group_levels_from done rest :
  fold_left levels_add rest
    (map (fun l => (l, at_level l done)) (level_order done)) =
  map (fun l => (l, at_level l (done ++ rest))) (level_order (done ++ rest)).
Proof.
  revert done. induction rest as [|e rest IH]; intros done.
  - rewrite app_nil_r. reflexivity.
  - cbn [fold_left].
    rewrite (levels_add_groups done e _ (level_order_NoDup done)).
    replace (done ++ e :: rest) with ((done ++ [e]) ++ rest)
      by (rewrite <- app_assoc; reflexivity).
    rewrite <- IH. f_equal. rewrite level_order_snoc.
    destruct (Z_in (level e) (level_order done)) eqn:E; [reflexivity|].
    rewrite map_app. cbn [map]. rewrite at_level_snoc, Z.eqb_refl.
    rewrite at_level_unseen; [reflexivity|].
    intros Hin. apply Z_in_In in Hin. congruence.
Qed.

(** The dict [levels]: one list per level, in the order of the first
    heading of each level, each list in the order of the TOC. *)
Lemma group_levels_spec toc :
  group_levels toc = map (fun l => (l, at_level l toc)) (level_order toc).
Proof. exact (group_levels_from [] toc). Qed.

Lemma foldM_level_gaps toc ls gaps :
  Forall (fun e => wf_id (section_id e) = true) toc ->
  foldM level_gaps (map (fun l => (l, at_level l toc)) ls) gaps =
    Ok (gaps ++ flat_map
                  (fun l => level_gaps_spec l (sorted_by_id (at_level l toc))) ls).
Proof.
  intros H. revert gaps. induction ls as [|l ls IH]; intros gaps.
  - simpl. rewrite app_nil_r. reflexivity.
  - cbn [map foldM flat_map].
    rewrite (level_gaps_wf gaps l _ (at_level_wf l toc H)). cbn [bind].
    rewrite IH, <- app_assoc. reflexivity.
Qed.

(** Gap detection returns on a well-formed TOC, with the gaps of the
    specification. *)
Lemma find_section_gaps_wf toc :
  Forall (fun e => wf_id (section_id e) = true) toc ->
  find_section_gaps toc = Ok (gaps_spec toc).
Proof.
  intros H. unfold find_section_gaps. rewrite group_levels_spec.
  rewrite (foldM_level_gaps toc _ [] H). reflexivity.
Qed.

End GapFacts.

(** ** The comparison of the TOC with the content set *)

Module AnalysisFacts.
Import PyFacts GapFacts.

Lemma next_with_id_found sections id s :
  next_with_id sections id = Ok s ->
  In s sections /\ section_id (heading s) = id.
Proof.
  unfold next_with_id.
  destruct (find _ sections) as [s'|] eqn:E; [|discriminate].
  intros [= <-]. apply find_some in E as [Hin Heq].
  apply String.eqb_eq in Heq. split; assumption.
Qed.

(** An id with a content entry has a first content entry. *)
Lemma next_with_id_ok sections id :
  id ∈ content_ids sections -> exists s, next_with_id sections id = Ok s.
Proof.
  unfold content_ids, next_with_id. intros H.
  apply elem_of_list_to_set, list_elem_of_In, in_map_iff in H
    as (s & Hs & Hin).
  destruct (find _ sections) as [s'|] eqn:E; [eauto|].
  exfalso. apply (find_none _ _ E) in Hin. simpl in Hin.
  rewrite Hs, String.eqb_refl in Hin. discriminate.
Qed.

Lemma check_order_ok toc sections order_issues toc_entry :
  exists order_issues',
    check_order (heading_ids toc ∩ content_ids sections) sections
      order_issues toc_entry = Ok order_issues'.
Proof.
  unfold check_order. case_bool_decide as Hin; [|eauto].
  apply elem_of_intersection in Hin as [_ Hin].
  destruct (next_with_id_ok sections _ Hin) as (s & ->). cbn [bind].
  destruct (negb _); eauto.
Qed.

(** No order issue is recorded for a heading when the content entries are
    copies of headings and the headings of one id agree on the page. *)
Lemma check_order_quiet toc sections order_issues toc_entry :
  copies_of toc sections -> consistent_pages toc -> In toc_entry toc ->
  check_order (heading_ids toc ∩ content_ids sections) sections
    order_issues toc_entry = Ok order_issues.
Proof.
  intros Hcopies Hcons Hin. unfold check_order.
  case_bool_decide as Hcommon; [|reflexivity].
  apply elem_of_intersection in Hcommon as [_ Hc].
  destruct (next_with_id_ok sections _ Hc) as (s & Hs). rewrite Hs.
  cbn [bind]. apply next_with_id_found in Hs as [Hs Hid].
  unfold copies_of in Hcopies. rewrite List.Forall_forall in Hcopies.
  destruct (Hcopies s Hs) as [Hh _].
  rewrite (Hcons toc_entry (heading s) Hin Hh (eq_sym Hid)).
  rewrite Z.eqb_refl. reflexivity.
Qed.

Lemma order_loop_quiet toc sections entries :
  copies_of toc sections -> consistent_pages toc -> incl entries toc ->
  foldM (check_order (heading_ids toc ∩ content_ids sections) sections)
    entries [] = Ok [].
Proof.
  intros Hcopies Hcons. generalize (@nil order_issue_t) as acc.
  induction entries as [|e tl IH]; intros acc Hincl; [reflexivity|].
  cbn [foldM].
  rewrite (check_order_quiet toc sections acc e Hcopies Hcons)
    by (apply Hincl; left; reflexivity).
  cbn [bind]. apply IH. intros x Hx. apply Hincl. right. exact Hx.
Qed.

Lemma order_loop_ok toc sections entries acc :
  exists order_issues,
    foldM (check_order (heading_ids toc ∩ content_ids sections) sections)
      entries acc = Ok order_issues.
Proof.
  revert acc. induction entries as [|e tl IH]; intros acc; [simpl; eauto|].
  cbn [foldM].
  destruct (check_order_ok toc sections acc e) as (acc' & ->). cbn [bind].
  apply IH.
Qed.

(** On a well-formed TOC the analysis returns; its coverage and its gaps
    are those of the specification. *)
Lemma analyze_ok toc sections :
  Forall (fun e => wf_id (section_id e) = true) toc ->
  exists a,
    analyze_toc_vs_parsed toc sections = Ok a /\
    coverage_percentage a = coverage_spec (heading_ids toc) (content_ids sections) /\
    gaps a = gaps_spec toc /\
    foldM (check_order (heading_ids toc ∩ content_ids sections) sections)
      toc [] = Ok (order_issues a).
Proof.
  intros Hwf. unfold analyze_toc_vs_parsed, id_set.
  fold (heading_ids toc). fold (content_ids sections).
  destruct (order_loop_ok toc sections toc []) as (ois & Hois).
  rewrite Hois. cbn [bind].
  rewrite (find_section_gaps_wf toc Hwf). cbn [bind].
  eexists. split; [reflexivity|]. simpl.
  split; [reflexivity|]. split; reflexivity.
Qed.

End AnalysisFacts.


(** ** Further facts used by the claims *)

Module ClaimFacts.
Import PyStrFacts ReFacts PatternFacts ParserFacts SortFacts PyFacts TocFacts.
Import RangeFacts GapFacts AnalysisFacts.

Lemma lower_a a : PyStr.lower_char a = "a"%char -> a = "A"%char \/ a = "a"%char.
Proof.
  destruct a as [[] [] [] [] [] [] [] []]; vm_compute; intros H;
    solve [discriminate | left; reflexivity | right; reflexivity].
Qed.

Lemma starts_with_cons c p b s :
  PyStr.starts_with (String c p) (String b s)
  = Ascii.eqb c b && PyStr.starts_with p s.
Proof. reflexivity. Qed.

Lemma rstrip_cons a s :
  PyStr.is_space a = false ->
  PyStr.rstrip (String a s) = String a (PyStr.rstrip s).
Proof. intros H. simpl. rewrite H. reflexivity. Qed.

(** No pattern of the line parser matches a text that starts with the
    letter A: each asks for a digit, for "Chapter" or for "Section". *)
Lemma patterns_reject_A a s doc :
  a = "A"%char \/ a = "a"%char ->
  try_patterns patterns (String a s) doc = Ok None.
Proof. intros [-> | ->]; reflexivity. Qed.

Lemma annex_rejected line doc :
  annex_prefixed line = true -> extract_toc_entry line doc = Ok None.
Proof.
  unfold annex_prefixed, extract_toc_entry, PyStr.strip. intros H.
  destruct (PyStr.lstrip line) as [|a t] eqn:E; [discriminate|].
  change (PyStr.lower (String a t))
    with (String (PyStr.lower_char a) (PyStr.lower t)) in H.
  rewrite starts_with_cons in H. apply andb_true_iff in H as [Ha _].
  apply Ascii.eqb_eq in Ha. symmetry in Ha. apply lower_a in Ha.
  assert (Hs : PyStr.is_space a = false) by (destruct Ha as [-> | ->]; reflexivity).
  rewrite (rstrip_cons a t Hs). simpl PyStr.is_empty. cbv iota.
  apply patterns_reject_A, Ha.
Qed.

(** A path of two components or more is its parent, a dot and its last
    component. *)
Lemma join_removelast (l : list string) (d : string) :
  (2 <= length l)%nat ->
  PyStr.join "." l =
    (PyStr.join "." (removelast l) ++ "." ++ List.last l d)%string.
Proof.
  induction l as [|x l IH]; simpl length; intros H; [lia|].
  destruct l as [|y l]; [simpl in H; lia|].
  destruct l as [|z l].
  - reflexivity.
  - change (removelast (x :: y :: z :: l)) with (x :: removelast (y :: z :: l)).
    change (List.last (x :: y :: z :: l) d) with (List.last (y :: z :: l) d).
    rewrite join_cons, (IH ltac:(simpl; lia)).
    destruct (removelast (y :: z :: l)) as [|r rs] eqn:E; [discriminate|].
    rewrite join_cons, !append_assoc. reflexivity.
Qed.

(** When no page of the resolved range has text, the extractor returns
    [None] and the heading gets no section entry. *)
Lemma no_text_no_content self pdf toc_entry end_page :
  _find_section_end_page self pdf toc_entry = Ok end_page ->
  1 <= page toc_entry ->
  (forall i text, page toc_entry - 1 <= i < end_page ->
                  nth_error pdf (Z.to_nat i) = Some text -> truthy text = None) ->
  _extract_section_content self pdf toc_entry = Ok None.
Proof.
  intros Hend Hpage Hno. unfold _extract_section_content. rewrite Hend.
  cbn [bind].
  destruct (collect_pages_ok pdf (py_range (page toc_entry - 1) end_page) [])
    as (parts & -> & Hsame).
  - apply py_range_nonneg. lia.
  - cbn [bind]. rewrite Hsame; [reflexivity|].
    intros i text Hi. apply Hno. apply in_py_range, Hi.
Qed.

Lemma no_content_no_entry self pdf acc toc_entry :
  _extract_section_content self pdf toc_entry = Ok None ->
  extract_one self pdf acc toc_entry = Ok acc.
Proof. intros H. unfold extract_one. rewrite H. reflexivity. Qed.

(** A heading deeper than the current one that is not one level below it
    counts as the next section, whatever its path. *)
Lemma deeper_is_next current_id next_id current_level :
  wf_id current_id = true -> wf_id next_id = true ->
  len (components next_id) <> len (components current_id) + 1 ->
  _is_next_section current_id next_id current_level = Ok true.
Proof.
  intros Hc Hn Hlen. rewrite (is_next_section_wf _ _ _ Hc Hn).
  destruct (len (components next_id) <=? current_level); [reflexivity|].
  destruct (Z.eqb_spec (len (components next_id)) (len (components current_id) + 1));
    [contradiction | reflexivity].
Qed.

(** The end page is that of the first heading of the whole TOC, whatever
    its position relative to the current one, when its path is no longer
    than the current level. *)
Lemma first_heading_ends_span self pdf first rest current :
  toc_entries self = first :: rest ->
  wf_id (section_id current) = true -> wf_id (section_id first) = true ->
  section_id first <> section_id current ->
  len (components (section_id first)) <= level current ->
  _find_section_end_page self pdf current = Ok (page first).
Proof.
  intros Htoc Hc Hf Hne Hlen. unfold _find_section_end_page. rewrite Htoc.
  cbn [find_end_loop].
  destruct (String.eqb_spec (section_id first) (section_id current));
    [contradiction|].
  rewrite (is_next_section_wf _ _ _ Hc Hf). cbn [bind].
  destruct (Z.leb_spec (len (components (section_id first))) (level current));
    [reflexivity | lia].
Qed.

(** The coverage of a returned analysis is that of the specification. *)
Lemma analyze_coverage toc sections a :
  analyze_toc_vs_parsed toc sections = Ok a ->
  coverage_percentage a = coverage_spec (heading_ids toc) (content_ids sections).
Proof.
  unfold analyze_toc_vs_parsed. intros H.
  apply bind_Ok in H as (ois & _ & H). apply bind_Ok in H as (gs & _ & H).
  injection H as <-. reflexivity.
Qed.

Lemma analyze_empty_toc sections :
  exists a, analyze_toc_vs_parsed [] sections = Ok a /\
            coverage_percentage a = PyInt 0.
Proof. eexists. split; reflexivity. Qed.

(** No order issue when the content entries are copies of headings whose
    pages are consistent. *)
Lemma quiet_analysis toc sections :
  Forall (fun e => wf_id (section_id e) = true) toc ->
  copies_of toc sections -> consistent_pages toc ->
  exists a, analyze_toc_vs_parsed toc sections = Ok a /\ order_issues a = [].
Proof.
  intros Hwf Hcopies Hcons.
  destruct (analyze_ok toc sections Hwf) as (a & E & _ & _ & Hfold).
  exists a. split; [exact E|].
  rewrite (order_loop_quiet toc sections toc Hcopies Hcons (incl_refl toc)) in Hfold.
  injection Hfold as <-. reflexivity.
Qed.

(** The parent of a parsed heading is its section number without the last
    component. *)
Lemma parent_is_prefix e p :
  derived_fields e -> parent_id e = Some p ->
  section_id e =
    (p ++ "." ++ List.last (PyStr.split "." (section_id e)) EmptyString)%string.
Proof.
  intros [Hl Hp] Hsome. rewrite Hp in Hsome.
  destruct (Z.eqb_spec (level e) 1) as [|Hne]; [discriminate|].
  injection Hsome as <-.
  rewrite <- (join_split "." (section_id e)) at 1.
  apply join_removelast.
  pose proof (split_nonempty "." (section_id e)) as Hnil.
  unfold len in Hl.
  destruct (PyStr.split "." (section_id e)) as [|x [|y l]];
    [contradiction | simpl in Hl; lia | simpl; lia].
Qed.

End ClaimFacts.

(** * The claims *)

Import Examples ClaimFacts.

(** C1 (code defect). The claim: the exclusive end page of a heading is the
    page of the first heading after it that is not a descendant, so that in
    the TOC 1 (page 1), 1.1 (page 2), 1.2 (page 4), 2 (page 6) the range of
    1.1 is (2, 4) and that of 1 is (1, 6). The code searches from the first
    heading of the TOC, not from the current one: for 1.1 it stops at once
    on heading 1, returns page 1, and the range (2, 1) has no page, so no
    content is extracted; only the range of 1 is (1, 6). *)
Theorem C1_end_page_is_searched_from_the_first_heading :
  _find_section_end_page (parser_with range_toc) ten_pages (heading_at "1.1" 2 2)
    = Ok 1 /\
  _extract_section_content (parser_with range_toc) ten_pages (heading_at "1.1" 2 2)
    = Ok None /\
  _find_section_end_page (parser_with range_toc) ten_pages (heading_at "1" 1 1)
    = Ok 6.
Proof. repeat split; vm_compute; reflexivity. Qed.

(** C2 (code defect). The claim: no strict descendant of a heading, at any
    depth, ends its content span. The code exempts only the headings one
    level below the current one: for heading 1 the grandchild 1.1.1 counts
    as the next section, and in the TOC 1 (page 1), 1.1 (page 2), 1.1.1
    (page 3), 2 (page 6) the span of 1 ends at page 3, not at page 6. *)
Theorem C2_grandchild_closes_the_span :
  _is_next_section "1" "1.1.1" 1 = Ok true /\
  _find_section_end_page (parser_with nested_toc) ten_pages (heading_at "1" 1 1)
    = Ok 3.
Proof. split; vm_compute; reflexivity. Qed.

(** C3 (as amended). For every heading that starts on page 1 or later and
    whose resolved page range has no page with text, the extractor returns
    [None] (no error, and not the empty text), and the heading gets no entry
    in the content set. *)
Theorem C3_no_text_gives_no_content self pdf toc_entry end_page acc :
  _find_section_end_page self pdf toc_entry = Ok end_page ->
  1 <= page toc_entry ->
  (forall i text, page toc_entry - 1 <= i < end_page ->
                  nth_error pdf (Z.to_nat i) = Some text -> truthy text = None) ->
  _extract_section_content self pdf toc_entry = Ok None /\
  extract_one self pdf acc toc_entry = Ok acc.
Proof.
  intros Hend Hpage Hno.
  pose proof (no_text_no_content self pdf toc_entry end_page Hend Hpage Hno) as H.
  split; [exact H | apply no_content_no_entry, H].
Qed.

(** C3 at a document of three pages without text. *)
Lemma C3_no_text_witness :
  _extract_section_content (parser_with [heading_at "1" 1 1]) image_only
    (heading_at "1" 1 1) = Ok None /\
  extract_one (parser_with [heading_at "1" 1 1]) image_only []
    (heading_at "1" 1 1) = Ok [].
Proof.
  apply (C3_no_text_gives_no_content _ _ _ 3 []).
  - reflexivity.
  - simpl. lia.
  - intros i text Hi Hnth. simpl in Hi.
    assert (Hcases : i = 0 \/ i = 1 \/ i = 2) by lia.
    destruct Hcases as [-> | [-> | ->]]; simpl in Hnth;
      injection Hnth as <-; reflexivity.
Defined.

(** C3 as stated fails: for a heading whose pages have no text the extractor
    returns [None], not the empty text, and [extract_sections] keeps no
    entry for it. *)
Lemma C3_image_only_pages_give_None :
  _extract_section_content (parser_with [heading_at "1" 1 1]) image_only
    (heading_at "1" 1 1) = Ok None /\
  exists self',
    extract_sections cfg image_only (parser_with [heading_at "1" 1 1]) = Ok self' /\
    section_entries self' = [].
Proof.
  split; [vm_compute; reflexivity|].
  eexists. split; [vm_compute; reflexivity | reflexivity].
Qed.

(** C4 (code defect). The claim: the page of a heading is the trailing page
    number of its TOC line. The line parser returns that number (53 for the
    sample line), but [extract_toc] then assigns the number of the scanned
    page to the heading: every stored heading carries the page of the TOC on
    which its line was read (1 for the sample document). [extract_toc]
    returns when the lines of the pages it scans have at most 4300
    characters, the most digits that [int] takes. *)
Theorem C4_extract_toc_stores_the_toc_page :
  (exists e, extract_toc_entry toc_line "Doc" = Ok (Some e) /\ page e = 53) /\
  (exists self', extract_toc cfg sixty_pages (init "Doc") = Ok self' /\
                 map page (toc_entries self') = [1]) /\
  (forall cfg pdf self,
     (short_lines (scanned cfg pdf) = true ->
      exists self', extract_toc cfg pdf self = Ok self') /\
     (forall self',
        extract_toc cfg pdf self = Ok self' ->
        Forall (fun e => In (page e) (toc_pages (metadata self')))
          (toc_entries self'))).
Proof.
  split; [|split].
  - eexists. split; [vm_compute; reflexivity | reflexivity].
  - eexists. split; [vm_compute; reflexivity | reflexivity].
  - intros c pdf self. split.
    + apply TocFacts.extract_toc_returns.
    + intros self' E.
      destruct (ScanFacts.extract_toc_ok c pdf self self' E) as (_ & _ & H & _).
      exact H.
Qed.

(** C5. Sorting any list of headings with well-formed section numbers
    (numerals of at most 4300 digits, which [int] takes, separated by
    dots) returns a permutation of the list in ascending order of section
    number, the numbers compared component-wise as integers. Whenever
    [extract_toc] returns, the TOC it stores is in that order and is a
    permutation of the headings that its scan of the pages found; it
    returns when the lines of the scanned pages have at most 4300
    characters. The headings 2.10, 2.2, 2.9 come out as 2.2, 2.9, 2.10. *)
Theorem C5_toc_is_sorted_by_numeric_section_id :
  (forall l, Forall (fun e => wf_id (section_id e) = true) l ->
     exists out, sort_by_key section_key l = Ok out /\
                 ascending out /\ Permutation l out) /\
  (forall cfg pdf self self',
     extract_toc cfg pdf self = Ok self' ->
     ascending (toc_entries self') /\
     exists found,
       foldM (scan_page pdf (self_doc_title self))
         (py_range 0 (Z.min (TOC_SCAN_PAGES cfg) (len pdf)))
         ([], toc_pages (metadata self)) = Ok found /\
       Permutation (fst found) (toc_entries self')) /\
  (forall cfg pdf self,
     short_lines (scanned cfg pdf) = true ->
     exists self', extract_toc cfg pdf self = Ok self') /\
  sort_by_key section_key unsorted_toc =
    Ok [heading_at "2.2" 3 2; heading_at "2.9" 5 2; heading_at "2.10" 7 2].
Proof.
  split; [|split; [|split]].
  - apply SortFacts.sort_by_key_ok.
  - intros c pdf self self' E.
    destruct (ScanFacts.extract_toc_ok c pdf self self' E) as (_ & H & _ & Hp).
    split; assumption.
  - apply TocFacts.extract_toc_returns.
  - vm_compute. reflexivity.
Qed.

(** C5 at the headings 2.10, 2.2, 2.9. *)
Lemma C5_sorted_witness :
  exists out, sort_by_key section_key unsorted_toc = Ok out /\
              ascending out /\ Permutation unsorted_toc out.
Proof.
  apply (proj1 C5_toc_is_sorted_by_numeric_section_id).
  repeat constructor.
Defined.

(** C6. The coverage of every analysis that returns is
    |headingIds ∩ contentIds| / |headingIds| × 100 in floating point, over
    the sets of section numbers of the two inputs; the analysis returns for
    every TOC with well-formed section numbers; and for the empty TOC the
    coverage is the integer 0. *)
Theorem C6_coverage_formula :
  (forall toc sections a,
     analyze_toc_vs_parsed toc sections = Ok a ->
     coverage_percentage a =
       coverage_spec (heading_ids toc) (content_ids sections)) /\
  (forall toc sections,
     Forall (fun e => wf_id (section_id e) = true) toc ->
     exists a, analyze_toc_vs_parsed toc sections = Ok a) /\
  (forall sections,
     exists a, analyze_toc_vs_parsed [] sections = Ok a /\
               coverage_percentage a = PyInt 0).
Proof.
  split; [|split].
  - apply analyze_coverage.
  - intros toc sections Hwf.
    destruct (AnalysisFacts.analyze_ok toc sections Hwf) as (a & E & _).
    exists a. exact E.
  - apply analyze_empty_toc.
Qed.

(** C6 at the headings 1, 1, 2 with a content entry for 1: one id of two is
    covered, whatever the number of headings that carry it. *)
Lemma C6_half_covered_witness :
  exists a, analyze_toc_vs_parsed half_covered_toc half_covered_sections = Ok a /\
            coverage_percentage a = PyFloat 50.
Proof.
  destruct (proj1 (proj2 C6_coverage_formula) half_covered_toc
              half_covered_sections) as [a Ha].
  - repeat constructor.
  - exists a. split; [exact Ha|].
    rewrite (proj1 C6_coverage_formula _ _ _ Ha). vm_compute. reflexivity.
Defined.

(** C7. On a TOC with well-formed section numbers (numerals of at most
    4300 digits separated by dots) gap detection returns the gaps of the
    specification: level by level, the headings of the level sorted by
    numeric section number, one gap for each adjacent pair that shares all
    but the last path component and whose last components are not
    consecutive, with the level and the section numbers of the pair;
    [has_gap] decides such a pair. The siblings 2.1, 2.2, 2.4 give the one
    gap of level 2 between 2.2 and 2.4, in any order of arrival; 2.1, 2.2,
    2.3 give none; the step from 2.9 to 3.1 is no gap. *)
Theorem C7_gaps_between_siblings :
  (forall toc, Forall (fun e => wf_id (section_id e) = true) toc ->
     find_section_gaps toc = Ok (gaps_spec toc)) /\
  (forall current_id next_id,
     wf_id current_id = true -> wf_id next_id = true ->
     has_gap current_id next_id = Ok (gap_pair current_id next_id)) /\
  find_section_gaps gap_toc =
    Ok [{| gap_level := 2; before_section := "2.2"; after_section := "2.4";
           gap_description := "Missing sections between 2.2 and 2.4" |}] /\
  find_section_gaps shuffled_gap_toc =
    Ok [{| gap_level := 2; before_section := "2.2"; after_section := "2.4";
           gap_description := "Missing sections between 2.2 and 2.4" |}] /\
  find_section_gaps dense_toc = Ok [] /\
  find_section_gaps chapter_change_toc = Ok [] /\
  has_gap "2.9" "3.1" = Ok false.
Proof.
  split; [apply GapFacts.find_section_gaps_wf|].
  split; [apply GapFacts.has_gap_wf|].
  repeat split; vm_compute; reflexivity.
Qed.

(** C7 at the siblings 2.1, 2.2, 2.4. *)
Lemma C7_gap_witness :
  find_section_gaps gap_toc = Ok (gaps_spec gap_toc) /\
  gaps_spec gap_toc =
    [{| gap_level := 2; before_section := "2.2"; after_section := "2.4";
        gap_description := "Missing sections between 2.2 and 2.4" |}].
Proof.
  split.
  - apply (proj1 C7_gaps_between_siblings). repeat constructor.
  - vm_compute. reflexivity.
Defined.

(** C8 (as amended). No line that bears an Annex prefix is matched by the
    line parser: it returns no heading for it. Its patterns accept a bare
    section number and the prefixes Chapter N and Section N.M only. *)
Theorem C8_no_pattern_for_annex :
  (forall line doc,
     annex_prefixed line = true -> extract_toc_entry line doc = Ok None) /\
  (exists e, extract_toc_entry "Chapter 2 Overview ..... 53" "Doc" = Ok (Some e) /\
             section_id e = "2") /\
  (exists e, extract_toc_entry "Section 2.1 Introduction ..... 53" "Doc"
               = Ok (Some e) /\
             section_id e = "2.1").
Proof.
  split; [apply annex_rejected|].
  split; eexists; (split; [vm_compute; reflexivity | reflexivity]).
Qed.

(** C8 at the line of the claim. *)
Lemma C8_annex_witness :
  annex_prefixed annex_line = true /\
  extract_toc_entry annex_line "Doc" = Ok None.
Proof.
  split; [reflexivity|].
  apply (proj1 C8_no_pattern_for_annex). reflexivity.
Defined.

(** C8 as stated fails: the line "Annex A Safety Requirements ..... 12" gets
    no heading, and neither does any other line with an Annex prefix. *)
Lemma C8_annex_line_is_not_matched :
  extract_toc_entry annex_line "Doc" = Ok None /\
  (forall line doc,
     annex_prefixed line = true -> extract_toc_entry line doc = Ok None).
Proof. split; [vm_compute; reflexivity | apply annex_rejected]. Qed.

(** C9. For every heading returned by the line parser, the level is the
    number of dotted components of the section number, and the parent is
    absent at level 1 and otherwise the section number without its last
    component (the section number is the parent, a dot and the last
    component). "3.1.2" gives level 3 and parent "3.1"; "4" gives level 1
    and no parent. *)
Theorem C9_level_and_parent_from_section_id :
  (forall line doc e,
     extract_toc_entry line doc = Ok (Some e) ->
     level e = len (PyStr.split "." (section_id e)) /\
     parent_id e =
       (if level e =? 1 then None
        else Some (PyStr.join "." (removelast (PyStr.split "." (section_id e))))) /\
     (forall p, parent_id e = Some p ->
        section_id e =
          (p ++ "." ++ List.last (PyStr.split "." (section_id e)) EmptyString)%string)) /\
  (exists e, extract_toc_entry "3.1.2 Title ..... 5" "Doc" = Ok (Some e) /\
             section_id e = "3.1.2" /\ level e = 3 /\ parent_id e = Some "3.1") /\
  (exists e, extract_toc_entry "4 Title ..... 7" "Doc" = Ok (Some e) /\
             section_id e = "4" /\ level e = 1 /\ parent_id e = None).
Proof.
  split; [|split].
  - intros line doc e H.
    destruct (ParserFacts.extract_toc_entry_shape line doc e H)
      as (_ & _ & _ & Hd).
    split; [apply Hd|]. split; [apply Hd|].
    intros p Hp. apply parent_is_prefix; assumption.
  - eexists. split; [vm_compute; reflexivity|]. repeat split.
  - eexists. split; [vm_compute; reflexivity|]. repeat split.
Qed.

(** C9 at the line "3.1.2 Title ..... 5". *)
Lemma C9_derived_witness :
  level (heading_at "3.1.2" 5 3) = 3 /\
  parent_id (heading_at "3.1.2" 5 3) = Some "3.1" /\
  section_id (heading_at "3.1.2" 5 3) = ("3.1" ++ "." ++ "2")%string.
Proof.
  destruct (proj1 C9_level_and_parent_from_section_id
              "3.1.2 Title ..... 5" "Doc" (heading_at "3.1.2" 5 3))
    as (Hl & Hp & Hs).
  - vm_compute. reflexivity.
  - split; [reflexivity|]. split; [reflexivity|].
    apply (Hs "3.1"). reflexivity.
Defined.

(** C10 (as amended). For every parser whose stored headings are resolvable
    (well-formed section number, page 1 or later) and, when it has no
    stored heading, every document whose pages to scan have lines of at
    most 4300 characters (so that [int] takes the numerals of the scan),
    section extraction returns, and every entry of the content set is a
    heading of the TOC with a content attached, so with the page of that
    heading. When the headings that share a section number share the page
    (in particular when the section numbers are distinct), the analysis of
    the TOC against this content set returns with an empty list of order
    issues. *)
Theorem C10_sections_copy_headings cfg pdf self :
  Forall resolvable (toc_entries self) ->
  (toc_entries self = [] -> short_lines (scanned cfg pdf) = true) ->
  exists self',
    extract_sections cfg pdf self = Ok self' /\
    copies_of (toc_entries self') (section_entries self') /\
    (consistent_pages (toc_entries self') ->
     exists a,
       analyze_toc_vs_parsed (toc_entries self') (section_entries self') = Ok a /\
       order_issues a = []).
Proof.
  intros Hres Hshort.
  destruct (RangeFacts.extract_sections_ok cfg pdf self Hres Hshort)
    as (self' & E & Hres' & Hcopies).
  exists self'. split; [exact E|]. split; [exact Hcopies|].
  intros Hcons. apply quiet_analysis; try assumption.
  apply RangeFacts.resolvable_wf, Hres'.
Qed.

(** C10 at a document with a TOC page of two headings. *)
Lemma C10_two_sections_witness :
  exists self' a,
    extract_sections cfg two_sections (init "Doc") = Ok self' /\
    length (section_entries self') = 2%nat /\
    analyze_toc_vs_parsed (toc_entries self') (section_entries self') = Ok a /\
    order_issues a = [].
Proof.
  destruct (C10_sections_copy_headings cfg two_sections (init "Doc"))
    as (self' & E & _ & Hquiet).
  - constructor.
  - intros _. reflexivity.
  - assert (E' := E). vm_compute in E'. injection E' as <-.
    destruct Hquiet as (a & Ha & Hno).
    + intros x y [<- | [<- | []]] [<- | [<- | []]] _; reflexivity.
    + eexists _, a. split; [exact E|]. split; [reflexivity|].
      split; assumption.
Defined.

(** C10 as stated fails: when two pages of the TOC carry a line with the
    same section number, the two headings differ in page, the second one is
    compared with the content entry of the first, and an order issue is
    reported. *)
Lemma C10_repeated_id_gives_an_order_issue :
  exists self' a,
    extract_sections cfg repeated_id (init "Doc") = Ok self' /\
    analyze_toc_vs_parsed (toc_entries self') (section_entries self') = Ok a /\
    order_issues a =
      [{| oi_section_id := "1"; oi_toc_page := 2; oi_parsed_page := 1;
          oi_difference := 1 |}].
Proof.
  eexists. eexists. split; [vm_compute; reflexivity|].
  split; [vm_compute; reflexivity | reflexivity].
Qed.

(** * Further properties of the code *)

(** ** The line parser *)

Module LineFacts.
Import PyStrFacts ParserFacts ClaimFacts.

Lemma try_patterns_built ps line doc e :
  try_patterns ps line doc = Ok (Some e) ->
  exists m, entry_of_match m doc = Ok e.
Proof.
  induction ps as [|p ps IH]; simpl; [discriminate|].
  destruct (Re.re_match true p line) as [m|]; [|exact IH].
  intros H. apply bind_Ok in H as (e' & He & H). simpl in H.
  injection H as <-. exists m. exact He.
Qed.

Lemma entry_of_match_fields m doc e :
  entry_of_match m doc = Ok e ->
  full_path e = (section_id e ++ " " ++ title e)%string /\
  tags e = generate_tags (title e).
Proof.
  unfold entry_of_match. intros H.
  apply bind_Ok in H as (g1 & _ & H). apply bind_Ok in H as (g2 & _ & H).
  apply bind_Ok in H as (g3 & _ & H). apply bind_Ok in H as (pg & _ & H).
  injection H as <-. split; reflexivity.
Qed.

Lemma lstrip_head s a t : PyStr.lstrip s = String a t -> PyStr.is_space a = false.
Proof.
  induction s as [|b s IH]; simpl; [discriminate|].
  destruct (PyStr.is_space b) eqn:E; [exact IH|].
  intros [= <- <-]. exact E.
Qed.

Lemma rstrip_idem s : PyStr.rstrip (PyStr.rstrip s) = PyStr.rstrip s.
Proof.
  induction s as [|a s IH]; [reflexivity|].
  simpl. destruct (PyStr.is_space a && PyStr.is_empty (PyStr.rstrip s)) eqn:E;
    [reflexivity|].
  simpl. rewrite IH, E. reflexivity.
Qed.

(** [s.strip().strip() == s.strip()] *)
Lemma strip_idem s : PyStr.strip (PyStr.strip s) = PyStr.strip s.
Proof.
  unfold PyStr.strip.
  destruct (PyStr.lstrip s) as [|a t] eqn:E; [reflexivity|].
  pose proof (lstrip_head s a t E) as Ha.
  rewrite (rstrip_cons a t Ha). simpl PyStr.lstrip. rewrite Ha.
  rewrite <- (rstrip_cons a t Ha). apply rstrip_idem.
Qed.

(** A text whose first character cannot start a heading matches no
    pattern. *)
Lemma patterns_reject_first a s doc :
  may_start_heading a = false ->
  try_patterns patterns (String a s) doc = Ok None.
Proof.
  destruct a as [[] [] [] [] [] [] [] []]; intros H;
    solve [discriminate H | reflexivity].
Qed.

Lemma blank_or_rejected line doc :
  match PyStr.lstrip line with
  | EmptyString => True
  | String a _ => may_start_heading a = false
  end ->
  extract_toc_entry line doc = Ok None.
Proof.
  unfold extract_toc_entry, PyStr.strip.
  destruct (PyStr.lstrip line) as [|a t] eqn:E; intros H; [reflexivity|].
  rewrite (rstrip_cons a t (lstrip_head line a t E)).
  simpl PyStr.is_empty. cbv iota. apply patterns_reject_first, H.
Qed.

(** *** Whitespace around a line *)

Lemma blank_lstrip ws : blank ws = true -> PyStr.lstrip ws = EmptyString.
Proof.
  induction ws as [|a ws IH]; simpl; [reflexivity|].
  intros H. apply andb_true_iff in H as [Ha Hws]. rewrite Ha. apply IH, Hws.
Qed.

Lemma blank_rstrip ws : blank ws = true -> PyStr.rstrip ws = EmptyString.
Proof.
  induction ws as [|a ws IH]; simpl; [reflexivity|].
  intros H. apply andb_true_iff in H as [Ha Hws].
  rewrite (IH Hws), Ha. reflexivity.
Qed.

Lemma lstrip_blank_app ws s :
  blank ws = true -> PyStr.lstrip (ws ++ s)%string = PyStr.lstrip s.
Proof.
  induction ws as [|a ws IH]; intros H.
  - rewrite append_nil. reflexivity.
  - simpl in H. apply andb_true_iff in H as [Ha Hws].
    rewrite append_cons. simpl. rewrite Ha. apply IH, Hws.
Qed.

Lemma rstrip_app_blank s ws :
  blank ws = true -> PyStr.rstrip (s ++ ws)%string = PyStr.rstrip s.
Proof.
  intros H. induction s as [|a s IH].
  - rewrite append_nil. apply blank_rstrip, H.
  - rewrite append_cons. simpl. rewrite IH. reflexivity.
Qed.

Lemma lstrip_app s t :
  PyStr.lstrip (s ++ t)%string =
    if PyStr.is_empty (PyStr.lstrip s) then PyStr.lstrip t
    else (PyStr.lstrip s ++ t)%string.
Proof.
  induction s as [|a s IH].
  - rewrite append_nil. reflexivity.
  - rewrite append_cons. simpl. destruct (PyStr.is_space a); [exact IH|].
    simpl. rewrite append_cons. reflexivity.
Qed.

(** Whitespace before and after a text does not change what [strip]
    leaves of it. *)
Lemma strip_blank_around ws1 s ws2 :
  blank ws1 = true -> blank ws2 = true ->
  PyStr.strip (ws1 ++ s ++ ws2)%string = PyStr.strip s.
Proof.
  intros H1 H2. unfold PyStr.strip.
  rewrite (lstrip_blank_app ws1 _ H1), lstrip_app.
  destruct (PyStr.lstrip s) as [|a t].
  - simpl. rewrite (blank_lstrip ws2 H2). reflexivity.
  - simpl PyStr.is_empty. cbv iota. apply rstrip_app_blank, H2.
Qed.

End LineFacts.

(** ** Tags *)

Module TagFacts.

Lemma optional_sublist (b : bool) (x : string) (l l' : list string) :
  sublist l l' -> sublist ((if b then [x] else []) ++ l) (x :: l').
Proof.
  intros H. destruct b; simpl.
  - apply sublist_skip, H.
  - apply sublist_cons, H.
Qed.

Lemma tags_sublist title : sublist (generate_tags title) all_tags.
Proof.
  unfold generate_tags, all_tags.
  repeat apply optional_sublist.
  destruct (any_in _ _); repeat constructor.
Qed.

Lemma lower_char_idem a : PyStr.lower_char (PyStr.lower_char a) = PyStr.lower_char a.
Proof. destruct a as [[] [] [] [] [] [] [] []]; reflexivity. Qed.

Lemma lower_idem s : PyStr.lower (PyStr.lower s) = PyStr.lower s.
Proof.
  induction s as [|a s IH]; simpl; [reflexivity|].
  rewrite lower_char_idem, IH. reflexivity.
Qed.

End TagFacts.

(** ** Spans and contents, in closed form *)

Module SpanFacts.
Import PyStrFacts ParserFacts PyFacts TocFacts RangeFacts SortFacts ScanFacts.

(** The common prefix covers the whole of [a] and [b] is one longer exactly
    when [b] is [a] with one more component. *)
Lemma common_prefix_child a b :
  (common_prefix_len a b = len a /\ len b = len a + 1) <->
  exists k, b = a ++ [k].
Proof.
  revert b. induction a as [|x a IH]; intros b.
  - unfold len. simpl. split.
    + intros [_ H]. destruct b as [|k [|? ?]]; simpl in H; try lia.
      exists k. reflexivity.
    + intros [k ->]. simpl. destruct k; split; reflexivity.
  - destruct b as [|y b].
    + unfold len. simpl. split; [lia|]. intros [k H]. discriminate.
    + change (common_prefix_len (x :: a) (y :: b))
        with (if x =? y then 1 + common_prefix_len a b else 0).
      replace (len (x :: a)) with (1 + len a) by (unfold len; simpl length; lia).
      replace (len (y :: b)) with (1 + len b) by (unfold len; simpl length; lia).
      destruct (Z.eqb_spec x y) as [->|Hne].
      * split.
        -- intros [H1 H2].
           destruct (proj1 (IH b)) as [k ->]; [split; lia|].
           exists k. reflexivity.
        -- intros [k Hk]. injection Hk as ->.
           destruct (proj2 (IH (a ++ [k]))) as [H1 H2]; [eauto|].
           split; lia.
      * split.
        -- intros [H _]. unfold len in H. lia.
        -- intros [k Hk]. injection Hk as Hxy _. congruence.
Qed.

(** [_is_next_section] answers [False] exactly for a heading that is deeper
    than [current_level] and whose path is the current path with one more
    component. *)
Lemma is_next_section_false current_id next_id current_level :
  wf_id current_id = true -> wf_id next_id = true ->
  exists b,
    _is_next_section current_id next_id current_level = Ok b /\
    (b = false <->
     current_level < len (components next_id) /\
     exists k, components next_id = components current_id ++ [k]).
Proof.
  intros Hc Hn. rewrite (is_next_section_wf _ _ current_level Hc Hn).
  eexists. split; [reflexivity|].
  pose proof (common_prefix_child (components current_id) (components next_id))
    as Hchild.
  destruct (Z.leb_spec (len (components next_id)) current_level) as [Hle|Hgt].
  - split; [discriminate | intros [H _]; lia].
  - destruct (Z.eqb_spec (len (components next_id))
                (len (components current_id) + 1)) as [E1|E1];
      destruct (Z.eqb_spec (common_prefix_len (components current_id)
                              (components next_id))
                  (len (components current_id))) as [E2|E2]; simpl.
    + split; [|reflexivity]. intros _. split; [exact Hgt|].
      apply Hchild. split; assumption.
    + split; [discriminate|]. intros [_ Hk]. apply Hchild in Hk as [? ?].
      contradiction.
    + split; [discriminate|]. intros [_ Hk]. apply Hchild in Hk as [? ?].
      contradiction.
    + split; [discriminate|]. intros [_ Hk]. apply Hchild in Hk as [? ?].
      contradiction.
Qed.

(** The end page is the number of pages or the page of a heading with
    another section number; it is the number of pages when there is no such
    heading. *)
Lemma find_end_loop_cases entries current_id current_level pdf :
  wf_id current_id = true ->
  Forall (fun e => wf_id (section_id e) = true) entries ->
  exists end_page,
    find_end_loop entries current_id current_level pdf = Ok end_page /\
    (end_page = len pdf \/
     exists e, In e entries /\ section_id e <> current_id /\ end_page = page e) /\
    ((forall e, In e entries -> section_id e = current_id) ->
     end_page = len pdf).
Proof.
  intros Hc. induction 1 as [|e tl He _ IH]; simpl.
  - exists (len pdf). split; [reflexivity|]. split; [left; reflexivity | tauto].
  - destruct IH as (v & Hv & Hcases & Hnone).
    assert (Hrest : exists end_page,
               find_end_loop tl current_id current_level pdf = Ok end_page /\
               (end_page = len pdf \/
                exists e0, (e = e0 \/ In e0 tl) /\ section_id e0 <> current_id
                           /\ end_page = page e0) /\
               ((forall e0, e = e0 \/ In e0 tl -> section_id e0 = current_id) ->
                end_page = len pdf)).
    { exists v. split; [exact Hv|]. split.
      - destruct Hcases as [->|(e0 & H0 & Hne & ->)]; [left; reflexivity|].
        right. exists e0. split; [right; exact H0|]. split; [exact Hne | reflexivity].
      - intros Hall. apply Hnone. intros e0 H0. apply Hall. right. exact H0. }
    destruct (String.eqb_spec (section_id e) current_id) as [Heq|Hne];
      [exact Hrest|].
    rewrite (is_next_section_wf _ _ current_level Hc He). cbn [bind].
    match goal with |- context [if ?b then Ok (page e) else _] => destruct b end.
    + exists (page e). split; [reflexivity|]. split.
      * right. exists e. split; [left; reflexivity|]. split; [exact Hne | reflexivity].
      * intros Hall. exfalso. apply Hne, Hall. left. reflexivity.
    + exact Hrest.
Qed.

Lemma texts_of_cons text pages :
  texts_of (text :: pages) =
    match truthy text with
    | Some t => t :: texts_of pages
    | None => texts_of pages
    end.
Proof. reflexivity. Qed.

(** The loop over the page numbers reads the slice of the pages. *)
Lemma collect_pages_slice pdf n a parts :
  0 <= a ->
  collect_pages pdf (map (fun i => a + Z.of_nat i) (seq 0 n)) parts =
    Ok (parts ++ texts_of (firstn n (skipn (Z.to_nat a) pdf))).
Proof.
  revert a parts. induction n as [|n IH]; intros a parts Ha.
  - simpl. rewrite app_nil_r. reflexivity.
  - change (seq 0 (S n)) with (0%nat :: seq 1 n).
    rewrite <- List.seq_shift. cbn [map]. rewrite List.map_map.
    cbn [collect_pages].
    replace (a + Z.of_nat 0) with a by lia.
    assert (Hshift : map (fun i => a + Z.of_nat (S i)) (seq 0 n)
                     = map (fun i => (a + 1) + Z.of_nat i) (seq 0 n)).
    { apply map_ext. intros i. lia. }
    rewrite Hshift.
    destruct (Z.leb_spec (len pdf) a) as [Hge|Hlt].
    + rewrite skipn_all2 by (unfold len in Hge; lia).
      rewrite firstn_nil. unfold texts_of. simpl. rewrite app_nil_r. reflexivity.
    + destruct (py_index_ok pdf a (conj Ha Hlt)) as (text & -> & Hnth).
      cbn [bind].
      assert (Hskip : skipn (Z.to_nat a) pdf
                      = text :: skipn (Z.to_nat (a + 1)) pdf).
      { replace (Z.to_nat (a + 1)) with (S (Z.to_nat a)) by lia.
        clear -Hnth. revert Hnth. generalize (Z.to_nat a) as k.
        induction pdf as [|p pdf IHp]; intros [|k] H; simpl in H;
          try discriminate.
        - injection H as ->. reflexivity.
        - simpl. apply IHp, H. }
      rewrite Hskip. cbn [firstn]. rewrite texts_of_cons.
      destruct (truthy text) as [t|].
      * rewrite IH by lia. rewrite <- app_assoc. reflexivity.
      * rewrite IH by lia. reflexivity.
Qed.

(** The content of a heading is the texts of the pages
    [pages[start_page - 1 : end_page]] that have one, joined by line
    feeds, and [None] when there is none. *)
Lemma extract_section_content_slice self pdf toc_entry end_page :
  _find_section_end_page self pdf toc_entry = Ok end_page ->
  1 <= page toc_entry ->
  _extract_section_content self pdf toc_entry =
    Ok (match texts_of (page_slice pdf (page toc_entry - 1) end_page) with
        | [] => None
        | t :: ts => Some (PyStr.join (String "010" EmptyString) (t :: ts))
        end).
Proof.
  intros Hend Hpage. unfold _extract_section_content. rewrite Hend.
  cbn [bind]. unfold py_range.
  rewrite collect_pages_slice by lia. cbn [bind app].
  unfold page_slice.
  destruct (texts_of _); reflexivity.
Qed.

(** The section entries follow the order of the TOC, one at most for a
    heading. *)
Lemma extract_loop_sublist self pdf l acc acc' :
  foldM (extract_one self pdf) l acc = Ok acc' ->
  exists new, acc' = acc ++ new /\ sublist (map heading new) l.
Proof.
  revert acc. induction l as [|e l IH]; simpl; intros acc H.
  - injection H as <-. exists []. split; [symmetry; apply app_nil_r | constructor].
  - apply bind_Ok in H as (acc1 & H1 & H).
    apply IH in H as (new & -> & Hsub).
    unfold extract_one in H1. apply bind_Ok in H1 as (r & _ & H1).
    destruct (truthy r) as [t|]; injection H1 as <-.
    + exists ({| heading := e; content := t |} :: new). split.
      * rewrite <- app_assoc. reflexivity.
      * simpl. apply sublist_skip, Hsub.
    + exists new. split; [reflexivity | apply sublist_cons, Hsub].
Qed.

(** What [extract_sections] leaves: the TOC it used, the section entries in
    the order of the TOC, and their number. *)
Lemma extract_sections_shape cfg pdf self self' :
  extract_sections cfg pdf self = Ok self' ->
  sublist (map heading (section_entries self')) (toc_entries self') /\
  sections_count (metadata self') = len (section_entries self') /\
  (toc_entries self <> [] -> toc_entries self' = toc_entries self) /\
  (toc_entries self = [] ->
   exists self1, extract_toc cfg pdf self = Ok self1 /\
                 toc_entries self' = toc_entries self1 /\
                 total_pages (metadata self') = len pdf).
Proof.
  unfold extract_sections. intros H.
  apply bind_Ok in H as (self1 & H1 & H).
  apply bind_Ok in H as (sections & Hloop & H). injection H as <-. simpl.
  apply extract_loop_sublist in Hloop as (new & -> & Hsub). simpl.
  split; [exact Hsub|]. split; [reflexivity|].
  destruct (toc_entries self) as [|e0 tl] eqn:E.
  - split; [congruence|]. intros _. exists self1.
    split; [exact H1|]. split; [reflexivity|].
    unfold extract_toc in H1. apply bind_Ok in H1 as (found & _ & H1).
    apply bind_Ok in H1 as (sorted & _ & H1). injection H1 as <-. reflexivity.
  - injection H1 as <-. split; [intros _; exact E | discriminate].
Qed.

(** A path does not precede itself cut by its last component. *)
Lemma lex_le_not_child a k : ~ lex_le (a ++ [k]) a.
Proof.
  induction a as [|x a IH]; simpl; [tauto|].
  intros [H|[_ H]]; [lia | exact (IH H)].
Qed.

(** In a TOC whose first heading precedes the current one and has another
    section number, the first heading ends the span. *)
Lemma first_heading_closes first tl current pdf :
  wf_id (section_id current) = true -> wf_id (section_id first) = true ->
  section_id first <> section_id current ->
  id_le first current ->
  find_end_loop (first :: tl) (section_id current) (level current) pdf
    = Ok (page first).
Proof.
  intros Hc Hf Hne Hle. cbn [find_end_loop].
  destruct (String.eqb_spec (section_id first) (section_id current));
    [contradiction|].
  destruct (is_next_section_false (section_id current) (section_id first)
              (level current) Hc Hf) as (b & -> & Hb).
  cbn [bind]. destruct b; [reflexivity|].
  destruct (proj1 Hb eq_refl) as (_ & k & Hk).
  exfalso. unfold id_le in Hle. rewrite Hk in Hle.
  exact (lex_le_not_child _ _ Hle).
Qed.

(** Every section entry made by the loop has a content that is not
    empty. *)
Lemma extract_loop_truthy self pdf l acc acc' :
  foldM (extract_one self pdf) l acc = Ok acc' ->
  Forall (fun s => content s <> EmptyString) acc ->
  Forall (fun s => content s <> EmptyString) acc'.
Proof.
  revert acc. induction l as [|e l IH]; simpl; intros acc H Hacc.
  - injection H as <-. exact Hacc.
  - apply bind_Ok in H as (acc1 & H1 & H). apply (IH acc1 H).
    unfold extract_one in H1. apply bind_Ok in H1 as (r & _ & H1).
    destruct r as [[|a t]|]; simpl in H1; injection H1 as <-; try exact Hacc.
    apply Forall_app. split; [exact Hacc|].
    constructor; [discriminate | constructor].
Qed.

Lemma extract_one_toc self self1 pdf acc e :
  toc_entries self = toc_entries self1 ->
  extract_one self pdf acc e = extract_one self1 pdf acc e.
Proof.
  intros H. unfold extract_one, _extract_section_content, _find_section_end_page.
  rewrite H. reflexivity.
Qed.

Lemma foldM_ext {A S : Type} (f g : S -> A -> result S) (l : list A) (acc : S) :
  (forall acc x, f acc x = g acc x) -> foldM f l acc = foldM g l acc.
Proof.
  intros H. revert acc. induction l as [|x l IH]; intros acc; [reflexivity|].
  simpl. rewrite H. destruct (g acc x); [apply IH | reflexivity].
Qed.

(** Extracting the sections a second time gives the same parser. *)
Lemma extract_sections_again cfg pdf self self' :
  extract_sections cfg pdf self = Ok self' ->
  extract_sections cfg pdf self' = Ok self'.
Proof.
  unfold extract_sections at 1. intros H.
  apply bind_Ok in H as (self1 & H1 & H).
  apply bind_Ok in H as (sections & Hloop & H). injection H as <-.
  match goal with |- extract_sections _ _ ?r = _ => set (self' := r) end.
  assert (Hm : match toc_entries self' with
               | [] => extract_toc cfg pdf self'
               | _ :: _ => Ok self'
               end = Ok self').
  { change (toc_entries self') with (toc_entries self1).
    destruct (toc_entries self1) eqn:Et1; [|reflexivity].
    destruct (toc_entries self) eqn:Et.
    - destruct (extract_toc_found cfg pdf self self1 H1) as (new & _ & _ & Hf).
      rewrite (Hf self eq_refl) in H1. injection H1 as H1. subst self1.
      rewrite (Hf self') by reflexivity.
      subst self'.
      cbn [self_doc_title section_entries metadata md_doc_title toc_pages
           sections_count toc_entries total_pages] in Et1 |- *.
      rewrite add_pages_absorb, Et1. reflexivity.
    - injection H1 as <-. congruence. }
  unfold extract_sections. rewrite Hm. cbn [bind].
  rewrite (foldM_ext (extract_one self' pdf) (extract_one self1 pdf))
    by (intros; apply extract_one_toc; reflexivity).
  change (toc_entries self') with (toc_entries self1).
  rewrite Hloop. cbn [bind]. reflexivity.
Qed.

End SpanFacts.

(** ** The analysis, the summary and the report *)

Module ReportFacts.
Import PyStrFacts ParserFacts PyFacts SortFacts GapFacts AnalysisFacts.

(** The fields of a returned analysis. *)
Lemma analyze_fields toc sections a :
  analyze_toc_vs_parsed toc sections = Ok a ->
  total_toc_entries a = len toc /\
  total_parsed_entries a = len sections /\
  missing_from_parsed a = heading_ids toc ∖ content_ids sections /\
  extra_in_parsed a = content_ids sections ∖ heading_ids toc /\
  common_entries a = Z.of_nat (size (heading_ids toc ∩ content_ids sections)) /\
  foldM (check_order (heading_ids toc ∩ content_ids sections) sections) toc []
    = Ok (order_issues a) /\
  find_section_gaps toc = Ok (gaps a).
Proof.
  unfold analyze_toc_vs_parsed, id_set.
  fold (heading_ids toc). fold (content_ids sections). intros H.
  apply bind_Ok in H as (ois & Hois & H). apply bind_Ok in H as (gs & Hgs & H).
  injection H as <-. simpl. repeat split; assumption.
Qed.

(** The ids of the TOC are the missing ones and the common ones, and no id
    is both. *)
Lemma size_split (H C : gset string) :
  (size (H ∖ C) + size (H ∩ C) = size H)%nat.
Proof.
  rewrite <- size_union.
  - f_equal. apply set_eq. intros x.
    rewrite elem_of_union, elem_of_difference, elem_of_intersection.
    destruct (decide (x ∈ C)); tauto.
  - intros x H1 H2. apply elem_of_difference in H1.
    apply elem_of_intersection in H2. tauto.
Qed.

Lemma check_order_step toc sections acc e acc' :
  In e toc ->
  check_order (heading_ids toc ∩ content_ids sections) sections acc e = Ok acc' ->
  acc' = acc \/ exists oi, genuine_issue toc sections oi /\ acc' = acc ++ [oi].
Proof.
  intros Hin. unfold check_order. case_bool_decide as Hc.
  - intros H. apply bind_Ok in H as (s & Hs & H).
    apply next_with_id_found in Hs as [Hs Hid].
    destruct (Z.eqb_spec (page e) (page (heading s))) as [Heq|Hne]; simpl in H;
      injection H as <-; [left; reflexivity|].
    right. eexists. split; [|reflexivity].
    exists e, s. simpl. repeat split; assumption.
  - intros [= <-]. left. reflexivity.
Qed.

Lemma order_loop_genuine toc sections l acc acc' :
  incl l toc ->
  foldM (check_order (heading_ids toc ∩ content_ids sections) sections) l acc
    = Ok acc' ->
  Forall (genuine_issue toc sections) acc ->
  Forall (genuine_issue toc sections) acc' /\
  (length acc' <= length acc + length l)%nat.
Proof.
  revert acc. induction l as [|e l IH]; simpl; intros acc Hincl H Hacc.
  - injection H as <-. split; [exact Hacc | lia].
  - apply bind_Ok in H as (acc1 & H1 & H).
    apply check_order_step in H1; [|apply Hincl; left; reflexivity].
    assert (Hincl' : incl l toc) by (intros x Hx; apply Hincl; right; exact Hx).
    destruct H1 as [->|(oi & Hoi & ->)].
    + destruct (IH acc Hincl' H Hacc) as [HF Hlen]. split; [exact HF | lia].
    + destruct (IH (acc ++ [oi]) Hincl' H) as [HF Hlen].
      * apply Forall_app. split; [exact Hacc | constructor; [exact Hoi | constructor]].
      * split; [exact HF|]. rewrite length_app in Hlen. simpl in Hlen. lia.
Qed.

(** *** Gaps *)

Lemma adjacent_pairs_in {A : Type} (l : list A) a b :
  In (a, b) (adjacent_pairs l) -> In a l /\ In b l.
Proof.
  induction l as [|x l IH]; [intros []|].
  destruct l as [|y l]; [intros []|].
  change (adjacent_pairs (x :: y :: l)) with ((x, y) :: adjacent_pairs (y :: l)).
  intros [H|H].
  - injection H as -> ->. split; [left; reflexivity | right; left; reflexivity].
  - destruct (IH H) as [Ha Hb]. split; right; assumption.
Qed.

Lemma adjacent_pairs_sorted {A : Type} (R : A -> A -> Prop) (l : list A) a b :
  StronglySorted R l -> In (a, b) (adjacent_pairs l) -> R a b.
Proof.
  induction 1 as [|x l Hs IH Hall]; [intros []|].
  destruct l as [|y l]; [intros []|].
  change (adjacent_pairs (x :: y :: l)) with ((x, y) :: adjacent_pairs (y :: l)).
  intros [H|H].
  - injection H as -> ->. inversion Hall; assumption.
  - apply IH, H.
Qed.

Lemma level_gaps_between toc l g :
  In g (level_gaps_spec l (sorted_by_id (at_level l toc))) -> gap_between toc g.
Proof.
  unfold level_gaps_spec. intros H.
  apply in_map_iff in H as ([a b] & <- & H). apply filter_In in H as [Hin Hgap].
  simpl in Hgap.
  pose proof (adjacent_pairs_sorted id_le _ a b
                (keyed_ascending (at_level l toc)) Hin) as Hle.
  apply adjacent_pairs_in in Hin as [Ha Hb].
  assert (Hat : forall x, In x (sorted_by_id (at_level l toc)) ->
                          In x toc /\ level x = l).
  { intros x Hx.
    apply (Permutation_in _ (Permutation_sym (keyed_perm (at_level l toc)))) in Hx.
    apply filter_In in Hx as [Hx Hl]. apply Z.eqb_eq in Hl. split; assumption. }
  destruct (Hat a Ha) as [Ha1 Ha2]. destruct (Hat b Hb) as [Hb1 Hb2].
  exists a, b. simpl. repeat split; assumption.
Qed.

Lemma gaps_spec_between toc : Forall (gap_between toc) (gaps_spec toc).
Proof.
  apply List.Forall_forall. intros g Hg. unfold gaps_spec in Hg.
  apply in_flat_map in Hg as (l & _ & Hg). eapply level_gaps_between, Hg.
Qed.

(** *** Summary statistics *)

Lemma count_levels_from l toc (dist : gmap Z Z) :
  default 0 (fold_left count_level toc dist !! l)
  = default 0 (dist !! l) + len (at_level l toc).
Proof.
  revert dist. induction toc as [|e toc IH]; intros dist.
  - unfold len. simpl. lia.
  - cbn [fold_left]. rewrite IH. unfold count_level, at_level.
    cbn [List.filter].
    destruct (Z.eqb_spec (level e) l) as [->|Hne].
    + rewrite lookup_insert_eq. unfold len. simpl length. simpl default. lia.
    + rewrite lookup_insert_ne by exact Hne. reflexivity.
Qed.

Lemma fold_min_init tl p : fold_left Z.min tl p <= p.
Proof.
  revert p. induction tl as [|q tl IH]; simpl; intros p; [lia|].
  specialize (IH (Z.min p q)). lia.
Qed.

Lemma fold_min_le tl p x : In x (p :: tl) -> fold_left Z.min tl p <= x.
Proof.
  revert p. induction tl as [|q tl IH]; simpl; intros p H.
  - destruct H as [->|[]]. lia.
  - pose proof (fold_min_init tl (Z.min p q)) as Hinit.
    destruct H as [->|[->|H]]; [lia | lia |].
    apply IH. right. exact H.
Qed.

Lemma fold_min_in tl p : In (fold_left Z.min tl p) (p :: tl).
Proof.
  revert p. induction tl as [|q tl IH]; simpl; intros p; [left; reflexivity|].
  destruct (IH (Z.min p q)) as [H|H].
  - rewrite <- H.
    destruct (Z.min_spec p q) as [[_ E]|[_ E]]; rewrite E;
      [left | right; left]; reflexivity.
  - right. right. exact H.
Qed.

Lemma fold_max_init tl p : p <= fold_left Z.max tl p.
Proof.
  revert p. induction tl as [|q tl IH]; simpl; intros p; [lia|].
  specialize (IH (Z.max p q)). lia.
Qed.

Lemma fold_max_ge tl p x : In x (p :: tl) -> x <= fold_left Z.max tl p.
Proof.
  revert p. induction tl as [|q tl IH]; simpl; intros p H.
  - destruct H as [->|[]]. lia.
  - pose proof (fold_max_init tl (Z.max p q)) as Hinit.
    destruct H as [->|[->|H]]; [lia | lia |].
    apply IH. right. exact H.
Qed.

Lemma fold_max_in tl p : In (fold_left Z.max tl p) (p :: tl).
Proof.
  revert p. induction tl as [|q tl IH]; simpl; intros p; [left; reflexivity|].
  destruct (IH (Z.max p q)) as [H|H].
  - rewrite <- H.
    destruct (Z.max_spec p q) as [[_ E]|[_ E]]; rewrite E;
      [right; left | left]; reflexivity.
  - right. right. exact H.
Qed.

(** The range of a non-empty list of pages: its least and its greatest. *)
Lemma page_range_bounds pages :
  pages <> [] ->
  In (fst (page_range pages)) pages /\ In (snd (page_range pages)) pages /\
  forall p, In p pages -> fst (page_range pages) <= p <= snd (page_range pages).
Proof.
  destruct pages as [|p tl]; [contradiction|]. intros _. simpl.
  split; [apply fold_min_in|]. split; [apply fold_max_in|].
  intros x Hx. split; [apply fold_min_le | apply fold_max_ge]; exact Hx.
Qed.

(** *** The report *)

Lemma snd_combine {A B : Type} (ks : list A) (l : list B) :
  length ks = length l -> map snd (combine ks l) = l.
Proof.
  revert l. induction ks as [|k ks IH]; intros [|x l] H; simpl in *;
    try discriminate; [reflexivity|].
  f_equal. apply IH. lia.
Qed.

(** A sort that returns gives a permutation, whatever the key. *)
Lemma sort_by_key_perm {A : Type} (key : A -> result (list Z)) (l out : list A) :
  sort_by_key key l = Ok out -> Permutation l out.
Proof.
  unfold sort_by_key. intros H. apply bind_Ok in H as (ks & Hks & H).
  injection H as <-. apply mapM_length in Hks.
  rewrite <- (snd_combine ks l Hks) at 1.
  apply Permutation_map, sort_pairs_perm.
Qed.


Lemma parsed_entry_of_Some sections id :
  (exists s, parsed_entry_of sections id = Some s) <-> id ∈ content_ids sections.
Proof.
  unfold parsed_entry_of, content_ids.
  rewrite elem_of_list_to_set, list_elem_of_In, in_map_iff. split.
  - intros [s H]. apply find_some in H as [Hin Heq].
    apply String.eqb_eq in Heq. exists s. split; assumption.
  - intros (s & Hid & Hin).
    destruct (find _ sections) as [s'|] eqn:E; [eauto|].
    apply (find_none _ _ E) in Hin. simpl in Hin.
    rewrite Hid, String.eqb_refl in Hin. discriminate.
Qed.

Lemma not_in_toc_iff toc s :
  not_in_toc toc s = true <-> section_id (heading s) ∉ heading_ids toc.
Proof.
  unfold not_in_toc, heading_ids.
  rewrite elem_of_list_to_set, list_elem_of_In, in_map_iff, negb_true_iff.
  rewrite <- not_true_iff_false, existsb_exists. split.
  - intros H (e & He & Hin). apply H. exists e. split; [exact Hin|].
    apply String.eqb_eq, He.
  - intros H (e & Hin & He). apply H. exists e. split; [|exact Hin].
    apply String.eqb_eq, He.
Qed.

Lemma heading_id_in toc e : In e toc -> section_id e ∈ heading_ids toc.
Proof.
  intros H. unfold heading_ids.
  apply elem_of_list_to_set, list_elem_of_In, in_map, H.
Qed.

(** The loop reports nothing exactly when every heading has the page of
    the first section entry with its section number, if there is one. *)
Lemma order_loop_empty toc sections l acc acc' :
  incl l toc ->
  foldM (check_order (heading_ids toc ∩ content_ids sections) sections) l acc
    = Ok acc' ->
  (acc' = [] <->
   acc = [] /\
   forall e s, In e l -> parsed_entry_of sections (section_id e) = Some s ->
               page e = page (heading s)).
Proof.
  revert acc. induction l as [|e l IH]; simpl; intros acc Hincl H.
  - injection H as <-. split; [intros ->; split; [reflexivity | tauto] | tauto].
  - apply bind_Ok in H as (acc1 & H1 & H).
    assert (Hincl' : incl l toc) by (intros x Hx; apply Hincl; right; exact Hx).
    rewrite (IH acc1 Hincl' H). clear IH H.
    assert (He : section_id e ∈ heading_ids toc).
    { apply heading_id_in, Hincl. left. reflexivity. }
    unfold check_order in H1. case_bool_decide as Hc.
    + apply bind_Ok in H1 as (s & Hs & H1).
      unfold next_with_id in Hs.
      destruct (find _ sections) as [s'|] eqn:Ef; [|discriminate].
      injection Hs as ->.
      destruct (Z.eqb_spec (page e) (page (heading s))) as [Heq|Hne];
        simpl in H1; injection H1 as <-.
      * split; intros [Ha Hall]; (split; [exact Ha|]).
        -- intros e0 s0 [<-|Hin] Hf; [|apply (Hall e0 s0 Hin Hf)].
           unfold parsed_entry_of in Hf. rewrite Ef in Hf.
           injection Hf as <-. exact Heq.
        -- intros e0 s0 Hin. apply Hall. right. exact Hin.
      * split.
        -- intros [Ha _]. destruct acc; discriminate Ha.
        -- intros [_ Hall]. exfalso. apply Hne.
           apply (Hall e s (or_introl eq_refl)). exact Ef.
    + injection H1 as <-.
      split; intros [Ha Hall]; (split; [exact Ha|]).
      * intros e0 s0 [<-|Hin] Hf; [|apply (Hall e0 s0 Hin Hf)].
        exfalso. apply Hc. apply elem_of_intersection. split; [exact He|].
        apply parsed_entry_of_Some. exists s0. exact Hf.
      * intros e0 s0 Hin. apply Hall. right. exact Hin.
Qed.

(** The status of a row tells where the section number occurs. *)
Lemma row_status_cases toc sections row :
  In row (map (toc_row sections) toc ++
          map extra_row (List.filter (not_in_toc toc) sections)) ->
  (row_status row = "EXTRA" <-> row_section_id row ∉ heading_ids toc) /\
  (row_status row = "MISSING" <->
   row_section_id row ∈ heading_ids toc /\
   row_section_id row ∉ content_ids sections) /\
  (row_status row = "OK" <->
   row_section_id row ∈ heading_ids toc /\
   row_section_id row ∈ content_ids sections).
Proof.
  intros H. apply in_app_or in H as [H|H].
  - apply in_map_iff in H as (e & <- & He).
    pose proof (heading_id_in toc e He) as Hid.
    pose proof (parsed_entry_of_Some sections (section_id e)) as Hp.
    unfold toc_row. simpl.
    destruct (parsed_entry_of sections (section_id e)) as [s|].
    + assert (Hc : section_id e ∈ content_ids sections) by (apply Hp; eauto).
      split; [split; [discriminate | contradiction]|].
      split; [split; [discriminate | intros [_ ?]; contradiction]|].
      split; [intros _; split; assumption | reflexivity].
    + assert (Hc : section_id e ∉ content_ids sections).
      { intros Hc. apply Hp in Hc as [s Hs]. discriminate. }
      split; [split; [discriminate | contradiction]|].
      split; [split; [intros _; split; assumption | reflexivity]|].
      split; [discriminate | intros [_ ?]; contradiction].
  - apply in_map_iff in H as (s & <- & Hs). apply filter_In in Hs as [Hs Hnot].
    apply not_in_toc_iff in Hnot. unfold extra_row. simpl.
    split; [split; [intros _; exact Hnot | reflexivity]|].
    split; (split; [discriminate | intros [? _]; contradiction]).
Qed.

(** *** Markers *)

Lemma find_starts sub s i :
  PyText.find sub s = Some i ->
  PyStr.starts_with sub (PyText.drop i s) = true.
Proof.
  revert i. induction s as [|a s IH]; intros i; cbn [PyText.find].
  - destruct (PyStr.starts_with sub EmptyString) eqn:E; [|discriminate].
    intros [= <-]. exact E.
  - destruct (PyStr.starts_with sub (String a s)) eqn:E.
    + intros [= <-]. exact E.
    + destruct (PyText.find sub s) as [j|]; [|discriminate].
      intros [= <-]. simpl. apply IH. reflexivity.
Qed.

(** [s.find(sub) == -1] exactly when [sub not in s]. *)
Lemma find_None_contains sub s :
  PyText.find sub s = None <-> PyStr.contains sub s = false.
Proof.
  induction s as [|a s IH]; cbn [PyText.find PyStr.contains].
  - destruct (PyStr.starts_with sub EmptyString); simpl; split;
      solve [discriminate | reflexivity].
  - destruct (PyStr.starts_with sub (String a s)); simpl.
    + split; discriminate.
    + rewrite <- IH. destruct (PyText.find sub s); simpl; split;
        solve [discriminate | reflexivity].
Qed.

Lemma starts_with_trans a b s :
  PyStr.starts_with a b = true -> PyStr.starts_with b s = true ->
  PyStr.starts_with a s = true.
Proof.
  revert b s. induction a as [|x a IH]; intros b s; [reflexivity|].
  destruct b as [|y b]; [discriminate|]. destruct s as [|z s]; [discriminate|].
  simpl. intros H1 H2.
  apply andb_true_iff in H1 as [E1 H1]. apply andb_true_iff in H2 as [E2 H2].
  apply Ascii.eqb_eq in E1. apply Ascii.eqb_eq in E2. subst.
  rewrite Ascii.eqb_refl. simpl. eapply IH; eassumption.
Qed.

Lemma find_at_start sub s :
  PyStr.starts_with sub s = true -> PyText.find sub s = Some 0%nat.
Proof. intros H. destruct s; cbn [PyText.find]; rewrite H; reflexivity. Qed.

(** The entry of a level in the distribution: none for a level without
    heading, the number of its headings otherwise. *)
Lemma count_levels_lookup l toc (dist : gmap Z Z) :
  fold_left count_level toc dist !! l =
    match at_level l toc with
    | [] => dist !! l
    | _ :: _ => Some (default 0 (dist !! l) + len (at_level l toc))
    end.
Proof.
  revert dist. induction toc as [|e toc IH]; intros dist; [reflexivity|].
  cbn [fold_left]. rewrite IH. unfold count_level, at_level.
  cbn [List.filter]. fold (at_level l toc).
  destruct (Z.eqb_spec (level e) l) as [->|Hne].
  - rewrite lookup_insert_eq. simpl default.
    destruct (at_level l toc) as [|x tl]; unfold len; simpl length;
      f_equal; lia.
  - rewrite lookup_insert_ne by exact Hne. reflexivity.
Qed.

Lemma size_list_to_set_le (l : list string) :
  (size (list_to_set l : gset string) <= length l)%nat.
Proof.
  induction l as [|x l IH].
  - rewrite list_to_set_nil, size_empty. reflexivity.
  - rewrite list_to_set_cons. simpl length.
    pose proof (size_union_alt ({[x]} : gset string) (list_to_set l)) as H.
    rewrite H, size_singleton.
    assert (Hsub : (list_to_set l ∖ {[x]} : gset string) ⊆ list_to_set l).
    { intros y Hy. apply elem_of_difference in Hy. tauto. }
    apply subseteq_size in Hsub. lia.
Qed.

(** *** The order of the report *)

Lemma report_key_row x :
  key_ok (row_section_id x) = true -> report_key x = Ok (row_key x).
Proof.
  unfold key_ok, report_key, row_key. intros H. apply mapM_map.
  rewrite forallb_forall in H.
  apply List.Forall_forall. intros n Hn. apply filter_In in Hn as [Hin Hn].
  apply int_literal_ok. specialize (H n Hin). rewrite Hn in H. exact H.
Qed.

Lemma wf_key_ok id : wf_id id = true -> key_ok id = true.
Proof.
  unfold wf_id, key_ok. rewrite !forallb_forall. intros H n Hn.
  rewrite (H n Hn). apply orb_true_r.
Qed.

Lemma keyed_sorted {A : Type} (key : A -> list Z) (l : list A) :
  StronglySorted (fun a b => lex_le (key a) (key b))
    (map snd (sort_pairs (map (fun x => (key x, x)) l))).
Proof.
  apply (StronglySorted_map snd (fun a b => lex_le (key a) (key b))).
  set (ps := map (fun x => (key x, x)) l).
  assert (Hk : Forall (fun p => fst p = key (snd p)) (sort_pairs ps)).
  { eapply Permutation_Forall; [apply sort_pairs_perm|].
    subst ps. apply List.Forall_forall. intros p Hp.
    apply in_map_iff in Hp as (e & <- & _). reflexivity. }
  pose proof (sort_pairs_sorted ps) as Hs.
  induction Hs as [|p tl Hs IH Hall]; constructor.
  - apply IH. inversion Hk; assumption.
  - inversion Hk as [|? ? Hp Htl]; subst.
    rewrite List.Forall_forall in *. intros q Hq.
    rewrite <- Hp, <- (Htl q Hq). apply Hall, Hq.
Qed.

(** Sorting rows whose keys can be computed returns, and sorts them by
    their keys. *)
Lemma sort_rows_ok (l : list report_row) :
  Forall (fun x => key_ok (row_section_id x) = true) l ->
  exists rows,
    sort_by_key report_key l = Ok rows /\
    Permutation l rows /\
    StronglySorted (fun a b => lex_le (row_key a) (row_key b)) rows.
Proof.
  intros Hkeys.
  assert (E : sort_by_key report_key l =
                Ok (map snd (sort_pairs (map (fun x => (row_key x, x)) l)))).
  { unfold sort_by_key.
    assert (Hks : mapM report_key l = Ok (map row_key l)).
    { apply mapM_map. eapply List.Forall_impl; [|exact Hkeys].
      intros x Hx. apply report_key_row, Hx. }
    rewrite Hks. cbn [bind]. rewrite combine_map_key. reflexivity. }
  eexists. split; [exact E|]. split.
  - apply (sort_by_key_perm report_key), E.
  - apply keyed_sorted.
Qed.

End ReportFacts.

(** ** The clean-up of titles *)

Module TitleFacts.
Import Re PyStrFacts ClaimFacts LineFacts.

Lemma matchk_Cls ic cl st c k :
  matchk ic (Cls cl) st c k =
    match rest st with
    | String b s' => if in_cls cl b then k (advance st s') c else None
    | EmptyString => None
    end.
Proof. reflexivity. Qed.

Lemma matchk_Lit ic a st c k :
  matchk ic (Lit a) st c k =
    match rest st with
    | String b s' => if lit_eqb ic b a then k (advance st s') c else None
    | EmptyString => None
    end.
Proof. reflexivity. Qed.

Lemma matchk_Seq ic r1 r2 st c k :
  matchk ic (Seq r1 r2) st c k =
    matchk ic r1 st c (fun st' c' => matchk ic r2 st' c' k).
Proof. reflexivity. Qed.

Lemma matchk_Star ic g r st c k :
  matchk ic (Star g r) st c k =
    star_loop (matchk ic r) g k (String.length (rest st)) st c.
Proof. reflexivity. Qed.

Lemma matchk_Bol ic st c k :
  matchk ic Bol st c k = if (pos st =? 0)%nat then k st c else None.
Proof. reflexivity. Qed.

Lemma star_loop_greedy body k fuel st c :
  star_loop body true k (S fuel) st c =
    match body st c (fun st' c' =>
                       if (pos st <? pos st')%nat
                       then star_loop body true k fuel st' c' else None) with
    | Some x => Some x
    | None => k st c
    end.
Proof. reflexivity. Qed.

(** A greedy run of whitespace that ends the pattern reads all the
    whitespace there is. *)
Lemma star_spaces ic fuel st c :
  (String.length (rest st) <= fuel)%nat ->
  exists st',
    star_loop (matchk ic (Cls Space)) true (fun st c => Some (st, c)) fuel st c
      = Some (st', c) /\
    rest st' = PyStr.lstrip (rest st) /\ (pos st <= pos st')%nat.
Proof.
  revert st c. induction fuel as [|fuel IH]; intros [p r] c Hlen;
    cbn [rest pos] in *.
  - destruct r; [|simpl in Hlen; lia].
    exists (MState p EmptyString). repeat split; auto.
  - rewrite star_loop_greedy, matchk_Cls. cbn [rest pos].
    destruct r as [|b r'].
    + exists (MState p EmptyString). repeat split; auto.
    + change (in_cls Space b) with (PyStr.is_space b). cbn [PyStr.lstrip].
      destruct (PyStr.is_space b) eqn:Eb.
      * unfold advance. cbn [pos rest].
        replace (p <? S p)%nat with true by (symmetry; apply Nat.ltb_lt; lia).
        destruct (IH (MState (S p) r') c) as (st' & E & Hr & Hp);
          [simpl in *; lia|].
        rewrite E. exists st'. split; [reflexivity|].
        split; [exact Hr | simpl in Hp; lia].
      * exists (MState p (String b r')). repeat split; auto.
Qed.

Lemma match_end_spaces_some st a s' :
  rest st = String a s' -> PyStr.is_space a = true ->
  exists st',
    match_end false Patterns.spaces st = Some st' /\
    rest st' = PyStr.lstrip s' /\ (pos st < pos st')%nat.
Proof.
  intros Hr Ha. unfold match_end, Patterns.spaces, Plus.
  rewrite matchk_Seq, matchk_Cls, Hr.
  change (in_cls Space a) with (PyStr.is_space a). rewrite Ha.
  rewrite matchk_Star.
  destruct (star_spaces false (String.length (rest (advance st s')))
              (advance st s') [] (le_n _)) as (st' & E & Hr' & Hp).
  rewrite E. exists st'. split; [reflexivity|].
  split; [exact Hr' | simpl in Hp; lia].
Qed.

Lemma match_end_spaces_none st :
  match rest st with
  | String a _ => PyStr.is_space a = false
  | EmptyString => True
  end ->
  match_end false Patterns.spaces st = None.
Proof.
  intros H. unfold match_end, Patterns.spaces, Plus.
  rewrite matchk_Seq, matchk_Cls.
  destruct (rest st) as [|a s']; [reflexivity|].
  change (in_cls Space a) with (PyStr.is_space a). rewrite H. reflexivity.
Qed.

(** *** Texts without whitespace at their ends *)

Lemma lstrip_fixed_head a r :
  PyStr.lstrip (String a r) = String a r -> PyStr.is_space a = false.
Proof.
  simpl. destruct (PyStr.is_space a); [|reflexivity].
  intros H. pose proof (lstrip_length r) as Hl. rewrite H in Hl.
  simpl in Hl. lia.
Qed.

Lemma lstrip_lstrip s : PyStr.lstrip (PyStr.lstrip s) = PyStr.lstrip s.
Proof.
  induction s as [|a s IH]; simpl; [reflexivity|].
  destruct (PyStr.is_space a) eqn:E; [exact IH|]. simpl. rewrite E. reflexivity.
Qed.

Lemma rstrip_fixed_tail a s :
  PyStr.rstrip (String a s) = String a s -> PyStr.rstrip s = s.
Proof.
  simpl. destruct (PyStr.is_space a && PyStr.is_empty (PyStr.rstrip s));
    [discriminate|]. intros [= H]. exact H.
Qed.

Lemma rstrip_fixed_lstrip s :
  PyStr.rstrip s = s -> PyStr.rstrip (PyStr.lstrip s) = PyStr.lstrip s.
Proof.
  induction s as [|a s IH]; intros H; [reflexivity|].
  cbn [PyStr.lstrip]. destruct (PyStr.is_space a); [|exact H].
  apply IH, (rstrip_fixed_tail a s H).
Qed.

Lemma lstrip_empty_blank s : PyStr.lstrip s = EmptyString -> blank s = true.
Proof.
  induction s as [|a s IH]; simpl; [reflexivity|].
  destruct (PyStr.is_space a); [exact IH | discriminate].
Qed.

(** What [strip] returns has no whitespace at either end. *)
Lemma strip_ends s :
  PyStr.lstrip (PyStr.strip s) = PyStr.strip s /\
  PyStr.rstrip (PyStr.strip s) = PyStr.strip s.
Proof.
  unfold PyStr.strip. split; [|apply rstrip_idem].
  destruct (PyStr.lstrip s) as [|a t] eqn:E; [reflexivity|].
  pose proof (lstrip_head s a t E) as Ha.
  rewrite (rstrip_cons a t Ha). simpl. rewrite Ha. reflexivity.
Qed.

Lemma ends_strip s :
  PyStr.lstrip s = s -> PyStr.rstrip s = s -> PyStr.strip s = s.
Proof. intros Hl Hr. unfold PyStr.strip. rewrite Hl. exact Hr. Qed.

(** *** The replacement of whitespace runs *)

Lemma sub_spaces_step_none fuel st :
  match rest st with
  | String a _ => PyStr.is_space a = false
  | EmptyString => True
  end ->
  sub_from false (S fuel) Patterns.spaces " " st =
    match rest st with
    | EmptyString => EmptyString
    | String a s' =>
        String a (sub_from false fuel Patterns.spaces " " (advance st s'))
    end.
Proof.
  intros H. cbn [sub_from]. rewrite (match_end_spaces_none st H). reflexivity.
Qed.

Lemma sub_spaces_props fuel st :
  (String.length (rest st) < fuel)%nat ->
  squeezed (sub_from false fuel Patterns.spaces " " st) = true /\
  (PyStr.lstrip (rest st) = rest st ->
   PyStr.lstrip (sub_from false fuel Patterns.spaces " " st)
   = sub_from false fuel Patterns.spaces " " st) /\
  (PyStr.rstrip (rest st) = rest st ->
   PyStr.rstrip (sub_from false fuel Patterns.spaces " " st)
   = sub_from false fuel Patterns.spaces " " st) /\
  PyStr.is_empty (sub_from false fuel Patterns.spaces " " st)
  = PyStr.is_empty (rest st).
Proof.
  revert st. induction fuel as [|fuel IH]; intros st Hlen; [lia|].
  destruct (rest st) as [|a s'] eqn:Er.
  - rewrite sub_spaces_step_none by (rewrite Er; exact I). rewrite Er.
    repeat split; reflexivity.
  - simpl in Hlen. destruct (PyStr.is_space a) eqn:Ea.
    + destruct (match_end_spaces_some st a s' Er Ea) as (st' & E & Hr & Hp).
      cbn [sub_from]. rewrite E.
      replace (pos st <? pos st')%nat with true
        by (symmetry; apply Nat.ltb_lt; exact Hp).
      rewrite append_cons, append_nil.
      pose proof (lstrip_length s') as Hl.
      destruct (IH st' ltac:(rewrite Hr; lia)) as (Hsq & Hls & Hrs & Hem).
      rewrite Hr in Hls, Hrs, Hem.
      specialize (Hls (lstrip_lstrip s')).
      set (out := sub_from false fuel Patterns.spaces " " st') in *.
      split; [|split; [|split; [|reflexivity]]].
      * cbn [squeezed]. rewrite Hsq.
        change (PyStr.is_space " ") with true. simpl negb. simpl orb.
        destruct out as [|b out']; [reflexivity|].
        rewrite (lstrip_fixed_head b out' Hls). reflexivity.
      * intros H. apply lstrip_fixed_head in H. congruence.
      * intros H. pose proof (rstrip_fixed_tail a s' H) as Hs'.
        specialize (Hrs (rstrip_fixed_lstrip s' Hs')).
        assert (Hne : PyStr.is_empty (PyStr.lstrip s') = false).
        { destruct (PyStr.lstrip s') eqn:El; [|reflexivity].
          apply lstrip_empty_blank in El.
          simpl in H. rewrite Ea, (blank_rstrip s' El) in H. discriminate. }
        cbn [PyStr.rstrip]. rewrite Hrs, Hem, Hne.
        rewrite andb_false_r. reflexivity.
    + rewrite sub_spaces_step_none by (rewrite Er; exact Ea). rewrite Er.
      destruct (IH (advance st s') ltac:(simpl; lia)) as (Hsq & _ & Hrs & _).
      cbn [rest advance] in Hrs.
      set (out := sub_from false fuel Patterns.spaces " " (advance st s')) in *.
      split; [|split; [|split; [|reflexivity]]].
      * cbn [squeezed]. rewrite Ea, Hsq. reflexivity.
      * intros _. simpl. rewrite Ea. reflexivity.
      * intros H. rewrite (rstrip_cons a s' Ea) in H. injection H as H.
        rewrite (rstrip_cons a out Ea), (Hrs H). reflexivity.
Qed.

(** Whitespace runs replaced by one space each: the text is normalised,
    and it gets no whitespace at its ends. *)
Lemma sub_spaces_squeezed s :
  squeezed (Re.sub false Patterns.spaces " " s) = true /\
  (PyStr.lstrip s = s -> PyStr.rstrip s = s ->
   PyStr.strip (Re.sub false Patterns.spaces " " s)
   = Re.sub false Patterns.spaces " " s).
Proof.
  unfold Re.sub.
  destruct (sub_spaces_props (S (String.length s)) (MState 0 s)
              ltac:(simpl; lia)) as (Hsq & Hls & Hrs & _).
  split; [exact Hsq|]. intros Hl Hr.
  apply ends_strip; [apply Hls, Hl | apply Hrs, Hr].
Qed.

(** *** The removal of a leading dash *)

Lemma match_end_dash_later st :
  (1 <= pos st)%nat -> match_end false Patterns.leading_dash st = None.
Proof.
  intros Hp. unfold match_end, Patterns.leading_dash. cbn [Patterns.seqs].
  rewrite matchk_Seq, matchk_Bol.
  destruct (pos st); [lia | reflexivity].
Qed.

Lemma sub_dash_copy fuel st :
  (1 <= pos st)%nat ->
  sub_from false fuel Patterns.leading_dash EmptyString st = rest st.
Proof.
  revert st. induction fuel as [|fuel IH]; intros st Hp; [reflexivity|].
  cbn [sub_from]. rewrite (match_end_dash_later st Hp).
  destruct (rest st) as [|a s']; [reflexivity|].
  rewrite IH by (simpl; lia). reflexivity.
Qed.

Lemma match_end_dash_first a r :
  PyStr.is_space a = false ->
  match_end false Patterns.leading_dash (MState 0 (String a r)) =
    if Ascii.eqb a "-"
    then match_end false Patterns.spaces0 (MState 1 r)
    else None.
Proof.
  intros Ha. unfold match_end, Patterns.leading_dash. cbn [Patterns.seqs].
  rewrite matchk_Seq, matchk_Bol. cbn [pos Nat.eqb].
  rewrite matchk_Seq. unfold Patterns.spaces0 at 1. rewrite matchk_Star.
  cbn [rest String.length]. rewrite star_loop_greedy, matchk_Cls.
  cbn [rest]. change (in_cls Space a) with (PyStr.is_space a). rewrite Ha.
  rewrite matchk_Seq, matchk_Lit. cbn [rest].
  change (lit_eqb false a "-") with (Ascii.eqb a "-").
  destruct (Ascii.eqb a "-"); reflexivity.
Qed.

(** The removal of a leading dash from a text that does not start with
    whitespace. *)
Lemma sub_dash s :
  PyStr.lstrip s = s ->
  Re.sub false Patterns.leading_dash EmptyString s =
    match s with
    | String a r => if Ascii.eqb a "-" then PyStr.lstrip r else s
    | EmptyString => EmptyString
    end.
Proof.
  intros Hl. destruct s as [|a r]; [reflexivity|].
  apply lstrip_fixed_head in Hl. unfold Re.sub. cbn [sub_from].
  rewrite (match_end_dash_first a r Hl).
  destruct (Ascii.eqb a "-").
  - unfold match_end, Patterns.spaces0. rewrite matchk_Star.
    destruct (star_spaces false (String.length r) (MState 1 r) [] (le_n _))
      as (st' & E & Hr & Hp).
    cbn [rest] in *. rewrite E. cbn [pos] in Hp |- *.
    replace (0 <? pos st')%nat with true by (symmetry; apply Nat.ltb_lt; lia).
    rewrite append_nil, sub_dash_copy by lia. exact Hr.
  - cbn [rest]. rewrite sub_dash_copy by (simpl; lia). reflexivity.
Qed.

Lemma sub_dash_ends s :
  PyStr.lstrip s = s -> PyStr.rstrip s = s ->
  PyStr.lstrip (Re.sub false Patterns.leading_dash EmptyString s)
  = Re.sub false Patterns.leading_dash EmptyString s /\
  PyStr.rstrip (Re.sub false Patterns.leading_dash EmptyString s)
  = Re.sub false Patterns.leading_dash EmptyString s.
Proof.
  intros Hl Hr. rewrite (sub_dash s Hl).
  destruct s as [|a r]; [split; reflexivity|].
  destruct (Ascii.eqb a "-"); [|split; assumption].
  split; [apply lstrip_lstrip|].
  apply rstrip_fixed_lstrip, (rstrip_fixed_tail a r Hr).
Qed.

(** The title of a heading built from a match. *)
Lemma entry_of_match_title m doc e :
  entry_of_match m doc = Ok e ->
  exists g2,
    title e =
      Re.sub false Patterns.spaces " "
        (Re.sub false Patterns.leading_dash EmptyString (PyStr.strip g2)).
Proof.
  unfold entry_of_match. intros H.
  apply bind_Ok in H as (g1 & _ & H). apply bind_Ok in H as (g2 & _ & H).
  apply bind_Ok in H as (g3 & _ & H). apply bind_Ok in H as (pg & _ & H).
  injection H as <-. exists g2. reflexivity.
Qed.

End TitleFacts.

(** ** The further properties *)

Import SortFacts LineFacts TagFacts ScanFacts SpanFacts ReportFacts TitleFacts.

Ltac sorted_headings :=
  repeat first [apply SSorted_nil | apply List.Forall_nil
               | apply SSorted_cons | apply List.Forall_cons];
  unfold id_le; vm_compute; intuition reflexivity.

(** X1. On a line of at most 4300 characters (the most digits that [int]
    takes in a numeral) the line parser does not raise: for every document
    title it returns a heading or [None]. A heading it returns carries the
    document title, a section number made of numerals joined by dots, a
    page that is not negative, the full path "<section number> <title>"
    and the tags of its title. *)
Theorem X1_line_parser_returns line doc :
  short line = true ->
  exists r,
    extract_toc_entry line doc = Ok r /\
    forall e, r = Some e ->
      doc_title e = doc /\ wf_id (section_id e) = true /\ 0 <= page e /\
      full_path e = (section_id e ++ " " ++ title e)%string /\
      tags e = generate_tags (title e).
Proof.
  intros Hs.
  destruct (ParserFacts.extract_toc_entry_ok line doc Hs) as (r & E & Hr).
  exists r. split; [exact E|]. intros e ->.
  destruct (Hr e eq_refl) as ((Hd & _ & Hp & _) & Hwf).
  unfold extract_toc_entry in E.
  destruct (PyStr.is_empty (PyStr.strip line)); [discriminate|].
  apply try_patterns_built in E as [m Hm].
  apply entry_of_match_fields in Hm as [Hf Ht].
  split; [exact Hd|]. split; [exact Hwf|]. split; [exact Hp|].
  split; [exact Hf | exact Ht].
Qed.

(** X1 at a line of 4300 characters: "1 a " followed by 4296 nines. *)
Lemma X1_line_parser_witness :
  short Samples.longest_line = true /\
  exists r,
    extract_toc_entry Samples.longest_line "Doc" = Ok r /\
    forall e, r = Some e ->
      doc_title e = "Doc" /\ wf_id (section_id e) = true /\ 0 <= page e /\
      full_path e = (section_id e ++ " " ++ title e)%string /\
      tags e = generate_tags (title e).
Proof.
  split; [vm_compute; reflexivity|].
  apply X1_line_parser_returns. vm_compute. reflexivity.
Defined.

(** X2. A line gets no heading when its first character that is not
    whitespace, if it has one, is neither a digit nor one of the letters C
    and S in either case: only a section number, "Chapter" or "Section" can
    start a heading line. Blank lines are among these lines. *)
Theorem X2_other_lines_give_no_heading line doc :
  (forall a t, PyStr.lstrip line = String a t -> may_start_heading a = false) ->
  extract_toc_entry line doc = Ok None.
Proof.
  intros H. apply blank_or_rejected.
  destruct (PyStr.lstrip line) as [|a t]; [exact I | apply (H a t eq_refl)].
Qed.

(** X2 at an indented line that starts with the letter T. *)
Lemma X2_other_lines_witness :
  extract_toc_entry "  Table of Contents ..... 3" "Doc" = Ok None.
Proof.
  apply X2_other_lines_give_no_heading.
  intros a t H. vm_compute in H. injection H as <- _. reflexivity.
Defined.

(** X3. Whitespace before and after a line does not change what the line
    parser returns for it. *)
Theorem X3_surrounding_whitespace_is_ignored ws1 line ws2 doc :
  blank ws1 = true -> blank ws2 = true ->
  extract_toc_entry (ws1 ++ line ++ ws2)%string doc = extract_toc_entry line doc.
Proof.
  intros H1 H2. unfold extract_toc_entry.
  rewrite (strip_blank_around ws1 line ws2 H1 H2). reflexivity.
Qed.

(** X3 at a heading line between two spaces and a tabulation. *)
Lemma X3_surrounding_whitespace_witness :
  extract_toc_entry ("  " ++ "2.1 Power ..... 5" ++ String "009" EmptyString)%string
    "Doc"
  = extract_toc_entry "2.1 Power ..... 5" "Doc".
Proof.
  apply X3_surrounding_whitespace_is_ignored; reflexivity.
Defined.

(** X4. The tags of a title are a selection of the eight tags in their
    fixed order (so no tag occurs twice), and they do not depend on the case
    of the letters of the title. *)
Theorem X4_tags_are_a_selection title :
  sublist (generate_tags title) all_tags /\
  generate_tags (PyStr.lower title) = generate_tags title.
Proof.
  split; [apply tags_sublist|].
  unfold generate_tags. rewrite lower_idem. reflexivity.
Qed.

(** X5. Scanning the TOC of the same document a second time changes
    nothing: the parser that [extract_toc] returns is returned again by
    [extract_toc], with the same headings and the same list of TOC pages. *)
Theorem X5_second_scan_changes_nothing cfg pdf self self1 :
  extract_toc cfg pdf self = Ok self1 ->
  extract_toc cfg pdf self1 = Ok self1.
Proof. apply extract_toc_again. Qed.

(** X5 at a document with a TOC page of two headings. *)
Lemma X5_second_scan_witness :
  exists self1,
    extract_toc cfg two_sections (init "Doc") = Ok self1 /\
    extract_toc cfg two_sections self1 = Ok self1.
Proof.
  eexists. split; [vm_compute; reflexivity|].
  apply (X5_second_scan_changes_nothing cfg two_sections (init "Doc")).
  vm_compute. reflexivity.
Defined.

(** X6. When [extract_toc] returns, each heading it stores has a page
    between 1 and the smaller of the number of pages to scan and the number
    of pages of the document, and the document title of the parser; the
    total number of pages is that of the document; the section entries are
    left as they were; the TOC pages afterwards are those recorded before
    and the pages of the stored headings; and when there is no page to
    scan the TOC is empty. *)
Theorem X6_scan_stays_in_the_scanned_pages cfg pdf self self' :
  extract_toc cfg pdf self = Ok self' ->
  Forall (fun e => 1 <= page e <= Z.min (TOC_SCAN_PAGES cfg) (len pdf) /\
                   doc_title e = self_doc_title self) (toc_entries self') /\
  total_pages (metadata self') = len pdf /\
  section_entries self' = section_entries self /\
  (forall p, In p (toc_pages (metadata self')) <->
             In p (toc_pages (metadata self)) \/
             exists e, In e (toc_entries self') /\ page e = p) /\
  (Z.min (TOC_SCAN_PAGES cfg) (len pdf) <= 0 -> toc_entries self' = []).
Proof.
  intros E.
  destruct (extract_toc_found cfg pdf self self' E) as (new & Hnew & _ & H).
  rewrite (H self eq_refl) in E. injection E as <-.
  cbn [toc_entries metadata total_pages section_entries toc_pages].
  assert (Hsorted :
            Forall (fun e => 1 <= page e <= Z.min (TOC_SCAN_PAGES cfg) (len pdf)
                             /\ doc_title e = self_doc_title self
                             /\ wf_id (section_id e) = true
                             /\ derived_fields e) (sorted_by_id new)).
  { eapply Permutation_Forall; [apply keyed_perm | exact Hnew]. }
  split.
  { eapply List.Forall_impl; [|exact Hsorted].
    intros e (Hp & Hd & _). split; assumption. }
  split; [reflexivity|]. split; [reflexivity|]. split.
  - intros p. split.
    + intros Hin. apply add_pages_in in Hin as [Hin|Hin]; [left; exact Hin|].
      right. apply in_map_iff in Hin as (e & <- & He).
      exists e. split; [|reflexivity].
      eapply Permutation_in; [apply keyed_perm | exact He].
    + intros [Hin|(e & He & <-)]; [apply add_pages_keep, Hin|].
      apply add_pages_add, in_map.
      eapply Permutation_in; [symmetry; apply keyed_perm | exact He].
  - intros Hmin. destruct new as [|e new]; [reflexivity|].
    inversion Hnew as [|? ? (Hp & _) _]; subst. lia.
Qed.

(** X6 at a document with a TOC page of two headings. *)
Lemma X6_scan_witness :
  exists self',
    extract_toc cfg two_sections (init "Doc") = Ok self' /\
    Forall (fun e => 1 <= page e <= 2 /\ doc_title e = "Doc")
      (toc_entries self') /\
    total_pages (metadata self') = 2.
Proof.
  eexists. split; [vm_compute; reflexivity|].
  destruct (X6_scan_stays_in_the_scanned_pages cfg two_sections (init "Doc") _
              ltac:(vm_compute; reflexivity)) as (H1 & H2 & _).
  split; [exact H1 | exact H2].
Defined.

(** X7. When [extract_sections] returns, the headings of the section
    entries, in their order, are headings of the TOC in its order, one entry
    at most for each heading of the TOC; the count of sections in the
    metadata is the number of section entries; and a TOC that was not empty
    is left as it was. *)
Theorem X7_sections_follow_the_toc cfg pdf self self' :
  extract_sections cfg pdf self = Ok self' ->
  sublist (map heading (section_entries self')) (toc_entries self') /\
  sections_count (metadata self') = len (section_entries self') /\
  (toc_entries self <> [] -> toc_entries self' = toc_entries self).
Proof.
  intros H. apply extract_sections_shape in H as (H1 & H2 & H3 & _).
  split; [exact H1|]. split; [exact H2 | exact H3].
Qed.

(** X7 at a document with a TOC page of two headings. *)
Lemma X7_sections_follow_witness :
  exists self',
    extract_sections cfg two_sections (init "Doc") = Ok self' /\
    sublist (map heading (section_entries self')) (toc_entries self') /\
    sections_count (metadata self') = len (section_entries self').
Proof.
  eexists. split; [vm_compute; reflexivity|].
  destruct (X7_sections_follow_the_toc cfg two_sections (init "Doc") _
              ltac:(vm_compute; reflexivity)) as (H1 & H2 & _).
  split; [exact H1 | exact H2].
Defined.

(** X8. For a parser without TOC and a document whose pages to scan have
    lines of at most 4300 characters, [extract_sections] returns, and it
    does what [extract_toc] followed by [extract_sections] does: the TOC is
    the one of the scan, and every section entry starts on one of the
    scanned pages. *)
Theorem X8_sections_of_a_parser_without_toc cfg pdf self :
  toc_entries self = [] ->
  short_lines (scanned cfg pdf) = true ->
  exists self1 self2,
    extract_toc cfg pdf self = Ok self1 /\
    extract_sections cfg pdf self1 = Ok self2 /\
    extract_sections cfg pdf self = Ok self2 /\
    toc_entries self2 = toc_entries self1 /\
    Forall (fun s => 1 <= page (heading s)
                       <= Z.min (TOC_SCAN_PAGES cfg) (len pdf))
      (section_entries self2).
Proof.
  intros Htoc Hshort.
  destruct (TocFacts.extract_toc_returns cfg pdf self Hshort) as (self1 & H).
  destruct (extract_toc_found cfg pdf self self1 H) as (new & Hnew & _ & Hall).
  assert (Hself1 := H). rewrite (Hall self eq_refl) in Hself1.
  injection Hself1 as Hself1.
  assert (Hq : Forall (fun e => 1 <= page e <= Z.min (TOC_SCAN_PAGES cfg) (len pdf)
                                /\ doc_title e = self_doc_title self
                                /\ wf_id (section_id e) = true
                                /\ derived_fields e)
                 (toc_entries self1)).
  { rewrite <- Hself1. cbn [toc_entries].
    eapply Permutation_Forall; [apply keyed_perm | exact Hnew]. }
  assert (Hres : Forall resolvable (toc_entries self1)).
  { eapply List.Forall_impl; [|exact Hq].
    intros e ((Hp & _) & _ & Hwf & _). split; assumption. }
  destruct (RangeFacts.extract_sections_ok cfg pdf self1 Hres (fun _ => Hshort))
    as (self2 & E2 & _ & Hcopies).
  assert (Hm : match toc_entries self1 with
               | [] => extract_toc cfg pdf self1
               | _ :: _ => Ok self1
               end = Ok self1).
  { destruct (toc_entries self1);
      [apply (extract_toc_again cfg pdf self), H | reflexivity]. }
  assert (E2' := E2). unfold extract_sections in E2'.
  rewrite Hm in E2'. cbn [bind] in E2'.
  exists self1, self2. split; [exact H|]. split; [exact E2|]. split.
  { unfold extract_sections. rewrite Htoc, H. cbn [bind]. exact E2'. }
  apply bind_Ok in E2' as (sections & _ & E2'). injection E2' as <-.
  cbn [toc_entries section_entries] in *.
  split; [reflexivity|].
  unfold copies_of in Hcopies.
  rewrite List.Forall_forall in Hcopies, Hq. apply List.Forall_forall.
  intros s Hs. destruct (Hcopies s Hs) as [Hin _]. apply (Hq _ Hin).
Qed.

(** X8 at a new parser and a document with a TOC page of two headings. *)
Lemma X8_parser_without_toc_witness :
  exists self1 self2,
    extract_toc cfg two_sections (init "Doc") = Ok self1 /\
    extract_sections cfg two_sections self1 = Ok self2 /\
    extract_sections cfg two_sections (init "Doc") = Ok self2 /\
    toc_entries self2 = toc_entries self1.
Proof.
  destruct (X8_sections_of_a_parser_without_toc cfg two_sections (init "Doc")
              eq_refl eq_refl) as (self1 & self2 & H1 & H2 & H3 & H4 & _).
  exists self1, self2.
  split; [exact H1|]. split; [exact H2|]. split; [exact H3 | exact H4].
Defined.

(** X9. For well-formed section numbers (numerals of at most 4300 digits,
    which [int] takes, joined by dots) [_is_next_section] returns, and its
    answer is [False] exactly when the other heading has more path
    components than [current_level] and its path is the current path with
    one more component: a direct child. Every other heading counts as the
    next section. *)
Theorem X9_only_a_direct_child_is_not_next current_id next_id current_level :
  wf_id current_id = true -> wf_id next_id = true ->
  exists b,
    _is_next_section current_id next_id current_level = Ok b /\
    (b = false <->
     current_level < len (components next_id) /\
     exists k, components next_id = components current_id ++ [k]).
Proof. apply is_next_section_false. Qed.

(** X9 at the headings 1 and 1.1. *)
Lemma X9_direct_child_witness :
  exists b,
    _is_next_section "1" "1.1" 1 = Ok b /\
    (b = false <->
     1 < len (components "1.1") /\
     exists k, components "1.1" = components "1" ++ [k]).
Proof.
  apply (X9_only_a_direct_child_is_not_next "1" "1.1" 1); reflexivity.
Defined.

(** X10. For a TOC and a current heading with well-formed section numbers
    (numerals of at most 4300 digits joined by dots),
    [_find_section_end_page] returns; the end page is the number of pages
    of the document or the page of a heading of the TOC with another
    section number, and it is the number of pages when the TOC has no
    heading with another section number. *)
Theorem X10_end_page_is_a_heading_page_or_the_last self pdf current :
  wf_id (section_id current) = true ->
  Forall (fun e => wf_id (section_id e) = true) (toc_entries self) ->
  exists end_page,
    _find_section_end_page self pdf current = Ok end_page /\
    (end_page = len pdf \/
     exists e, In e (toc_entries self) /\
               section_id e <> section_id current /\ end_page = page e) /\
    ((forall e, In e (toc_entries self) -> section_id e = section_id current) ->
     end_page = len pdf).
Proof.
  intros Hc Hwf. unfold _find_section_end_page.
  apply find_end_loop_cases; assumption.
Qed.

(** X10 at the TOC 1, 1.1, 1.2, 2 and its heading 1. *)
Lemma X10_end_page_witness :
  exists end_page,
    _find_section_end_page (parser_with range_toc) ten_pages (heading_at "1" 1 1)
      = Ok end_page /\
    (end_page = len ten_pages \/
     exists e, In e range_toc /\ section_id e <> "1" /\ end_page = page e) /\
    ((forall e, In e range_toc -> section_id e = "1") ->
     end_page = len ten_pages).
Proof.
  apply (X10_end_page_is_a_heading_page_or_the_last (parser_with range_toc)
           ten_pages (heading_at "1" 1 1)).
  - reflexivity.
  - repeat (apply List.Forall_cons; [reflexivity|]). apply List.Forall_nil.
Defined.

(** X11. In a TOC in ascending order of section number, as [extract_toc]
    stores it, with well-formed section numbers (numerals of at most 4300
    digits joined by dots), the span of every heading whose section number
    is not that of the first heading ends at the page of the first
    heading: the search for the next section starts at the first heading
    of the TOC, and the first heading is never a direct child of a later
    one. *)
Theorem X11_first_heading_ends_the_later_spans self pdf first tl current :
  toc_entries self = first :: tl ->
  ascending (toc_entries self) ->
  Forall (fun e => wf_id (section_id e) = true) (toc_entries self) ->
  In current (toc_entries self) ->
  section_id current <> section_id first ->
  _find_section_end_page self pdf current = Ok (page first).
Proof.
  intros Htoc Hasc Hwf Hin Hne. unfold _find_section_end_page.
  rewrite Htoc in *. unfold ascending in Hasc.
  inversion Hasc as [|? ? _ Hall]; subst.
  inversion Hwf as [|? ? Hf Hwf']; subst.
  destruct Hin as [->|Hin]; [contradiction Hne; reflexivity|].
  rewrite List.Forall_forall in Hall, Hwf'.
  apply first_heading_closes.
  - apply Hwf', Hin.
  - exact Hf.
  - intros E. apply Hne. symmetry. exact E.
  - apply Hall, Hin.
Qed.

(** X11 at the TOC 1, 1.1, 1.2, 2 and its heading 1.2 of page 4. *)
Lemma X11_first_heading_witness :
  _find_section_end_page (parser_with range_toc) ten_pages (heading_at "1.2" 4 2)
    = Ok 1.
Proof.
  apply (X11_first_heading_ends_the_later_spans (parser_with range_toc)
           ten_pages (heading_at "1" 1 1)
           [heading_at "1.1" 2 2; heading_at "1.2" 4 2; heading_at "2" 6 1]
           (heading_at "1.2" 4 2)).
  - reflexivity.
  - unfold ascending. sorted_headings.
  - repeat (apply List.Forall_cons; [reflexivity|]). apply List.Forall_nil.
  - right. right. left. reflexivity.
  - simpl. congruence.
Defined.

(** X12. The content of a heading that starts on page 1 or later is made
    of the pages from its page to its end page, the end page excluded (in
    Python, [pages[start_page - 1 : end_page]]): the texts of those that
    have one, joined by line feeds, and [None] when none has. *)
Theorem X12_content_is_the_text_of_the_page_range self pdf toc_entry end_page :
  _find_section_end_page self pdf toc_entry = Ok end_page ->
  1 <= page toc_entry ->
  _extract_section_content self pdf toc_entry =
    Ok (match texts_of (page_slice pdf (page toc_entry - 1) end_page) with
        | [] => None
        | t :: ts => Some (PyStr.join (String "010" EmptyString) (t :: ts))
        end).
Proof. apply extract_section_content_slice. Qed.

(** X12 at the TOC 1, 1.1, 1.2, 2 and its heading 1, whose span ends at
    page 6. *)
Lemma X12_content_witness :
  _extract_section_content (parser_with range_toc) ten_pages (heading_at "1" 1 1) =
    Ok (match texts_of (page_slice ten_pages 0 6) with
        | [] => None
        | t :: ts => Some (PyStr.join (String "010" EmptyString) (t :: ts))
        end).
Proof.
  apply (X12_content_is_the_text_of_the_page_range (parser_with range_toc)
           ten_pages (heading_at "1" 1 1) 6).
  - reflexivity.
  - simpl. lia.
Defined.

(** X13. In a returned analysis the totals are the lengths of the two
    inputs; the section numbers of the TOC are the missing ones and the
    common ones, those of the section entries the extra ones and the common
    ones, each counted once; the number of common ones exceeds neither
    total; and no section number is both missing and extra. *)
Theorem X13_analysis_splits_the_section_numbers toc sections a :
  analyze_toc_vs_parsed toc sections = Ok a ->
  total_toc_entries a = len toc /\
  total_parsed_entries a = len sections /\
  Z.of_nat (size (missing_from_parsed a)) + common_entries a
    = Z.of_nat (size (heading_ids toc)) /\
  Z.of_nat (size (extra_in_parsed a)) + common_entries a
    = Z.of_nat (size (content_ids sections)) /\
  common_entries a <= total_toc_entries a /\
  common_entries a <= total_parsed_entries a /\
  missing_from_parsed a ## extra_in_parsed a.
Proof.
  intros H. apply analyze_fields in H as (Ht & Hp & Hm & He & Hc & _ & _).
  rewrite Ht, Hp, Hm, He, Hc.
  pose proof (size_split (heading_ids toc) (content_ids sections)) as S1.
  pose proof (size_split (content_ids sections) (heading_ids toc)) as S2.
  assert (Hcomm : content_ids sections ∩ heading_ids toc
                  = heading_ids toc ∩ content_ids sections).
  { apply set_eq. intros x. rewrite !elem_of_intersection. tauto. }
  rewrite Hcomm in S2.
  pose proof (size_list_to_set_le (map section_id toc)) as L1.
  pose proof (size_list_to_set_le
                (map (fun s => section_id (heading s)) sections)) as L2.
  change (list_to_set (map section_id toc)) with (heading_ids toc) in L1.
  change (list_to_set (map (fun s => section_id (heading s)) sections))
    with (content_ids sections) in L2.
  rewrite length_map in L1, L2. unfold len.
  split; [reflexivity|]. split; [reflexivity|].
  split; [lia|]. split; [lia|]. split; [lia|]. split; [lia|].
  intros x H1 H2. apply elem_of_difference in H1. apply elem_of_difference in H2.
  tauto.
Qed.

(** X13 at the headings 1, 1, 2 with a section entry for 1. *)
Lemma X13_analysis_witness :
  exists a,
    analyze_toc_vs_parsed half_covered_toc half_covered_sections = Ok a /\
    total_toc_entries a = 3 /\ total_parsed_entries a = 1 /\
    common_entries a <= total_parsed_entries a.
Proof.
  eexists. split; [vm_compute; reflexivity|].
  destruct (X13_analysis_splits_the_section_numbers half_covered_toc
              half_covered_sections _ ltac:(vm_compute; reflexivity))
    as (H1 & H2 & _ & _ & _ & H6 & _).
  split; [exact H1|]. split; [exact H2 | exact H6].
Defined.

(** X14. Every order issue of a returned analysis is a real one: it names
    a section number that a heading of the TOC and a section entry share,
    gives the pages of the two, which differ, and their distance. There are
    no more order issues than headings. *)
Theorem X14_order_issues_are_real toc sections a :
  analyze_toc_vs_parsed toc sections = Ok a ->
  Forall (genuine_issue toc sections) (order_issues a) /\
  len (order_issues a) <= len toc.
Proof.
  intros H. apply analyze_fields in H as (_ & _ & _ & _ & _ & Hfold & _).
  destruct (order_loop_genuine toc sections toc [] _ (incl_refl toc) Hfold
              (List.Forall_nil _)) as [HF Hlen].
  split; [exact HF|]. unfold len. simpl in Hlen. lia.
Qed.

(** X14 at the headings 1, 1, 2 with a section entry for 1. *)
Lemma X14_order_issues_witness :
  exists a,
    analyze_toc_vs_parsed half_covered_toc half_covered_sections = Ok a /\
    Forall (genuine_issue half_covered_toc half_covered_sections)
      (order_issues a).
Proof.
  eexists. split; [vm_compute; reflexivity|].
  apply (X14_order_issues_are_real half_covered_toc half_covered_sections).
  vm_compute. reflexivity.
Defined.

(** X15. For a TOC with well-formed section numbers (numerals of at most
    4300 digits joined by dots), gap detection returns, and every gap it
    reports lies between two headings of the TOC
    of one level, the level of the gap: the first precedes the second in
    the order of section numbers, and the two section numbers have the same
    number of components, agree up to the last and are not consecutive. *)
Theorem X15_gaps_lie_between_headings_of_a_level toc :
  Forall (fun e => wf_id (section_id e) = true) toc ->
  exists gs, find_section_gaps toc = Ok gs /\ Forall (gap_between toc) gs.
Proof.
  intros Hwf. exists (gaps_spec toc).
  split; [apply GapFacts.find_section_gaps_wf, Hwf | apply gaps_spec_between].
Qed.

(** X15 at the siblings 2.1, 2.2, 2.4. *)
Lemma X15_gaps_witness :
  exists gs, find_section_gaps gap_toc = Ok gs /\ Forall (gap_between gap_toc) gs.
Proof.
  apply X15_gaps_lie_between_headings_of_a_level.
  repeat (apply List.Forall_cons; [reflexivity|]). apply List.Forall_nil.
Defined.

(** X16. The level distribution of the summary has an entry for a level
    exactly when the TOC has a heading of that level, and the entry is the
    number of these headings. *)
Theorem X16_level_distribution_counts_the_headings toc sections l :
  level_distribution (generate_summary_statistics toc sections) !! l =
    match at_level l toc with
    | [] => None
    | _ :: _ => Some (len (at_level l toc))
    end.
Proof.
  unfold generate_summary_statistics. cbn [level_distribution].
  rewrite count_levels_lookup, lookup_empty.
  destruct (at_level l toc); [reflexivity|].
  simpl default. rewrite Z.add_0_l. reflexivity.
Qed.

(** X17. The two page ranges of the summary span the pages of the headings
    of the TOC and those of the section entries: (0, 0) for an empty list,
    and otherwise the least and the greatest page, each the page of some
    entry. *)
Theorem X17_page_ranges_span_the_pages toc sections :
  spans (map page toc)
    (toc_page_range (generate_summary_statistics toc sections)) /\
  spans (map (fun s => page (heading s)) sections)
    (parsed_page_range (generate_summary_statistics toc sections)).
Proof.
  assert (H : forall pages, spans pages (page_range pages)).
  { intros [|p tl]; [reflexivity|]. apply page_range_bounds. discriminate. }
  split; apply H.
Qed.

(** X18. Every section entry that [extract_sections] makes has a content
    that is not empty, so the summary of its result counts all of them as
    sections with content: as many as the metadata count. *)
Theorem X18_every_extracted_section_has_content cfg pdf self self' :
  extract_sections cfg pdf self = Ok self' ->
  Forall (fun s => content s <> EmptyString) (section_entries self') /\
  sections_with_content
    (generate_summary_statistics (toc_entries self') (section_entries self'))
  = sections_count (metadata self').
Proof.
  unfold extract_sections. intros H.
  apply bind_Ok in H as (self1 & _ & H).
  apply bind_Ok in H as (sections & Hloop & H). injection H as <-.
  cbn [section_entries toc_entries metadata sections_count].
  apply extract_loop_truthy in Hloop; [|constructor].
  split; [exact Hloop|].
  unfold generate_summary_statistics. cbn [sections_with_content]. f_equal.
  induction Hloop as [|s tl Hs _ IH]; [reflexivity|].
  cbn [List.filter]. destruct (content s); [contradiction|].
  simpl. f_equal. exact IH.
Qed.

(** X18 at a document with a TOC page of two headings. *)
Lemma X18_extracted_sections_witness :
  exists self',
    extract_sections cfg two_sections (init "Doc") = Ok self' /\
    sections_with_content
      (generate_summary_statistics (toc_entries self') (section_entries self'))
    = 2.
Proof.
  eexists. split; [vm_compute; reflexivity|].
  destruct (X18_every_extracted_section_has_content cfg two_sections
              (init "Doc") _ ltac:(vm_compute; reflexivity)) as [_ H].
  rewrite H. reflexivity.
Defined.

(** X19. For a TOC with well-formed section numbers and section entries
    whose section numbers have a sort key (each component that
    [str.isdigit] accepts is a numeral that [int] takes), the validation
    report returns. Its rows are one row for each heading of the TOC and
    one for each section entry whose section number is not in the TOC, and
    no other; they are in ascending order of the integers of their section
    numbers; and the status of a row is EXTRA exactly when its section
    number is not in the TOC, MISSING when it is in the TOC and has no
    section entry, and OK when it is in both. *)
Theorem X19_report_rows toc sections :
  Forall (fun e => wf_id (section_id e) = true) toc ->
  Forall (fun s => key_ok (section_id (heading s)) = true) sections ->
  exists rows,
    generate_validation_report toc sections = Ok rows /\
    Permutation
      (map (toc_row sections) toc ++
       map extra_row (List.filter (not_in_toc toc) sections)) rows /\
    StronglySorted (fun a b => lex_le (row_key a) (row_key b)) rows /\
    Forall (status_tells toc sections) rows.
Proof.
  intros Hwf Hkeys. unfold generate_validation_report.
  destruct (AnalysisFacts.analyze_ok toc sections Hwf) as (a & -> & _).
  cbn [bind].
  destruct (sort_rows_ok (map (toc_row sections) toc ++
                          map extra_row (List.filter (not_in_toc toc) sections)))
    as (rows & -> & Hperm & Hsorted).
  { apply Forall_app. split.
    - apply List.Forall_forall. intros row Hrow.
      apply in_map_iff in Hrow as (e & <- & He). simpl.
      apply wf_key_ok. rewrite List.Forall_forall in Hwf. apply Hwf, He.
    - apply List.Forall_forall. intros row Hrow.
      apply in_map_iff in Hrow as (x & <- & Hx). simpl.
      apply filter_In in Hx as [Hx _].
      rewrite List.Forall_forall in Hkeys. apply Hkeys, Hx. }
  exists rows. split; [reflexivity|]. split; [exact Hperm|].
  split; [exact Hsorted|].
  apply List.Forall_forall. intros row Hrow. unfold status_tells.
  apply row_status_cases.
  eapply Permutation_in; [symmetry; exact Hperm | exact Hrow].
Qed.

(** X19 at the headings 1, 1, 2 with a section entry for 1: three rows. *)
Lemma X19_report_witness :
  exists rows,
    generate_validation_report half_covered_toc half_covered_sections = Ok rows /\
    map row_status rows = ["OK"; "OK"; "MISSING"].
Proof.
  destruct (X19_report_rows half_covered_toc half_covered_sections)
    as (rows & E & _).
  - repeat (apply List.Forall_cons; [reflexivity|]). apply List.Forall_nil.
  - repeat (apply List.Forall_cons; [reflexivity|]). apply List.Forall_nil.
  - exists rows. split; [exact E|].
    assert (E' := E). vm_compute in E'. injection E' as <-. reflexivity.
Defined.

(** X20. [extract_section_content] of [utils.py]: an empty text gives the
    empty text; a text in which the start marker does not occur is returned
    whole, not stripped; and when the end marker is a prefix of the start
    marker that occurs, the result is empty, because the search for the end
    marker begins at the start marker itself, not after it. So the text
    between two occurrences of one marker is never returned. *)
Theorem X20_markers text start_marker :
  (forall end_marker,
     extract_section_content EmptyString start_marker end_marker = EmptyString) /\
  (forall end_marker,
     PyStr.contains start_marker text = false ->
     extract_section_content text start_marker end_marker = text) /\
  (forall e,
     PyStr.contains start_marker text = true ->
     e <> EmptyString -> PyStr.starts_with e start_marker = true ->
     extract_section_content text start_marker (Some e) = EmptyString) /\
  extract_section_content "1 Scope text 2 Terms" "1 Scope" (Some "2 Terms")
    = "1 Scope text" /\
  extract_section_content "a Section b Section c" "Section" (Some "Section")
    = EmptyString.
Proof.
  split; [reflexivity|]. split; [|split; [|split; reflexivity]].
  - intros end_marker H. unfold extract_section_content.
    apply find_None_contains in H. rewrite H.
    destruct text; reflexivity.
  - intros e Hc He Hpre. unfold extract_section_content.
    destruct (PyStr.is_empty text); [reflexivity|].
    destruct (PyText.find start_marker text) as [i|] eqn:Ei.
    + apply find_starts in Ei.
      pose proof (starts_with_trans _ _ _ Hpre Ei) as Hs.
      apply find_at_start in Hs.
      destruct e as [|c e]; [contradiction|]. cbn [truthy].
      rewrite Hs. reflexivity.
    + apply find_None_contains in Ei. congruence.
Qed.

(** X21. A returned analysis has no order issue exactly when every heading
    of the TOC has the page of the first section entry with its section
    number, if there is one. *)
Theorem X21_no_order_issue_iff_the_pages_agree toc sections a :
  analyze_toc_vs_parsed toc sections = Ok a ->
  (order_issues a = [] <->
   forall e s, In e toc ->
               parsed_entry_of sections (section_id e) = Some s ->
               page e = page (heading s)).
Proof.
  intros H. apply analyze_fields in H as (_ & _ & _ & _ & _ & Hfold & _).
  rewrite (order_loop_empty toc sections toc [] _ (incl_refl toc) Hfold).
  split; [intros [_ Hall]; exact Hall | intros Hall; split; [reflexivity | exact Hall]].
Qed.

(** X21 at the headings 1, 1, 2 with a section entry for 1 on page 1. *)
Lemma X21_pages_agree_witness :
  exists a,
    analyze_toc_vs_parsed half_covered_toc half_covered_sections = Ok a /\
    order_issues a = [] /\
    forall e s, In e half_covered_toc ->
                parsed_entry_of half_covered_sections (section_id e) = Some s ->
                page e = page (heading s).
Proof.
  eexists. split; [vm_compute; reflexivity|].
  split; [reflexivity|].
  apply (X21_no_order_issue_iff_the_pages_agree half_covered_toc
           half_covered_sections _ ltac:(vm_compute; reflexivity)).
  reflexivity.
Defined.

(** X22. The title of every heading that the line parser returns has its
    whitespace normalised: every whitespace character in it is a space
    that stands alone between two other characters, and the title has no
    whitespace at its ends. *)
Theorem X22_titles_are_normalised line doc e :
  extract_toc_entry line doc = Ok (Some e) ->
  squeezed (title e) = true /\ PyStr.strip (title e) = title e.
Proof.
  unfold extract_toc_entry. intros H.
  destruct (PyStr.is_empty (PyStr.strip line)); [discriminate|].
  apply try_patterns_built in H as [m Hm].
  apply entry_of_match_title in Hm as [g2 ->].
  destruct (strip_ends g2) as [Hl Hr].
  destruct (sub_dash_ends _ Hl Hr) as [Hl' Hr'].
  destruct (sub_spaces_squeezed
              (Re.sub false Patterns.leading_dash EmptyString (PyStr.strip g2)))
    as [Hsq Hst].
  split; [exact Hsq | apply Hst; assumption].
Qed.

(** X22 at a line with a dash and runs of spaces in its title. *)
Lemma X22_titles_witness :
  exists e,
    extract_toc_entry "2.1 -  Power    Delivery ..... 5" "Doc" = Ok (Some e) /\
    title e = "Power Delivery" /\
    squeezed (title e) = true /\ PyStr.strip (title e) = title e.
Proof.
  eexists. split; [vm_compute; reflexivity|]. split; [reflexivity|].
  apply (X22_titles_are_normalised "2.1 -  Power    Delivery ..... 5" "Doc").
  vm_compute. reflexivity.
Defined.

(** X23. Extracting the sections a second time changes nothing: the parser
    that [extract_sections] returns is returned again by
    [extract_sections] on the same document. *)
Theorem X23_second_extraction_changes_nothing cfg pdf self self' :
  extract_sections cfg pdf self = Ok self' ->
  extract_sections cfg pdf self' = Ok self'.
Proof. apply extract_sections_again. Qed.

(** X23 at a document with a TOC page of two headings. *)
Lemma X23_second_extraction_witness :
  exists self',
    extract_sections cfg two_sections (init "Doc") = Ok self' /\
    extract_sections cfg two_sections self' = Ok self'.
Proof.
  eexists. split; [vm_compute; reflexivity|].
  apply (X23_second_extraction_changes_nothing cfg two_sections (init "Doc")).
  vm_compute. reflexivity.
Defined.

(** X24. The analysis of what [extract_sections] leaves, its TOC against
    its section entries, never has an extra section number, and there are
    no more section entries than headings: every section entry is made
    from a heading of the TOC. *)
Theorem X24_own_sections_are_never_extra cfg pdf self self' a :
  extract_sections cfg pdf self = Ok self' ->
  analyze_toc_vs_parsed (toc_entries self') (section_entries self') = Ok a ->
  extra_in_parsed a = ∅ /\ total_parsed_entries a <= total_toc_entries a.
Proof.
  intros H Ha. apply extract_sections_shape in H as (Hsub & _).
  apply analyze_fields in Ha as (Ht & Hp & _ & He & _).
  rewrite Ht, Hp, He. split.
  - apply set_eq. intros x. rewrite elem_of_difference. split.
    + intros [Hc Hh]. exfalso. apply Hh. unfold content_ids in Hc.
      apply elem_of_list_to_set, list_elem_of_In, in_map_iff in Hc
        as (s & <- & Hs).
      apply heading_id_in, list_elem_of_In.
      apply (elem_of_sublist _ _ _ (proj2 (list_elem_of_In _ _)
                                      (in_map heading _ _ Hs)) Hsub).
    + intros Hx. exfalso. exact (not_elem_of_empty x Hx).
  - apply sublist_length in Hsub. rewrite length_map in Hsub.
    unfold len. lia.
Qed.

(** X24 at a document with a TOC page of two headings. *)
Lemma X24_own_sections_witness :
  exists self' a,
    extract_sections cfg two_sections (init "Doc") = Ok self' /\
    analyze_toc_vs_parsed (toc_entries self') (section_entries self') = Ok a /\
    extra_in_parsed a = ∅.
Proof.
  eexists. eexists. split; [vm_compute; reflexivity|].
  split; [vm_compute; reflexivity|].
  apply (X24_own_sections_are_never_extra cfg two_sections (init "Doc") _ _
           ltac:(vm_compute; reflexivity) ltac:(vm_compute; reflexivity)).
Defined.


(** X25. The only exception of the line parser is the [ValueError] of
    [int], which reads the page number outside the [try] of the loop, and
    it is raised on a line of more than 4300 characters only: a line whose
    page number has more digits than [int] takes. *)
Theorem X25_line_parser_raises_on_long_numerals_only line doc x :
  extract_toc_entry line doc = Raise x ->
  x = ValueError /\ short line = false.
Proof.
  intros H. pose proof (ParserFacts.extract_toc_entry_spec line doc) as Hs.
  rewrite H in Hs. exact Hs.
Qed.

(** X25 at the line "1 a " followed by 4301 nines: the line parser raises
    [ValueError]. *)
Lemma X25_long_numeral_witness :
  extract_toc_entry Samples.long_page_line "Doc" = Raise ValueError /\
  short Samples.long_page_line = false.
Proof.
  split; [vm_compute; reflexivity|].
  apply (X25_line_parser_raises_on_long_numerals_only
           Samples.long_page_line "Doc" ValueError).
  vm_compute. reflexivity.
Defined.
